(** * GavelAI backend: verdict parsing, evaluation runs, statistics, uploads

    A shallow embedding of [backend/ollama_client.py], [backend/database.py]
    and [backend/main.py].

    Python [str] values are modelled by [string], read as ASCII text
    ([str.isascii], [isascii] below): on ASCII text [strip], [upper],
    [lower], [float] and [int] look at ASCII whitespace, letters and digits
    only and do not depend on the Unicode tables.  Outside ASCII Python
    also strips Unicode white space, maps letters such as the dotless i to
    ASCII and reads Unicode digits, which the functions below do not do:
    the theorems about what a text parses to are stated for ASCII text.
    Python [int] is [Z] (or [nat] for
    counters that only grow), Python [float] is an IEEE binary64 value kept
    as sign, mantissa and binary exponent.  Exceptions are values of
    [PyExc], and a call that may raise returns an [Outcome]. *)

From Stdlib Require Import ZArith List Bool Ascii String DecimalString Lia.
From Stdlib Require Import Sorted Permutation.
Import ListNotations.

Open Scope list_scope.
Open Scope string_scope.

(* ================================================================== *)
(** ** Python run-time model *)
(* ================================================================== *)

Module Py.

(** Exception classes met in the three files.  [HTTPError] stands for
    [httpx.HTTPError] and its subclasses, [OperationalError] for
    [sqlite3.OperationalError], [HTTPException] for FastAPI's response
    exception, [OtherException] for any further subclass of [Exception]. *)
Inductive ExcClass : Type :=
| HTTPError
| ValueError
| IndexError
| OverflowError
| OperationalError
| HTTPException
| OtherException.

(** An exception object: its class and [str(e)]. *)
Record PyExc : Type := mkExc { exc_class : ExcClass; exc_msg : string }.

Inductive Outcome (A : Type) : Type :=
| Returned (a : A)
| Raised (e : PyExc).
Arguments Returned {A} a.
Arguments Raised {A} e.

Definition bind {A B : Type} (m : Outcome A) (k : A -> Outcome B) : Outcome B :=
  match m with
  | Returned a => k a
  | Raised e => Raised e
  end.

Definition exc_class_eqb (a b : ExcClass) : bool :=
  match a, b with
  | HTTPError, HTTPError | ValueError, ValueError | IndexError, IndexError
  | OverflowError, OverflowError | OperationalError, OperationalError
  | HTTPException, HTTPException | OtherException, OtherException => true
  | _, _ => false
  end.

(** [try: body  except (c1, c2, ...): handler] *)
Definition try_except {A : Type} (body : Outcome A) (classes : list ExcClass)
           (handler : PyExc -> Outcome A) : Outcome A :=
  match body with
  | Returned a => Returned a
  | Raised e =>
      if existsb (exc_class_eqb (exc_class e)) classes then handler e else Raised e
  end.

(** *** Characters *)

Definition newline : ascii := "010"%char.
Definition double_quote : ascii := "034"%char.

(** [c < 128] *)
Definition isascii_char (c : ascii) : bool := (nat_of_ascii c <? 128)%nat.

(** [str.isspace] on ASCII: TAB, LF, VT, FF, CR, FS, GS, RS, US, SPACE. *)
Definition isspace (c : ascii) : bool :=
  let n := nat_of_ascii c in
  ((9 <=? n) && (n <=? 13) || (28 <=? n) && (n <=? 32))%nat.

Definition isdigit (c : ascii) : bool :=
  let n := nat_of_ascii c in ((48 <=? n) && (n <=? 57))%nat.

Definition digit_value (c : ascii) : Z := Z.of_nat (nat_of_ascii c) - 48.

Definition upper_char (c : ascii) : ascii :=
  let n := nat_of_ascii c in
  if ((97 <=? n) && (n <=? 122))%nat then ascii_of_nat (n - 32) else c.

Definition lower_char (c : ascii) : ascii :=
  let n := nat_of_ascii c in
  if ((65 <=? n) && (n <=? 90))%nat then ascii_of_nat (n + 32) else c.

(** *** [str] methods *)

(** [s.isascii()] *)
Fixpoint isascii (s : string) : bool :=
  match s with
  | EmptyString => true
  | String c s' => isascii_char c && isascii s'
  end.

Fixpoint map_chars (f : ascii -> ascii) (s : string) : string :=
  match s with
  | EmptyString => EmptyString
  | String c s' => String (f c) (map_chars f s')
  end.

Definition upper : string -> string := map_chars upper_char.
Definition lower : string -> string := map_chars lower_char.

Fixpoint lstrip (s : string) : string :=
  match s with
  | EmptyString => EmptyString
  | String c s' => if isspace c then lstrip s' else s
  end.

Fixpoint rstrip (s : string) : string :=
  match s with
  | EmptyString => EmptyString
  | String c s' =>
      match rstrip s' with
      | EmptyString => if isspace c then EmptyString else String c EmptyString
      | r => String c r
      end
  end.

Definition strip (s : string) : string := rstrip (lstrip s).

(** [s.startswith(p)] *)
Definition startswith (s p : string) : bool := prefix p s.

(** [s.split(sep)] for a one-character separator: never empty. *)
Fixpoint split (sep : ascii) (s : string) : list string :=
  match s with
  | EmptyString => [EmptyString]
  | String c s' =>
      if Ascii.eqb c sep then EmptyString :: split sep s'
      else match split sep s' with
           | h :: t => String c h :: t
           | [] => [String c EmptyString]
           end
  end.

(** The text before and after the first [sep], when there is one. *)
Fixpoint partition (sep : ascii) (s : string) : option (string * string) :=
  match s with
  | EmptyString => None
  | String c s' =>
      if Ascii.eqb c sep then Some (EmptyString, s')
      else match partition sep s' with
           | Some (a, b) => Some (String c a, b)
           | None => None
           end
  end.

(** [s.split(sep, 1)] *)
Definition split1 (sep : ascii) (s : string) : list string :=
  match partition sep s with
  | Some (a, b) => [a; b]
  | None => [s]
  end.

(** [l[i]] on a list of strings. *)
Definition getitem (l : list string) (i : nat) : Outcome string :=
  match nth_error l i with
  | Some x => Returned x
  | None => Raised (mkExc IndexError "list index out of range")
  end.

(** [s.replace(c, "")] for a one-character [c]. *)
Fixpoint remove_char (c : ascii) (s : string) : string :=
  match s with
  | EmptyString => EmptyString
  | String d s' => if Ascii.eqb d c then remove_char c s' else String d (remove_char c s')
  end.

Fixpoint drop (n : nat) (s : string) : string :=
  match n, s with
  | O, _ => s
  | S n', String _ s' => drop n' s'
  | S _, EmptyString => EmptyString
  end.

(** [x in l] for strings. *)
Definition str_in (x : string) (l : list string) : bool := existsb (String.eqb x) l.

(** [sub in s] *)
Fixpoint contains (s sub : string) : bool :=
  prefix sub s ||
  match s with
  | EmptyString => false
  | String _ s' => contains s' sub
  end.

(** *** [float] *)

(** A binary64 value: NaN, an infinity, or [(-1)^negative * m * 2^e] with
    [m < 2^53] and [-1074 <= e <= 971] (zero is [m = 0]). *)
Inductive PyFloat : Type :=
| FNan
| FInf (negative : bool)
| FFinite (negative : bool) (m : Z) (e : Z).

(** Nearest integer to [a / b] ([b > 0]), ties to even. *)
Definition round_half_even (a b : Z) : Z :=
  let q := (a / b)%Z in
  match (2 * (a mod b) ?= b)%Z with
  | Lt => q
  | Gt => (q + 1)%Z
  | Eq => if Z.even q then q else (q + 1)%Z
  end.

(** [n / (d * 2^e)] as a fraction of integers. *)
Definition scaled (n d e : Z) : Z * Z :=
  if (0 <=? e)%Z then (n, (d * 2 ^ e)%Z) else ((n * 2 ^ (- e))%Z, d).

(** The binary64 value nearest to the positive rational [n / d]
    (round to nearest, ties to even; overflow gives an infinity):
    what IEEE arithmetic and a correctly rounded [strtod] return. *)
Definition binary64 (negative : bool) (n d : Z) : PyFloat :=
  let l := (Z.log2 n - Z.log2 d)%Z in
  let '(a0, b0) := scaled n d l in
  let fl := if (b0 <=? a0)%Z then l else (l - 1)%Z in
  let e := Z.max (-1074) (fl - 52) in
  let '(a, b) := scaled n d e in
  let m := round_half_even a b in
  let '(m', e') := if (m =? 2 ^ 53)%Z then ((2 ^ 52)%Z, (e + 1)%Z) else (m, e) in
  if (971 <? e')%Z then FInf negative else FFinite negative m' e'.

(** [(-1)^negative * m * 10^e10] rounded to binary64. *)
Definition decimal_to_double (negative : bool) (m e10 : Z) : PyFloat :=
  if (m =? 0)%Z then FFinite negative 0 0
  else if (0 <=? e10)%Z then binary64 negative (m * 10 ^ e10) 1
  else binary64 negative m (10 ^ (- e10)).

(** The digit-group rule of [float] and [int] literals: an underscore is
    accepted only between two digits; accepted underscores are dropped. *)
Fixpoint strip_underscores (prev : option ascii) (s : string) : option string :=
  match s with
  | EmptyString =>
      match prev with
      | Some p => if Ascii.eqb p "_" then None else Some EmptyString
      | None => Some EmptyString
      end
  | String c s' =>
      if Ascii.eqb c "_" then
        match prev with
        | Some p => if isdigit p then strip_underscores (Some c) s' else None
        | None => None
        end
      else
        match prev with
        | Some p =>
            if Ascii.eqb p "_" && negb (isdigit c) then None
            else option_map (String c) (strip_underscores (Some c) s')
        | None => option_map (String c) (strip_underscores (Some c) s')
        end
  end.

Definition read_sign (s : string) : bool * string :=
  match s with
  | String "-" s' => (true, s')
  | String "+" s' => (false, s')
  | _ => (false, s)
  end.

(** Reads a run of digits: accumulated value, number of digits, rest. *)
Fixpoint read_digits (acc : Z) (cnt : nat) (s : string) : Z * nat * string :=
  match s with
  | String c s' =>
      if isdigit c then read_digits (acc * 10 + digit_value c)%Z (S cnt) s'
      else (acc, cnt, s)
  | EmptyString => (acc, cnt, s)
  end.

(** The decimal grammar of [strtod]: sign, digits, optional point and
    digits (one digit at least), optional exponent (left unread when it has
    no digit).  Result: sign, decimal mantissa, decimal exponent, rest. *)
Definition strtod (s : string) : option (bool * Z * Z * string) :=
  let (neg, s1) := read_sign s in
  let '(ip, ni, s2) := read_digits 0 0 s1 in
  let '(m, nf, s3) :=
    match s2 with
    | String "." t => read_digits ip 0 t
    | _ => (ip, O, s2)
    end in
  if (ni + nf =? 0)%nat then None
  else
    let '(ex, s4) :=
      match s3 with
      | String c t =>
          if Ascii.eqb (lower_char c) "e" then
            let (eneg, t1) := read_sign t in
            let '(ev, ne, t2) := read_digits 0 0 t1 in
            if (ne =? 0)%nat then (0%Z, s3)
            else ((if eneg then - ev else ev)%Z, t2)
          else (0%Z, s3)
      | EmptyString => (0%Z, s3)
      end in
    Some (neg, m, (ex - Z.of_nat nf)%Z, s4).

(** [inf], [infinity] and [nan], signed, in any letter case. *)
Definition parse_inf_or_nan (s : string) : option (PyFloat * string) :=
  let (neg, s1) := read_sign s in
  if prefix "inf" (lower s1) then
    let s2 := drop 3 s1 in
    if prefix "inity" (lower s2) then Some (FInf neg, drop 5 s2)
    else Some (FInf neg, s2)
  else if prefix "nan" (lower s1) then Some (FNan, drop 3 s1)
  else None.

Definition float_value_error (s : string) : PyExc :=
  mkExc ValueError ("could not convert string to float: '" ++ s ++ "'").

(** [float(s)] for a string [s]: the whole stripped text has to be a
    literal. *)
Definition float_of_str (s : string) : Outcome PyFloat :=
  match strip_underscores None (strip s) with
  | None => Raised (float_value_error s)
  | Some t =>
      match strtod t with
      | Some (neg, m, e10, EmptyString) => Returned (decimal_to_double neg m e10)
      | Some _ => Raised (float_value_error s)
      | None =>
          match parse_inf_or_nan t with
          | Some (f, EmptyString) => Returned f
          | _ => Raised (float_value_error s)
          end
      end
  end.

(** [int(x)] for a float [x]: truncation toward zero. *)
Definition int_of_float (x : PyFloat) : Outcome Z :=
  match x with
  | FNan => Raised (mkExc ValueError "cannot convert float NaN to integer")
  | FInf _ => Raised (mkExc OverflowError "cannot convert float infinity to integer")
  | FFinite neg m e =>
      let a := if (0 <=? e)%Z then (m * 2 ^ e)%Z else (m / 2 ^ (- e))%Z in
      Returned (if neg then (- a)%Z else a)
  end.

(** [int(s)] for a string [s], base ten. *)
Definition int_of_str (s : string) : Outcome Z :=
  let bad := mkExc ValueError ("invalid literal for int() with base 10: '" ++ s ++ "'") in
  match strip_underscores None (strip s) with
  | None => Raised bad
  | Some t =>
      let (neg, t1) := read_sign t in
      match read_digits 0 0 t1 with
      | (_, O, _) => Raised bad
      | (v, S _, EmptyString) => Returned (if neg then (- v)%Z else v)
      | (_, S _, String _ _) => Raised bad
      end
  end.

(** [str(n)] for a natural number. *)
Definition str_of_nat (n : nat) : string := NilEmpty.string_of_uint (Nat.to_uint n).

(** The binary64 value nearest to the rational [n / d], [d > 0]. *)
Definition float_of_fraction (n d : Z) : PyFloat :=
  if (n =? 0)%Z then FFinite false 0 0
  else binary64 (n <? 0)%Z (Z.abs n) d.

(** [float(n)] for an integer, and the literal [0.0]. *)
Definition float_of_int (n : Z) : PyFloat := float_of_fraction n 1.
Definition float_zero : PyFloat := FFinite false 0 0.

(** [a / b] for integers, [b > 0]: the quotient, correctly rounded. *)
Definition int_truediv (a b : Z) : PyFloat := float_of_fraction a b.

(** The magnitude [m * 2^e] as a fraction. *)
Definition magnitude (m e : Z) : Z * Z :=
  if (0 <=? e)%Z then ((m * 2 ^ e)%Z, 1%Z) else (m, (2 ^ (- e))%Z).

(** [x * y] for floats. *)
Definition float_mul (x y : PyFloat) : PyFloat :=
  match x, y with
  | FNan, _ | _, FNan => FNan
  | FInf nx, FInf ny => FInf (xorb nx ny)
  | FInf nx, FFinite ny m _ | FFinite nx m _, FInf ny =>
      if (m =? 0)%Z then FNan else FInf (xorb nx ny)
  | FFinite nx mx ex, FFinite ny my ey =>
      if (mx * my =? 0)%Z then FFinite (xorb nx ny) 0 0
      else let (a, b) := magnitude (mx * my) (ex + ey) in binary64 (xorb nx ny) a b
  end.

(** [round(x, ndigits)] for a float and a small [ndigits >= 0]: the exact
    value of [x] rounded half-even to [ndigits] decimals, then to
    binary64. *)
Definition round_ndigits (x : PyFloat) (ndigits : nat) : PyFloat :=
  match x with
  | FFinite neg m e =>
      let (a, b) := magnitude m e in
      let p := (10 ^ Z.of_nat ndigits)%Z in
      let k := round_half_even (a * p) b in
      if (k =? 0)%Z then FFinite neg 0 0 else binary64 neg k p
  | _ => x
  end.

End Py.

Import Py.

Notation "x <- m ;; k" := (bind m (fun x => k))
  (at level 61, m at next level, right associativity).

(* ================================================================== *)
(** ** [ollama_client.py]: [parse_verdict] *)
(* ================================================================== *)

Module OllamaClient.

(** The three local variables of [parse_verdict]. *)
Record Parsed : Type := mkParsed {
  verdict : string;
  reasoning : string;
  confidence : Z
}.

(** The body of the [try] block of the [CONFIDENCE:] branch. *)
Definition confidence_try (line : string) : Outcome Z :=
  after <- getitem (split1 ":" line) 1 ;;
  let raw := strip after in
  before <- getitem (split "/" (remove_char "%" raw)) 0 ;;
  let raw := strip before in
  x <- float_of_str raw ;;
  n <- int_of_float x ;;
  Returned (Z.max 0 (Z.min 100 n)).

(** One iteration of [for line in lines]. *)
Definition scan_line (st : Parsed) (line0 : string) : Outcome Parsed :=
  let line := strip line0 in
  if startswith (upper line) "VERDICT:" then
    after <- getitem (split1 ":" line) 1 ;;
    let verdict_text := lower (strip after) in
    if str_in verdict_text ["pass"; "fail"; "inconclusive"]
    then Returned (mkParsed verdict_text (reasoning st) (confidence st))
    else Returned st
  else if startswith (upper line) "REASONING:" then
    after <- getitem (split1 ":" line) 1 ;;
    Returned (mkParsed (verdict st) (strip after) (confidence st))
  else if startswith (upper line) "CONFIDENCE:" then
    c <- try_except (confidence_try line) [ValueError; IndexError]
                    (fun _ => Returned 50%Z) ;;
    Returned (mkParsed (verdict st) (reasoning st) c)
  else Returned st.

(** The [for] loop: an exception leaves it at once. *)
Fixpoint scan_lines (st : Parsed) (lines : list string) : Outcome Parsed :=
  match lines with
  | [] => Returned st
  | line :: rest => st' <- scan_line st line ;; scan_lines st' rest
  end.

Definition response_lines (response : string) : list string :=
  split newline (strip response).

Definition parse_verdict (response : string) : Outcome (string * string * Z) :=
  let lines := response_lines response in
  st <- scan_lines (mkParsed "inconclusive" "" 50) lines ;;
  let reasoning :=
    if String.eqb (reasoning st) "" then strip response else reasoning st in
  Returned (verdict st, reasoning, confidence st).

End OllamaClient.

Import OllamaClient.

(* ================================================================== *)
(** ** [models.py]: the upload payload *)
(* ================================================================== *)

Module Models.

Record QuestionData : Type := mkQuestionData {
  id : string;
  questionType : string;
  questionText : string;
  content : option string
}.

Record Question : Type := mkQuestion { rev : Z; data : QuestionData }.

Record Answer : Type := mkAnswer { choice : string; reasoning : option string }.

(** [answers] is a [Dict[str, Answer]]: its items in insertion order, keys
    pairwise distinct.  [raw] is [json.dumps(sub_data)], the text stored in
    [raw_data]. *)
Record Submission : Type := mkSubmission {
  sub_id : string;
  queueId : string;
  labelingTaskId : string;
  createdAt : Z;
  questions : list Question;
  answers : list (string * Answer);
  raw : string
}.

Definition well_formed (s : Submission) : Prop := NoDup (map fst (answers s)).

End Models.

(* ================================================================== *)
(** ** [database.py]: tables *)
(* ================================================================== *)

Module Database.

Record SubmissionRow : Type := mkSubmissionRow {
  s_id : string;
  s_queue_id : string;
  s_labeling_task_id : string;
  s_created_at : Z;
  s_raw_data : string
}.

Record QuestionRow : Type := mkQuestionRow {
  q_id : Z;
  q_submission_id : string;
  q_question_template_id : string;
  q_question_type : string;
  q_question_text : string;
  q_content : option string;
  q_rev : Z
}.

Record AnswerRow : Type := mkAnswerRow {
  a_id : Z;
  a_submission_id : string;
  a_question_template_id : string;
  a_choice : string;
  a_reasoning : option string
}.

Record JudgeRow : Type := mkJudgeRow {
  j_id : Z;
  j_name : string;
  j_system_prompt : string;
  j_model_name : string;
  j_active : bool;
  j_created_at : string
}.

Record AssignmentRow : Type := mkAssignmentRow {
  ja_id : Z;
  ja_queue_id : string;
  ja_question_template_id : string;
  ja_judge_id : Z;
  ja_created_at : string
}.

Record EvaluationRow : Type := mkEvaluationRow {
  e_id : Z;
  e_submission_id : string;
  e_question_template_id : string;
  e_judge_id : Z;
  e_verdict : string;
  e_reasoning : string;
  e_confidence_score : Z;
  e_created_at : string
}.

Definition Columns : Type := list string.

(** The database file.  [init_db] creates each table only when it is not
    there yet (CREATE TABLE IF NOT EXISTS), so the columns of a table are
    those of the file at hand.  For [submissions], [answers], [judges] and
    [judge_assignments] every statement of [main.py] names declared columns
    only and the rows are all that matters; [main.py] names a column
    [content] of [questions] and a column [confidence_score] of
    [evaluations], which [init_db] does not declare, so the column lists of
    these two tables are part of the state ([q_content] and
    [e_confidence_score] are read only when the column exists). *)
Record Db : Type := mkDb {
  questions_columns : Columns;
  evaluations_columns : Columns;
  submissions : list SubmissionRow;
  questions : list QuestionRow;
  answers : list AnswerRow;
  judges : list JudgeRow;
  judge_assignments : list AssignmentRow;
  evaluations : list EvaluationRow
}.

(** CREATE TABLE questions / evaluations, as [init_db] writes them. *)
Definition init_db_questions_columns : Columns :=
  ["id"; "submission_id"; "question_template_id"; "question_type";
   "question_text"; "rev"].

Definition init_db_evaluations_columns : Columns :=
  ["id"; "submission_id"; "question_template_id"; "judge_id"; "verdict";
   "reasoning"; "created_at"].

(** [init_db] on a file: a new file gets the declared tables, empty; the
    tables of an existing file are left as they are. *)
Definition init_db (file : option Db) : Db :=
  match file with
  | Some d => d
  | None => mkDb init_db_questions_columns init_db_evaluations_columns
                 [] [] [] [] [] []
  end.

(** The first column a statement names that the table does not have. *)
Definition missing_column (table : Columns) (named : list string) : option string :=
  find (fun c => negb (str_in c table)) named.

(** SQLite's errors for an unknown column, in a query and in an INSERT. *)
Definition no_such_column (c : string) : PyExc :=
  mkExc OperationalError ("no such column: " ++ c).

Definition no_column_named (table c : string) : PyExc :=
  mkExc OperationalError ("table " ++ table ++ " has no column named " ++ c).

(** INTEGER PRIMARY KEY AUTOINCREMENT, on a table that has lost none of
    its rows: one more than the largest id of the table.  SQLite keeps the
    largest id ever given in [sqlite_sequence] and does not give the id of
    a deleted row again; that counter is not part of [Db], so after a
    deletion of the last row the id modelled here is the one an
    INTEGER PRIMARY KEY without AUTOINCREMENT would get.  The statements
    below about new rows say that the id is new, not which one it is. *)
Definition next_id {R : Type} (key : R -> Z) (rows : list R) : Z :=
  (fold_left Z.max (map key rows) 0 + 1)%Z.

(** A Python [int] that [sqlite3] can bind to a statement: a signed 64-bit
    integer.  Binding another one raises [OverflowError]. *)
Definition sqlite_integer (z : Z) : bool :=
  ((- 2 ^ 63 <=? z) && (z <? 2 ^ 63))%Z.

Definition int_too_large : PyExc :=
  mkExc OverflowError "Python int too large to convert to SQLite INTEGER".

(** The rows of a scan of an index on an integer column: in the order of
    the key, rows with the same key in the order of the table. *)
Fixpoint insert_by_key {R : Type} (key : R -> Z) (r : R) (rows : list R) : list R :=
  match rows with
  | [] => [r]
  | r' :: rest =>
      if (key r <=? key r')%Z then r :: rows else r' :: insert_by_key key r rest
  end.

Definition index_order {R : Type} (key : R -> Z) (rows : list R) : list R :=
  fold_right (insert_by_key key) [] rows.

Definition with_evaluations (d : Db) (rows : list EvaluationRow) : Db :=
  mkDb (questions_columns d) (evaluations_columns d) (submissions d)
       (questions d) (answers d) (judges d) (judge_assignments d) rows.

Definition with_submissions (d : Db) (rows : list SubmissionRow) : Db :=
  mkDb (questions_columns d) (evaluations_columns d) rows
       (questions d) (answers d) (judges d) (judge_assignments d) (evaluations d).

Definition with_questions (d : Db) (rows : list QuestionRow) : Db :=
  mkDb (questions_columns d) (evaluations_columns d) (submissions d)
       rows (answers d) (judges d) (judge_assignments d) (evaluations d).

Definition with_answers (d : Db) (rows : list AnswerRow) : Db :=
  mkDb (questions_columns d) (evaluations_columns d) (submissions d)
       (questions d) rows (judges d) (judge_assignments d) (evaluations d).

End Database.

Import Database.

(* ================================================================== *)
(** ** [main.py] *)
(* ================================================================== *)

Module Main.

(** Python truth value of an optional string: [None] and the empty string
    are false. *)
Definition truthy (o : option string) : option string :=
  match o with
  | Some s => if String.eqb s "" then None else Some s
  | None => None
  end.

(** *** The world outside the process

    [generate n model prompt system] is what [ollama_client.generate]
    does on the call that follows [n] earlier calls: it returns the
    response text or raises.  [now n] is [datetime.now().isoformat()] read
    after that call. *)
Record Backend : Type := mkBackend {
  generate : nat -> string -> string -> string -> Outcome string;
  now : nat -> string
}.

(** The arguments of one [generate] call. *)
Record GenerateCall : Type := mkCall {
  call_model : string;
  call_prompt : string;
  call_system : string
}.

(** *** [run_evaluations] *)

Record RunEvaluationResponse : Type := mkResponse {
  planned : nat;
  completed : nat;
  failed : nat;
  errors : list string
}.

(** The local variables of a run, the database and the calls made. *)
Record RunState : Type := mkRunState {
  st_db : Db;
  st_planned : nat;
  st_completed : nat;
  st_failed : nat;
  st_errors : list string;
  st_calls : list GenerateCall
}.

(** SELECT id FROM submissions WHERE queue_id = ? *)
Definition select_submission_ids (d : Db) (queue_id : string) : list string :=
  map s_id (filter (fun r => String.eqb (s_queue_id r) queue_id) (submissions d)).

(** SELECT question_template_id, question_text, content FROM questions
    WHERE submission_id = ? *)
Definition select_questions (d : Db) (sub_id : string) : Outcome (list QuestionRow) :=
  match missing_column (questions_columns d)
          ["question_template_id"; "question_text"; "content"; "submission_id"] with
  | Some c => Raised (no_such_column c)
  | None =>
      Returned (filter (fun r => String.eqb (q_submission_id r) sub_id) (questions d))
  end.

(** SELECT j.id, j.name, j.system_prompt, j.model_name FROM judges j
    JOIN judge_assignments ja ON j.id = ja.judge_id
    WHERE ja.queue_id = ? AND ja.question_template_id = ? AND j.active = 1.
    SQLite reads the assignments of the question from the index that
    UNIQUE(queue_id, question_template_id, judge_id) creates, so they come
    in the order of [judge_id], and joins each with its judge by id. *)
Definition select_assigned_judges (d : Db) (queue_id q_template_id : string)
  : list JudgeRow :=
  flat_map
    (fun ja => filter (fun j => Z.eqb (j_id j) (ja_judge_id ja) && j_active j) (judges d))
    (index_order ja_judge_id
       (filter (fun ja => String.eqb (ja_queue_id ja) queue_id
                          && String.eqb (ja_question_template_id ja) q_template_id)
               (judge_assignments d))).

(** SELECT choice, reasoning FROM answers WHERE submission_id = ? AND
    question_template_id = ?, then [fetchone()]. *)
Definition select_answer (d : Db) (sub_id q_template_id : string) : option AnswerRow :=
  find (fun a => String.eqb (a_submission_id a) sub_id
                 && String.eqb (a_question_template_id a) q_template_id)
       (answers d).

(** INSERT INTO evaluations (submission_id, question_template_id, judge_id,
    verdict, reasoning, confidence_score, created_at) VALUES (...), and the
    commit. *)
Definition insert_evaluation (d : Db) (sub_id q_template_id : string) (judge_id : Z)
    (verdict reasoning : string) (confidence : Z) (created_at : string) : Outcome Db :=
  match missing_column (evaluations_columns d)
          ["submission_id"; "question_template_id"; "judge_id"; "verdict";
           "reasoning"; "confidence_score"; "created_at"] with
  | Some c => Raised (no_column_named "evaluations" c)
  | None =>
      Returned (with_evaluations d
        (evaluations d ++
         [mkEvaluationRow (next_id e_id (evaluations d)) sub_id q_template_id judge_id
                          verdict reasoning confidence created_at])%list)
  end.

Definition context_section (q_content : option string) : string :=
  match truthy q_content with
  | None => ""
  | Some q_content =>
  "
=== CONTEXT ===
The following is the source material that the question and answer refer to. You MUST use this context to verify the accuracy of the answer. Do not evaluate the answer in isolation — ground your judgment in the specific details provided here.

" ++
  q_content ++
  "

"
  end.

Definition build_prompt (q_text : string) (q_content : option string)
           (answer_text : string) : string :=
  let context_section := context_section q_content in
  context_section ++
  "=== QUESTION BEING EVALUATED ===
" ++
  q_text ++
  "

=== HUMAN ANALYST'S ANSWER ===
" ++
  answer_text ++
  "

=== YOUR EVALUATION TASK ===
You are evaluating whether the human analyst's answer above is correct and well-reasoned. Analyze it against the following criteria:

1. **Factual Accuracy**: Does the chosen answer correctly reflect what is shown in the context? Are specific values, thresholds, and facts cited accurately?
2. **Reasoning Consistency**: Does the reasoning logically support the stated choice? If the reasoning contradicts the choice (e.g., the reasoning describes a violation but the choice says " ++
  String double_quote "" ++
  "compliant" ++
  String double_quote "" ++
  "), this is a FAIL regardless of whether either part is independently correct.
3. **Completeness**: Does the reasoning address the key factors relevant to the question, or does it overlook critical details present in the context?
4. **Domain Correctness**: Are domain-specific terms, standards, and thresholds applied correctly?

IMPORTANT RULES:
- A contradictory answer (where reasoning contradicts the choice) is always a FAIL.
- If the context provides specific data that clearly supports or refutes the answer, use it. Do not speculate beyond what is given.
- If there is insufficient context to make a determination, verdict should be INCONCLUSIVE.
- Be precise in your reasoning — cite specific values, thresholds, or code patterns from the context.

Respond in EXACTLY this format (three lines, no extra text):
VERDICT: pass|fail|inconclusive
REASONING: [Your detailed explanation citing specific evidence from the context]
CONFIDENCE: [0-100, where 100 means absolute certainty in your verdict]".

Definition answer_text (a : AnswerRow) : string :=
  let answer_text := ("Choice: " ++ a_choice a)%string in
  match truthy (a_reasoning a) with
  | Some r => (answer_text ++ String newline "Reasoning: " ++ r)%string
  | None => answer_text
  end.

(** The [try] block of the judge loop: what it leaves behind and how it
    ends. *)
Definition attempt (backend : Backend) (sub_id q_template_id q_text : string)
    (q_content : option string) (answer_text : string) (judge_row : JudgeRow)
    (st : RunState) : RunState * Outcome unit :=
  let prompt := build_prompt q_text q_content answer_text in
  let n := List.length (st_calls st) in
  let st1 := mkRunState (st_db st) (st_planned st) (st_completed st) (st_failed st)
               (st_errors st)
               (st_calls st ++
                [mkCall (j_model_name judge_row) prompt (j_system_prompt judge_row)])%list in
  match generate backend n (j_model_name judge_row) prompt (j_system_prompt judge_row) with
  | Raised e => (st1, Raised e)
  | Returned response =>
      match parse_verdict response with
      | Raised e => (st1, Raised e)
      | Returned (verdict, reasoning, confidence) =>
          let created_at := now backend n in
          match insert_evaluation (st_db st1) sub_id q_template_id (j_id judge_row)
                  verdict reasoning confidence created_at with
          | Raised e => (st1, Raised e)
          | Returned d =>
              (mkRunState d (st_planned st1) (S (st_completed st1)) (st_failed st1)
                          (st_errors st1) (st_calls st1),
               Returned tt)
          end
      end
  end.

Definition http_error_msg (judge_name : string) (e : PyExc) : string :=
  "HTTP error for judge '" ++ judge_name ++ "': " ++ exc_msg e.

Definition error_msg (judge_name : string) (e : PyExc) : string :=
  "Error running judge '" ++ judge_name ++ "': " ++ exc_msg e.

Definition record_failure (st : RunState) (msg : string) : RunState :=
  mkRunState (st_db st) (st_planned st) (st_completed st) (S (st_failed st))
             (st_errors st ++ [msg])%list (st_calls st).

(** One iteration of [for judge_row in judge_rows]: the [try] block with
    its two handlers, [except httpx.HTTPError] and [except Exception]. *)
Definition run_judge (backend : Backend) (sub_id q_template_id q_text : string)
    (q_content : option string) (answer_text : string)
    (st : RunState) (judge_row : JudgeRow) : RunState :=
  let st0 := mkRunState (st_db st) (S (st_planned st)) (st_completed st) (st_failed st)
               (st_errors st) (st_calls st) in
  match attempt backend sub_id q_template_id q_text q_content answer_text judge_row st0 with
  | (st', Returned _) => st'
  | (st', Raised e) =>
      if exc_class_eqb (exc_class e) HTTPError
      then record_failure st' (http_error_msg (j_name judge_row) e)
      else record_failure st' (error_msg (j_name judge_row) e)
  end.

(** One iteration of [for q_row in question_rows]. *)
Definition run_question (backend : Backend) (queue_id sub_id : string)
    (st : RunState) (q_row : QuestionRow) : RunState :=
  let q_template_id := q_question_template_id q_row in
  let q_text := q_question_text q_row in
  let q_content := q_content q_row in
  let judge_rows := select_assigned_judges (st_db st) queue_id q_template_id in
  match select_answer (st_db st) sub_id q_template_id with
  | None => st
  | Some answer_row =>
      fold_left
        (run_judge backend sub_id q_template_id q_text q_content (answer_text answer_row))
        judge_rows st
  end.

(** [for sub_id in submission_ids]: the query for the questions is outside
    every [try], so its exception ends the run. *)
Fixpoint run_submissions (backend : Backend) (queue_id : string) (st : RunState)
    (submission_ids : list string) : RunState * option PyExc :=
  match submission_ids with
  | [] => (st, None)
  | sub_id :: rest =>
      match select_questions (st_db st) sub_id with
      | Raised e => (st, Some e)
      | Returned question_rows =>
          run_submissions backend queue_id
            (fold_left (run_question backend queue_id sub_id) question_rows st) rest
      end
  end.

(** What a run leaves: the response or the exception that ended it, the
    database (every insert is committed at once) and the calls made. *)
Record RunResult : Type := mkRunResult {
  response : Outcome RunEvaluationResponse;
  final_db : Db;
  generate_calls : list GenerateCall
}.

Definition run_evaluations (backend : Backend) (d : Db) (queue_id : string) : RunResult :=
  let submission_ids := select_submission_ids d queue_id in
  match run_submissions backend queue_id (mkRunState d 0 0 0 [] []) submission_ids with
  | (st, None) =>
      mkRunResult
        (Returned (mkResponse (st_planned st) (st_completed st) (st_failed st)
                              (firstn 10 (st_errors st))))
        (st_db st) (st_calls st)
  | (st, Some e) => mkRunResult (Raised e) (st_db st) (st_calls st)
  end.

(** *** [upload_submissions] *)

(** INSERT OR REPLACE INTO submissions: a row with the same primary key
    is deleted first. *)
Definition insert_or_replace_submission (d : Db) (submission : Models.Submission) : Db :=
  with_submissions d
    (filter (fun r => negb (String.eqb (s_id r) (Models.sub_id submission)))
            (submissions d) ++
     [mkSubmissionRow (Models.sub_id submission) (Models.queueId submission)
        (Models.labelingTaskId submission) (Models.createdAt submission)
        (Models.raw submission)])%list.

(** INSERT INTO questions (submission_id, question_template_id,
    question_type, question_text, content, rev) *)
Definition insert_question (d : Db) (sub_id : string) (question : Models.Question)
  : Outcome Db :=
  match missing_column (questions_columns d)
          ["submission_id"; "question_template_id"; "question_type";
           "question_text"; "content"; "rev"] with
  | Some c => Raised (no_column_named "questions" c)
  | None =>
      let data := Models.data question in
      Returned (with_questions d
        (questions d ++
         [mkQuestionRow (next_id q_id (questions d)) sub_id (Models.id data)
            (Models.questionType data) (Models.questionText data)
            (Models.content data) (Models.rev question)])%list)
  end.

(** INSERT INTO answers (submission_id, question_template_id, choice,
    reasoning) *)
Definition insert_answer (sub_id : string) (d : Db) (item : string * Models.Answer) : Db :=
  with_answers d
    (answers d ++
     [mkAnswerRow (next_id a_id (answers d)) sub_id (fst item)
        (Models.choice (snd item)) (Models.reasoning (snd item))])%list.

Fixpoint insert_questions (d : Db) (sub_id : string) (qs : list Models.Question)
  : Outcome Db :=
  match qs with
  | [] => Returned d
  | question :: rest => d' <- insert_question d sub_id question ;; insert_questions d' sub_id rest
  end.

(** The body of [for sub_data in submissions_data]. *)
Definition upload_one (d : Db) (submission : Models.Submission) : Outcome Db :=
  let d1 := insert_or_replace_submission d submission in
  d2 <- insert_questions d1 (Models.sub_id submission) (Models.questions submission) ;;
  Returned (fold_left (insert_answer (Models.sub_id submission))
                      (Models.answers submission) d2).

Fixpoint upload_loop (d : Db) (inserted_count : nat)
    (submissions_data : list Models.Submission) : Outcome (Db * nat) :=
  match submissions_data with
  | [] => Returned (d, inserted_count)
  | submission :: rest =>
      d' <- upload_one d submission ;; upload_loop d' (S inserted_count) rest
  end.

(** The endpoint on a decoded and validated JSON array (decoding and
    validation are the caller's).  The inserts are committed together at
    the end; an exception closes the connection without a commit, so the
    database is left as it was, and is answered by an [HTTPException]. *)
Definition upload_submissions (d : Db) (submissions_data : list Models.Submission)
  : Outcome string * Db :=
  match upload_loop d 0 submissions_data with
  | Returned (d', inserted_count) =>
      (Returned ("Successfully uploaded " ++ str_of_nat inserted_count ++ " submissions"),
       d')
  | Raised e =>
      (Raised (mkExc HTTPException ("Error processing file: " ++ exc_msg e)), d)
  end.

(** *** [get_evaluation_stats] *)

Record EvaluationStats : Type := mkStats {
  total : Z;
  pass_count : Z;
  fail_count : Z;
  inconclusive_count : Z;
  pass_rate : PyFloat;
  avg_confidence : PyFloat
}.

Fixpoint map_outcome {A B : Type} (f : A -> Outcome B) (l : list A) : Outcome (list B) :=
  match l with
  | [] => Returned []
  | x :: rest => y <- f x ;; ys <- map_outcome f rest ;; Returned (y :: ys)
  end.

(** [[int(id.strip()) for id in judge_ids.split(',')]] under [if judge_ids:] *)
Definition parse_judge_ids (judge_ids : option string) : Outcome (option (list Z)) :=
  match truthy judge_ids with
  | None => Returned None
  | Some s =>
      ids <- map_outcome (fun id => int_of_str (strip id)) (split "," s) ;;
      Returned (Some ids)
  end.

(** [[id.strip() for id in question_ids.split(',')]] under [if question_ids:] *)
Definition parse_question_ids (question_ids : option string) : option (list string) :=
  option_map (fun s => map strip (split "," s)) (truthy question_ids).

(** WHERE 1=1 [AND judge_id IN (...)] [AND question_template_id IN (...)]
    [AND verdict = ?] *)
Definition where_clause (judge_ids : option (list Z)) (question_ids : option (list string))
    (verdict : option string) (r : EvaluationRow) : bool :=
  match judge_ids with
  | Some ids => existsb (Z.eqb (e_judge_id r)) ids
  | None => true
  end
  && match question_ids with
     | Some ids => existsb (String.eqb (e_question_template_id r)) ids
     | None => true
     end
  && match verdict with
     | Some v => String.eqb (e_verdict r) v
     | None => true
     end.

Definition filter_columns (judge_ids : option (list Z)) (question_ids : option (list string))
    (verdict : option string) : list string :=
  (match judge_ids with Some _ => ["judge_id"] | None => [] end ++
   match question_ids with Some _ => ["question_template_id"] | None => [] end ++
   match verdict with Some _ => ["verdict"] | None => [] end)%list.

(** A [dict] with string keys, in insertion order. *)
Fixpoint dict_set (k : string) (v : Z) (dict : list (string * Z)) : list (string * Z) :=
  match dict with
  | [] => [(k, v)]
  | (k', v') :: rest =>
      if String.eqb k' k then (k, v) :: rest else (k', v') :: dict_set k v rest
  end.

Fixpoint dict_get (k : string) (dict : list (string * Z)) : Z :=
  match dict with
  | [] => 0%Z
  | (k', v') :: rest => if String.eqb k' k then v' else dict_get k rest
  end.

(** The integer parameters of the statement can be bound. *)
Definition binds (judge_ids : option (list Z)) : bool :=
  match judge_ids with
  | Some ids => forallb sqlite_integer ids
  | None => true
  end.

(** SELECT verdict, COUNT( * ) FROM evaluations WHERE ... GROUP BY verdict:
    one row per verdict among the selected rows.  The statement is
    compiled, which needs its columns, and then its parameters are
    bound. *)
Definition select_verdict_counts (d : Db) (judge_ids : option (list Z))
    (question_ids : option (list string)) (verdict : option string)
  : Outcome (list (string * Z)) :=
  match missing_column (evaluations_columns d)
          ("verdict" :: filter_columns judge_ids question_ids verdict) with
  | Some c => Raised (no_such_column c)
  | None =>
      if binds judge_ids
      then Returned
        (fold_left
           (fun groups r => dict_set (e_verdict r) (dict_get (e_verdict r) groups + 1)%Z groups)
           (filter (where_clause judge_ids question_ids verdict) (evaluations d)) [])
      else Raised int_too_large
  end.

(** SELECT AVG(confidence_score) FROM evaluations WHERE ...: NULL without
    a selected row, else the sum over the count as a float (the sum of the
    integer scores taken as exact). *)
Definition select_avg_confidence (d : Db) (judge_ids : option (list Z))
    (question_ids : option (list string)) (verdict : option string)
  : Outcome (option PyFloat) :=
  match missing_column (evaluations_columns d)
          ("confidence_score" :: filter_columns judge_ids question_ids verdict) with
  | Some c => Raised (no_such_column c)
  | None =>
      if binds judge_ids
      then
        let rows := filter (where_clause judge_ids question_ids verdict) (evaluations d) in
        match rows with
        | [] => Returned None
        | _ :: _ =>
            Returned (Some (float_of_fraction
                              (fold_left Z.add (map e_confidence_score rows) 0%Z)
                              (Z.of_nat (List.length rows))))
        end
      else Raised int_too_large
  end.

Definition get_evaluation_stats (d : Db) (judge_ids question_ids verdict : option string)
  : Outcome EvaluationStats :=
  ids <- parse_judge_ids judge_ids ;;
  let qids := parse_question_ids question_ids in
  let v := truthy verdict in
  rows <- select_verdict_counts d ids qids v ;;
  let stats :=
    fold_left (fun stats row => dict_set (fst row) (snd row) stats) rows
              [("pass", 0%Z); ("fail", 0%Z); ("inconclusive", 0%Z)] in
  let total := fold_left Z.add (map snd stats) 0%Z in
  let pass_rate :=
    if (0 <? total)%Z
    then float_mul (int_truediv (dict_get "pass" stats) total) (float_of_int 100)
    else float_zero in
  avg_row <- select_avg_confidence d ids qids v ;;
  let avg_confidence :=
    match avg_row with
    | Some avg => round_ndigits avg 1
    | None => float_of_int 50
    end in
  Returned (mkStats total (dict_get "pass" stats) (dict_get "fail" stats)
                    (dict_get "inconclusive" stats) (round_ndigits pass_rate 2)
                    avg_confidence).

End Main.

Import Main.

(* ================================================================== *)
(** ** Concrete stores and backends *)
(* ================================================================== *)

Module Scenario.

Definition lf : string := String newline "".

(** The column lists of a file whose two tables carry the columns
    [main.py] names. *)
Definition questions_columns_with_content : Columns :=
  (init_db_questions_columns ++ ["content"])%list.

Definition evaluations_columns_with_confidence : Columns :=
  (init_db_evaluations_columns ++ ["confidence_score"])%list.

(** Queue Q1: one submission, one question without grounding content,
    answered yes, one active judge assigned. *)
Definition submission_S1 : SubmissionRow := mkSubmissionRow "S1" "Q1" "T1" 1 "{}".

Definition question_q1 : QuestionRow :=
  mkQuestionRow 1 "S1" "q1" "single_choice" "Is X compliant?" None 1.

Definition answer_q1 : AnswerRow := mkAnswerRow 1 "S1" "q1" "yes" None.

Definition judge_J1 : JudgeRow :=
  mkJudgeRow 1 "J1" "Be strict." "llama2" true "2024-01-01T00:00:00".
Definition judge_J2 : JudgeRow :=
  mkJudgeRow 2 "J2" "Be fair." "mistral" true "2024-01-01T00:00:00".
Definition judge_J3 : JudgeRow :=
  mkJudgeRow 3 "J3" "Be brief." "llama2" true "2024-01-01T00:00:00".

Definition store (qcols ecols : Columns) : Db :=
  mkDb qcols ecols [submission_S1] [question_q1] [answer_q1] [judge_J1]
       [mkAssignmentRow 1 "Q1" "q1" 1 "2024-01-01T00:00:00"] [].

Definition reply_pass : string :=
  "VERDICT: pass" ++ lf ++ "REASONING: ok" ++ lf ++ "CONFIDENCE: 90".

Definition backend_pass : Backend :=
  mkBackend (fun _ _ _ _ => Returned reply_pass) (fun _ => "2024-01-02T00:00:00").

(** The same queue with three active judges assigned to the question, in
    a file whose tables carry every column, and a backend whose second
    call fails on the transport. *)
Definition store_three_judges : Db :=
  mkDb questions_columns_with_content evaluations_columns_with_confidence
    [submission_S1] [question_q1] [answer_q1] [judge_J1; judge_J2; judge_J3]
    [mkAssignmentRow 1 "Q1" "q1" 1 "2024-01-01T00:00:00";
     mkAssignmentRow 2 "Q1" "q1" 2 "2024-01-01T00:00:00";
     mkAssignmentRow 3 "Q1" "q1" 3 "2024-01-01T00:00:00"]
    [].

Definition connect_error : PyExc := mkExc HTTPError "All connection attempts failed".

Definition backend_second_call_fails : Backend :=
  mkBackend (fun n _ _ _ => if Nat.eqb n 1 then Raised connect_error else Returned reply_pass)
            (fun _ => "2024-01-02T00:00:00").

(** A question of the queue that has no answer row: the only answer is to
    another template. *)
Definition question_q2 : QuestionRow :=
  mkQuestionRow 2 "S1" "q2" "single_choice" "Is Y compliant?" None 1.

Definition store_unanswered : Db :=
  mkDb questions_columns_with_content evaluations_columns_with_confidence
    [submission_S1] [question_q2] [answer_q1] [judge_J1]
    [mkAssignmentRow 1 "Q1" "q2" 1 "2024-01-01T00:00:00"] [].

(** An upload payload: one submission without questions, one answer. *)
Definition submission_s1 : Models.Submission :=
  Models.mkSubmission "s1" "Q1" "t1" 1 [] [("q1", Models.mkAnswer "yes" None)] "{}".

(** Evaluation rows for the statistics: three pass, one fail. *)
Definition four_evaluations : list EvaluationRow :=
  [mkEvaluationRow 1 "S1" "q1" 1 "pass" "ok" 90 "2024-01-02T00:00:00";
   mkEvaluationRow 2 "S1" "q1" 2 "pass" "ok" 80 "2024-01-02T00:00:01";
   mkEvaluationRow 3 "S1" "q1" 3 "fail" "no" 85 "2024-01-02T00:00:02";
   mkEvaluationRow 4 "S2" "q1" 1 "pass" "ok" 71 "2024-01-02T00:00:03"].



Definition reply_infinite : string :=
  "VERDICT: pass" ++ lf ++ "REASONING: ok" ++ lf ++ "CONFIDENCE: inf".

End Scenario.

Import Scenario.

(* ================================================================== *)
(** ** What [parse_verdict] is expected to compute, line by line *)
(* ================================================================== *)

Module VerdictSpec.

(** The trimmed line starts with the prefix, letter case aside. *)
Definition has_prefix (p line : string) : bool := startswith (upper (strip line)) p.

(** The text that follows a prefix on the trimmed line, as it is and
    trimmed. *)
Definition raw_after (p line : string) : string :=
  drop (String.length p) (strip line).

Definition text_after (p line : string) : string := strip (raw_after p line).

Definition accepted_verdicts : list string := ["pass"; "fail"; "inconclusive"].

(** A VERDICT: line with an accepted word gives that word. *)
Definition verdict_of_line (line : string) : option string :=
  if has_prefix "VERDICT:" line then
    let v := lower (text_after "VERDICT:" line) in
    if str_in v accepted_verdicts then Some v else None
  else None.

(** A REASONING: line gives the trimmed text after the prefix. *)
Definition reasoning_of_line (line : string) : option string :=
  if has_prefix "REASONING:" line then Some (text_after "REASONING:" line) else None.

Definition before_slash (s : string) : string :=
  match partition "/" s with
  | Some (a, _) => a
  | None => s
  end.

Definition clamp (n : Z) : Z := Z.max 0 (Z.min 100 n).

(** The integer part of [(-1)^neg * m * 2^e]. *)
Definition truncate (neg : bool) (m e : Z) : Z :=
  let s := if neg then (- m)%Z else m in
  if (0 <=? e)%Z then (s * 2 ^ e)%Z else Z.quot s (2 ^ (- e)).

(** The confidence a text stands for: every percent sign removed, the part
    before the first slash kept and trimmed, read as a float and
    truncated, 50 when it is no float literal or NaN, clamped to 0..100.
    No value is given to a text that reads as an infinity. *)
Definition confidence_of_text (t : string) : option Z :=
  let raw := strip (before_slash (remove_char "%" (strip t))) in
  match float_of_str raw with
  | Raised _ => Some 50%Z
  | Returned FNan => Some 50%Z
  | Returned (FInf _) => None
  | Returned (FFinite neg m e) => Some (clamp (truncate neg m e))
  end.



(** A CONFIDENCE: line gives the confidence of the text after the prefix. *)
Definition confidence_text_of_line (line : string) : option string :=
  if has_prefix "CONFIDENCE:" line then Some (raw_after "CONFIDENCE:" line) else None.

Definition confidence_of_line (line : string) : option (option Z) :=
  option_map confidence_of_text (confidence_text_of_line line).

(** The value of the first line that has one. *)
Fixpoint first_match {A : Type} (f : string -> option A) (lines : list string) : option A :=
  match lines with
  | [] => None
  | line :: rest =>
      match f line with
      | Some x => Some x
      | None => first_match f rest
      end
  end.

(** The value of the last line that has one. *)
Definition last_match {A : Type} (f : string -> option A) (lines : list string) : option A :=
  first_match f (rev lines).

Definition with_default {A : Type} (d : A) (o : option A) : A :=
  match o with
  | Some x => x
  | None => d
  end.

(** No colon among the characters of [p]. *)
Fixpoint colon_free (p : string) : bool :=
  match p with
  | EmptyString => true
  | String c p' => negb (Ascii.eqb c ":") && colon_free p'
  end.

(** What one line does to the three variables. *)
Definition line_agrees (st st1 : Parsed) (line : string) : Prop :=
  OllamaClient.verdict st1 = with_default (OllamaClient.verdict st) (verdict_of_line line) /\
  OllamaClient.reasoning st1 =
    with_default (OllamaClient.reasoning st) (reasoning_of_line line) /\
  match confidence_of_line line with
  | None => confidence st1 = confidence st
  | Some (Some c) => confidence st1 = c
  | Some None => False
  end.

(** What the loop does to the three variables: each one holds the value of
    the last line that gives it one. *)
Definition lines_agree (st st' : Parsed) (lines : list string) : Prop :=
  OllamaClient.verdict st' =
    with_default (OllamaClient.verdict st) (last_match verdict_of_line lines) /\
  OllamaClient.reasoning st' =
    with_default (OllamaClient.reasoning st) (last_match reasoning_of_line lines) /\
  match last_match confidence_of_line lines with
  | None => confidence st' = confidence st
  | Some (Some c) => confidence st' = c
  | Some None => False
  end.

End VerdictSpec.

Import VerdictSpec.

(* ================================================================== *)
(** ** The attempts of a run *)
(* ================================================================== *)

Module RunSpec.

(** The statements of [run_evaluations] on the two tables name existing
    columns. *)
Definition questions_readable (d : Db) : Prop :=
  missing_column (questions_columns d)
    ["question_template_id"; "question_text"; "content"; "submission_id"] = None.

Definition evaluations_writable (d : Db) : Prop :=
  missing_column (evaluations_columns d)
    ["submission_id"; "question_template_id"; "judge_id"; "verdict";
     "reasoning"; "confidence_score"; "created_at"] = None.

(** Two database states that differ in the rows of [evaluations] at most. *)
Definition same_store (d d' : Db) : Prop :=
  questions_columns d = questions_columns d' /\
  evaluations_columns d = evaluations_columns d' /\
  submissions d = submissions d' /\
  questions d = questions d' /\
  answers d = answers d' /\
  judges d = judges d' /\
  judge_assignments d = judge_assignments d'.

(** One attempt of the judge loop: a submission, one of its questions, the
    answer to it and an assigned active judge. *)
Record Triple : Type := mkTriple {
  t_sub_id : string;
  t_question : QuestionRow;
  t_answer : AnswerRow;
  t_judge : JudgeRow
}.

Definition questions_of (d : Db) (sub_id : string) : list QuestionRow :=
  filter (fun r => String.eqb (q_submission_id r) sub_id) (questions d).

(** The attempts a question gives rise to: none without an answer. *)
Definition question_triples (d : Db) (queue_id sub_id : string) (q_row : QuestionRow)
  : list Triple :=
  match select_answer d sub_id (q_question_template_id q_row) with
  | None => []
  | Some a =>
      map (mkTriple sub_id q_row a)
          (select_assigned_judges d queue_id (q_question_template_id q_row))
  end.

Definition submission_triples (d : Db) (queue_id sub_id : string) : list Triple :=
  flat_map (question_triples d queue_id sub_id) (questions_of d sub_id).

(** All attempts of a run, in the order of the three loops. *)
Definition triples (d : Db) (queue_id : string) : list Triple :=
  flat_map (submission_triples d queue_id) (select_submission_ids d queue_id).

Definition run_triple (backend : Backend) (st : RunState) (t : Triple) : RunState :=
  run_judge backend (t_sub_id t) (q_question_template_id (t_question t))
            (q_question_text (t_question t)) (q_content (t_question t))
            (answer_text (t_answer t)) st (t_judge t).

(** The state a run starts from. *)
Definition initial_state (d : Db) : RunState := mkRunState d 0 0 0 [] [].

(** No answer row for a submission and a question template. *)
Definition unanswered (d : Db) (sub_id q_template_id : string) : Prop :=
  forall a, In a (answers d) ->
            ~ (a_submission_id a = sub_id /\ a_question_template_id a = q_template_id).

(** [generate] raises on its call number [k], whatever the arguments. *)
Definition throws_at (backend : Backend) (k : nat) (e : PyExc) : Prop :=
  forall model prompt system, generate backend k model prompt system = Raised e.

(** [generate] answers its call number [i] with a reply that
    [parse_verdict] accepts. *)
Definition replies_at (backend : Backend) (i : nat) : Prop :=
  forall model prompt system,
  exists text v r c,
    generate backend i model prompt system = Returned text /\
    parse_verdict text = Returned (v, r, c).

(** The message recorded for a failed attempt. *)
Definition failure_msg (judge_row : JudgeRow) (e : PyExc) : string :=
  if exc_class_eqb (exc_class e) HTTPError
  then http_error_msg (j_name judge_row) e
  else error_msg (j_name judge_row) e.

(** A failed attempt: [failed] grows by one, one message is appended,
    nothing else changes but [planned] and the calls. *)
Definition failed_with (st st' : RunState) (judge_row : JudgeRow) (e : PyExc) : Prop :=
  st_db st' = st_db st /\
  st_completed st' = st_completed st /\
  st_failed st' = S (st_failed st) /\
  st_errors st' = (st_errors st ++ [failure_msg judge_row e])%list.

(** A completed attempt: [completed] grows by one and the database is the
    one the insert returned. *)
Definition completed_with (st st' : RunState) (d' : Db) : Prop :=
  st_db st' = d' /\
  st_completed st' = S (st_completed st) /\
  st_failed st' = st_failed st /\
  st_errors st' = st_errors st.

(** The counters of a state add up. *)
Definition balanced (st : RunState) : Prop :=
  st_planned st = st_completed st + st_failed st /\
  List.length (st_errors st) = st_failed st.

(** At most one answer row for each submission and question template. *)
Definition answers_unique (d : Db) : Prop :=
  NoDup (map (fun a => (a_submission_id a, a_question_template_id a)) (answers d)).

End RunSpec.

Import RunSpec.

(* ================================================================== *)
(** ** [models.py] and [main.py]: judges, assignments and queues *)
(* ================================================================== *)

Module JudgeCreate.

Record t : Type := mk {
  name : string;
  system_prompt : string;
  model_name : string;
  active : bool
}.

End JudgeCreate.

Module JudgeUpdate.

Record t : Type := mk {
  name : option string;
  system_prompt : option string;
  model_name : option string;
  active : option bool
}.

End JudgeUpdate.

Module JudgeAssignment.

Record t : Type := mk {
  queue_id : string;
  question_template_id : string;
  judge_ids : list Z
}.

End JudgeAssignment.

Module Endpoints.

Definition with_judges (d : Db) (rows : list JudgeRow) : Db :=
  mkDb (questions_columns d) (evaluations_columns d) (submissions d)
       (questions d) (answers d) rows (judge_assignments d) (evaluations d).

Definition with_judge_assignments (d : Db) (rows : list AssignmentRow) : Db :=
  mkDb (questions_columns d) (evaluations_columns d) (submissions d)
       (questions d) (answers d) (judges d) rows (evaluations d).

(** [sqlite3.IntegrityError] for a UNIQUE constraint; the class is a
    further subclass of [Exception]. *)
Definition unique_constraint_failed (columns : string) : PyExc :=
  mkExc OtherException ("UNIQUE constraint failed: " ++ columns).

(** [HTTPException(status_code=404, detail=...)] and the like: the
    detail. *)
Definition http_exception (detail : string) : PyExc := mkExc HTTPException detail.

(** *** Judges *)

(** INSERT INTO judges (name, system_prompt, model_name, active,
    created_at): [name] is UNIQUE.  Returns the database and
    [cursor.lastrowid]. *)
Definition insert_judge (d : Db) (judge : JudgeCreate.t) (created_at : string)
  : Outcome (Db * Z) :=
  if existsb (fun r => String.eqb (j_name r) (JudgeCreate.name judge)) (judges d)
  then Raised (unique_constraint_failed "judges.name")
  else
    let judge_id := next_id j_id (judges d) in
    Returned
      (with_judges d
         (judges d ++
          [mkJudgeRow judge_id (JudgeCreate.name judge) (JudgeCreate.system_prompt judge)
                      (JudgeCreate.model_name judge) (JudgeCreate.active judge)
                      created_at])%list,
       judge_id).

(** [create_judge]; [created_at] is [datetime.now().isoformat()].  Any
    exception is answered by an [HTTPException] (status 400) and nothing
    is committed. *)
Definition create_judge (created_at : string) (d : Db) (judge : JudgeCreate.t)
  : Outcome JudgeRow * Db :=
  match insert_judge d judge created_at with
  | Returned (d', judge_id) =>
      (Returned (mkJudgeRow judge_id (JudgeCreate.name judge)
                            (JudgeCreate.system_prompt judge)
                            (JudgeCreate.model_name judge) (JudgeCreate.active judge)
                            created_at),
       d')
  | Raised e => (Raised (http_exception ("Error creating judge: " ++ exc_msg e)), d)
  end.

(** SELECT * FROM judges WHERE id = ?, then [fetchone()]. *)
Definition select_judge (d : Db) (judge_id : Z) : option JudgeRow :=
  find (fun r => Z.eqb (j_id r) judge_id) (judges d).

(** [get_judge] *)
Definition get_judge (d : Db) (judge_id : Z) : Outcome JudgeRow :=
  match select_judge d judge_id with
  | Some row => Returned row
  | None => Raised (http_exception "Judge not found")
  end.

(** The row after SET name = ?, system_prompt = ?, ... for the fields
    that are given. *)
Definition updated_row (u : JudgeUpdate.t) (r : JudgeRow) : JudgeRow :=
  mkJudgeRow (j_id r)
    (match JudgeUpdate.name u with Some x => x | None => j_name r end)
    (match JudgeUpdate.system_prompt u with Some x => x | None => j_system_prompt r end)
    (match JudgeUpdate.model_name u with Some x => x | None => j_model_name r end)
    (match JudgeUpdate.active u with Some x => x | None => j_active r end)
    (j_created_at r).

(** [if updates:] some field is given. *)
Definition has_updates (u : JudgeUpdate.t) : bool :=
  match JudgeUpdate.name u, JudgeUpdate.system_prompt u,
        JudgeUpdate.model_name u, JudgeUpdate.active u with
  | None, None, None, None => false
  | _, _, _, _ => true
  end.

(** UPDATE judges SET ... WHERE id = ?: a new name that another judge
    bears violates UNIQUE(name). *)
Definition update_judge_row (d : Db) (judge_id : Z) (u : JudgeUpdate.t) : Outcome Db :=
  match JudgeUpdate.name u with
  | Some n =>
      if existsb (fun r => negb (Z.eqb (j_id r) judge_id) && String.eqb (j_name r) n)
                 (judges d)
      then Raised (unique_constraint_failed "judges.name")
      else Returned (with_judges d
             (map (fun r => if Z.eqb (j_id r) judge_id then updated_row u r else r)
                  (judges d)))
  | None =>
      Returned (with_judges d
        (map (fun r => if Z.eqb (j_id r) judge_id then updated_row u r else r)
             (judges d)))
  end.

(** DELETE FROM judge_assignments WHERE judge_id = ? *)
Definition delete_assignments_of_judge (d : Db) (judge_id : Z) : Db :=
  with_judge_assignments d
    (filter (fun ja => negb (Z.eqb (ja_judge_id ja) judge_id)) (judge_assignments d)).

(** [update_judge]: 404 without the judge; the update (committed); the
    assignments of a judge that is being deactivated are deleted
    (committed); the row is read again.  An exception of the UPDATE is not
    caught and nothing is committed. *)
Definition update_judge (d : Db) (judge_id : Z) (judge_update : JudgeUpdate.t)
  : Outcome JudgeRow * Db :=
  match select_judge d judge_id with
  | None => (Raised (http_exception "Judge not found"), d)
  | Some _ =>
      match (if has_updates judge_update
             then update_judge_row d judge_id judge_update
             else Returned d) with
      | Raised e => (Raised e, d)
      | Returned d1 =>
          let d2 :=
            match JudgeUpdate.active judge_update with
            | Some false => delete_assignments_of_judge d1 judge_id
            | _ => d1
            end in
          match select_judge d2 judge_id with
          | Some row => (Returned row, d2)
          | None => (Raised (mkExc OtherException "'NoneType' object is not subscriptable"), d2)
          end
      end
  end.


(** *** Assignments *)

Definition same_assignment (queue_id q_template_id : string) (judge_id : Z)
           (ja : AssignmentRow) : bool :=
  String.eqb (ja_queue_id ja) queue_id
  && String.eqb (ja_question_template_id ja) q_template_id
  && Z.eqb (ja_judge_id ja) judge_id.

(** INSERT INTO judge_assignments (queue_id, question_template_id,
    judge_id, created_at) under UNIQUE(queue_id, question_template_id,
    judge_id). *)
Definition insert_assignment (queue_id q_template_id created_at : string)
           (d : Db) (judge_id : Z) : Outcome Db :=
  if existsb (same_assignment queue_id q_template_id judge_id) (judge_assignments d)
  then Raised (unique_constraint_failed
         "judge_assignments.queue_id, judge_assignments.question_template_id, judge_assignments.judge_id")
  else Returned (with_judge_assignments d
         (judge_assignments d ++
          [mkAssignmentRow (next_id ja_id (judge_assignments d)) queue_id q_template_id
                           judge_id created_at])%list).

Fixpoint insert_assignments (queue_id q_template_id created_at : string)
         (d : Db) (judge_ids : list Z) : Outcome Db :=
  match judge_ids with
  | [] => Returned d
  | judge_id :: rest =>
      d' <- insert_assignment queue_id q_template_id created_at d judge_id ;;
      insert_assignments queue_id q_template_id created_at d' rest
  end.

(** DELETE FROM judge_assignments WHERE queue_id = ? AND
    question_template_id = ? *)
Definition delete_assignments_of_question (d : Db) (queue_id q_template_id : string) : Db :=
  with_judge_assignments d
    (filter (fun ja => negb (String.eqb (ja_queue_id ja) queue_id
                             && String.eqb (ja_question_template_id ja) q_template_id))
            (judge_assignments d)).

(** [assign_judges]: the delete and the inserts are committed together;
    an exception is not caught and nothing is committed. *)
Definition assign_judges (created_at : string) (d : Db) (assignment : JudgeAssignment.t)
  : Outcome string * Db :=
  let queue_id := JudgeAssignment.queue_id assignment in
  let q_template_id := JudgeAssignment.question_template_id assignment in
  match insert_assignments queue_id q_template_id created_at
          (delete_assignments_of_question d queue_id q_template_id)
          (JudgeAssignment.judge_ids assignment) with
  | Returned d' => (Returned "Judges assigned successfully", d')
  | Raised e => (Raised e, d)
  end.

(** SELECT judge_id FROM judge_assignments WHERE queue_id = ? AND
    question_template_id = ?, as [get_queue_questions] reads the judges
    of a question: answered from the same index, in the order of
    [judge_id]. *)
Definition assigned_judge_ids (d : Db) (queue_id q_template_id : string) : list Z :=
  map ja_judge_id
      (index_order ja_judge_id
         (filter (fun ja => String.eqb (ja_queue_id ja) queue_id
                            && String.eqb (ja_question_template_id ja) q_template_id)
                 (judge_assignments d))).

(** *** Queues *)

Definition in_ids (ids : list string) (x : string) : bool := existsb (String.eqb x) ids.

(** [delete_queue]: 404 for a queue without submissions; then the
    evaluations, answers and questions of its submissions, the assignments
    of the queue and the submissions are deleted and committed together.
    The DELETE statements on [evaluations] and [questions] name their
    column [submission_id]. *)
Definition delete_queue (d : Db) (queue_id : string) : Outcome string * Db :=
  let submission_ids := select_submission_ids d queue_id in
  match submission_ids with
  | [] => (Raised (http_exception "Queue not found"), d)
  | _ :: _ =>
      match missing_column (evaluations_columns d) ["submission_id"] with
      | Some c => (Raised (no_such_column c), d)
      | None =>
          match missing_column (questions_columns d) ["submission_id"] with
          | Some c => (Raised (no_such_column c), d)
          | None =>
              (Returned ("Queue '" ++ queue_id ++ "' and all associated data deleted successfully"),
               mkDb (questions_columns d) (evaluations_columns d)
                 (filter (fun r => negb (String.eqb (s_queue_id r) queue_id)) (submissions d))
                 (filter (fun r => negb (in_ids submission_ids (q_submission_id r)))
                         (questions d))
                 (filter (fun r => negb (in_ids submission_ids (a_submission_id r)))
                         (answers d))
                 (judges d)
                 (filter (fun r => negb (String.eqb (ja_queue_id r) queue_id))
                         (judge_assignments d))
                 (filter (fun r => negb (in_ids submission_ids (e_submission_id r)))
                         (evaluations d)))
          end
      end
  end.

End Endpoints.

Import Endpoints.

(* ================================================================== *)
(** ** Further notions used in the statements *)
(* ================================================================== *)

Module Notions.

(** A line that carries none of the three prefixes. *)
Definition plain_line (line : string) : Prop :=
  has_prefix "VERDICT:" line = false /\
  has_prefix "REASONING:" line = false /\
  has_prefix "CONFIDENCE:" line = false.

(** A text without a line feed. *)
Fixpoint single_line (s : string) : bool :=
  match s with
  | EmptyString => true
  | String c s' => negb (Ascii.eqb c newline) && single_line s'
  end.

(** The reply the prompt asks for: three lines. *)
Definition confidence_line (n : nat) : string := "CONFIDENCE: " ++ str_of_nat n.

Definition format_reply (v r : string) (n : nat) : string :=
  ("VERDICT: " ++ v) ++ String newline (("REASONING: " ++ r) ++
  String newline (confidence_line n)).

(** What the proof of the round trip needs of a confidence line, as a
    test that can be run for every number up to 100. *)
Definition confidence_line_reads_back (n : nat) : bool :=
  String.eqb (rstrip (confidence_line n)) (confidence_line n)
  && single_line (confidence_line n)
  && match confidence_of_line (confidence_line n) with
     | Some (Some c) => Z.eqb c (Z.of_nat n)
     | _ => false
     end
  && match verdict_of_line (confidence_line n), reasoning_of_line (confidence_line n) with
     | None, None => true
     | _, _ => false
     end.

(** The call an attempt makes. *)
Definition call_of_triple (t : Triple) : GenerateCall :=
  mkCall (j_model_name (t_judge t))
         (build_prompt (q_question_text (t_question t)) (q_content (t_question t))
                       (answer_text (t_answer t)))
         (j_system_prompt (t_judge t)).

(** An attempt the tables of [d] give rise to for the queue: a submission
    of the queue, one of its question rows, the first answer row for the
    pair, and an active judge with an assignment to the question in the
    queue. *)
Definition triple_of_store (d : Db) (queue_id : string) (t : Triple) : Prop :=
  (exists s, In s (submissions d) /\ s_id s = t_sub_id t /\ s_queue_id s = queue_id) /\
  In (t_question t) (questions d) /\
  q_submission_id (t_question t) = t_sub_id t /\
  select_answer d (t_sub_id t) (q_question_template_id (t_question t)) = Some (t_answer t) /\
  In (t_judge t) (judges d) /\
  j_active (t_judge t) = true /\
  exists ja, In ja (judge_assignments d) /\
             ja_queue_id ja = queue_id /\
             ja_question_template_id ja = q_question_template_id (t_question t) /\
             ja_judge_id ja = j_id (t_judge t).

(** An evaluation row written for an attempt of the queue. *)
Definition row_of_attempt (d : Db) (queue_id : string) (row : EvaluationRow) : Prop :=
  exists t,
    triple_of_store d queue_id t /\
    e_submission_id row = t_sub_id t /\
    e_question_template_id row = q_question_template_id (t_question t) /\
    e_judge_id row = j_id (t_judge t).

(** The verdict and the confidence of a row are within their domains. *)
Definition row_in_domain (row : EvaluationRow) : Prop :=
  In (e_verdict row) accepted_verdicts /\ (0 <= e_confidence_score row <= 100)%Z.

(** The INSERT of [upload_submissions] into [questions] names existing
    columns. *)
Definition questions_writable (d : Db) : Prop :=
  missing_column (questions_columns d)
    ["submission_id"; "question_template_id"; "question_type";
     "question_text"; "content"; "rev"] = None.

(** What an answer row holds besides its id. *)
Definition answer_content (a : AnswerRow) : string * string * string * option string :=
  (a_submission_id a, a_question_template_id a, a_choice a, a_reasoning a).

(** The answers of a payload, in upload order. *)
Definition payload_answers (payload : list Models.Submission)
  : list (string * string * string * option string) :=
  flat_map (fun s => map (fun item => (Models.sub_id s, fst item,
                                       Models.choice (snd item),
                                       Models.reasoning (snd item)))
                         (Models.answers s))
           payload.

(** What a question row holds besides its id. *)
Definition question_content (q : QuestionRow)
  : string * string * string * string * option string * Z :=
  (q_submission_id q, q_question_template_id q, q_question_type q,
   q_question_text q, q_content q, q_rev q).

Definition submission_questions (s : Models.Submission)
  : list (string * string * string * string * option string * Z) :=
  map (fun q => (Models.sub_id s, Models.id (Models.data q),
                 Models.questionType (Models.data q),
                 Models.questionText (Models.data q),
                 Models.content (Models.data q), Models.rev q))
      (Models.questions s).

(** The questions of a payload, in upload order. *)
Definition payload_questions (payload : list Models.Submission)
  : list (string * string * string * string * option string * Z) :=
  flat_map submission_questions payload.

(** The integers of a payload ([createdAt], [rev]) are integers that
    SQLite can bind. *)
Definition payload_binds (payload : list Models.Submission) : Prop :=
  Forall (fun s => sqlite_integer (Models.createdAt s) = true /\
                   Forall (fun q => sqlite_integer (Models.rev q) = true)
                          (Models.questions s))
         payload.

(** Two database states with the same judges, assignments, evaluations
    and columns. *)
Definition same_judging (d d' : Db) : Prop :=
  questions_columns d' = questions_columns d /\
  evaluations_columns d' = evaluations_columns d /\
  judges d' = judges d /\
  judge_assignments d' = judge_assignments d /\
  evaluations d' = evaluations d.

(** The primary key of [submissions]. *)
Definition submission_ids_unique (d : Db) : Prop := NoDup (map s_id (submissions d)).




(** The active judges with one of the ids, in the order of the ids. *)
Definition active_judges_of (d : Db) (ids : list Z) : list JudgeRow :=
  flat_map (fun id => filter (fun j => Z.eqb (j_id j) id && j_active j) (judges d)) ids.

(** The tables a change of judges or assignments leaves alone. *)
Definition same_submissions (d d' : Db) : Prop :=
  questions_columns d' = questions_columns d /\
  evaluations_columns d' = evaluations_columns d /\
  submissions d' = submissions d /\
  questions d' = questions d /\
  answers d' = answers d /\
  evaluations d' = evaluations d.

(** An answer content of a submission and a question template. *)
Definition content_of_pair (sub_id tid : string)
           (c : string * string * string * option string) : bool :=
  let '(s, t, _, _) := c in String.eqb s sub_id && String.eqb t tid.

(** [new if new is not None else old] *)
Definition given {A : Type} (new : option A) (old : A) : A :=
  match new with
  | Some x => x
  | None => old
  end.

Definition question_header : string := "=== QUESTION BEING EVALUATED ===".
Definition context_header : string := "=== CONTEXT ===".
Definition verdict_grammar : string := "VERDICT: pass|fail|inconclusive".

End Notions.

Import Notions.

(* ================================================================== *)
(** ** Further concrete inputs *)
(* ================================================================== *)

Module Examples.

Definition full_store : Db :=
  store questions_columns_with_content evaluations_columns_with_confidence.

(** The row the end-to-end run stores. *)
Definition row_pass : EvaluationRow :=
  mkEvaluationRow 1 "S1" "q1" 1 "pass" "ok" 90 "2024-01-02T00:00:00".

(** A payload whose submission has a question. *)
Definition submission_s2 : Models.Submission :=
  Models.mkSubmission "s2" "Q1" "t2" 2
    [Models.mkQuestion 1 (Models.mkQuestionData "q1" "single_choice" "Is X compliant?" None)]
    [("q1", Models.mkAnswer "yes" None)] "{}".

(** The payload of [submission_s1] with the answer changed to no. *)
Definition submission_s1_changed : Models.Submission :=
  Models.mkSubmission "s1" "Q1" "t1" 1 [] [("q1", Models.mkAnswer "no" None)] "{}".

Definition uploaded_once : Db := snd (upload_submissions (init_db None) [submission_s1]).

Definition uploaded_twice : Db :=
  snd (upload_submissions uploaded_once [submission_s1_changed]).


(** The queue of [store_three_judges] on tables with the given columns. *)
Definition three_judges_on (qcols ecols : Columns) : Db :=
  mkDb qcols ecols
    [submission_S1] [question_q1] [answer_q1] [judge_J1; judge_J2; judge_J3]
    [mkAssignmentRow 1 "Q1" "q1" 1 "2024-01-01T00:00:00";
     mkAssignmentRow 2 "Q1" "q1" 2 "2024-01-01T00:00:00";
     mkAssignmentRow 3 "Q1" "q1" 3 "2024-01-01T00:00:00"]
    [].

(** A backend whose second call fails on the transport and whose third
    call replies with an infinite confidence. *)
Definition backend_throws_then_infinite : Backend :=
  mkBackend (fun n _ _ _ => if Nat.eqb n 1 then Raised connect_error
                            else if Nat.eqb n 2 then Returned reply_infinite
                            else Returned reply_pass)
            (fun _ => "2024-01-02T00:00:00").

(** The three judges, with J3 and then J1 assigned to the question. *)
Definition assigned_out_of_order : Db :=
  mkDb questions_columns_with_content evaluations_columns_with_confidence
    [submission_S1] [question_q1] [answer_q1] [judge_J1; judge_J2; judge_J3]
    [mkAssignmentRow 1 "Q1" "q1" 3 "2024-01-01T00:00:00";
     mkAssignmentRow 2 "Q1" "q1" 1 "2024-01-01T00:00:00"]
    [].

(** A second submission without questions. *)
Definition submission_s3 : Models.Submission :=
  Models.mkSubmission "s3" "Q1" "t3" 3 [] [("q1", Models.mkAnswer "no" None)] "{}".

Definition uploaded_both : Db :=
  snd (upload_submissions (init_db None) [submission_s1; submission_s3]).

Definition uploaded_both_again : Db :=
  snd (upload_submissions uploaded_both [submission_s1_changed]).

Definition judge_kind : JudgeCreate.t := JudgeCreate.mk "J4" "Be kind." "mistral" true.

Definition rename_and_prompt : JudgeUpdate.t :=
  JudgeUpdate.mk (Some "J9") (Some "Be exact.") None None.

Definition judge_strict : JudgeCreate.t := JudgeCreate.mk "J1" "Be strict." "llama2" true.

Definition deactivate : JudgeUpdate.t := JudgeUpdate.mk None None None (Some false).

Definition rename_to_J9 : JudgeUpdate.t := JudgeUpdate.mk (Some "J9") None None None.

Definition assign_1_3 : JudgeAssignment.t := JudgeAssignment.mk "Q1" "q1" [3%Z; 1%Z].


End Examples.

Import Examples.

(* ================================================================== *)
(** ** Properties of [parse_verdict] *)
(* ================================================================== *)

Section Characters.

Lemma upper_char_colon (c : ascii) : upper_char c = ":"%char -> c = ":"%char.
Proof.
  destruct c as [[] [] [] [] [] [] [] []]; vm_compute; intros H; congruence.
Qed.

Lemma upper_colon : upper_char ":" = ":"%char.
Proof. reflexivity. Qed.

End Characters.

Section Prefixes.

Lemma prefix_cons (a c : ascii) (p s : string) :
  prefix (String a p) (String c s) = true -> a = c /\ prefix p s = true.
Proof.
  intros H.
  change (prefix (String a p) (String c s))
    with (if ascii_dec a c then prefix p s else false) in H.
  destruct (ascii_dec a c); [auto|discriminate].
Qed.

Lemma prefix_nil (a : ascii) (p : string) : prefix (String a p) "" = false.
Proof. reflexivity. Qed.

(** After a case-insensitive prefix [p ++ ":"] with no colon in [p], the
    first colon of the line is the one of the prefix. *)
Lemma partition_after_prefix (p : string) :
  colon_free p = true ->
  forall line,
    prefix (p ++ ":") (upper line) = true ->
    exists a, partition ":" line = Some (a, drop (S (String.length p)) line).
Proof.
  unfold upper.
  induction p as [|a p IH]; intros Hp line Hpre.
  - destruct line as [|c rest]; [discriminate|].
    apply prefix_cons in Hpre as [E _].
    symmetry in E. apply upper_char_colon in E. subst c. simpl. eauto.
  - simpl in Hp. apply andb_prop in Hp as [Ha Hp].
    destruct line as [|c rest]; [discriminate|].
    apply prefix_cons in Hpre as [E Hpre].
    destruct (IH Hp rest Hpre) as [b Hb].
    simpl. destruct (Ascii.eqb c ":") eqn:Ec.
    + apply Ascii.eqb_eq in Ec. subst c. rewrite upper_colon in E. subst a.
      discriminate.
    + rewrite Hb. eauto.
Qed.

Lemma getitem_after_prefix (p line : string) :
  colon_free p = true ->
  startswith (upper line) (p ++ ":") = true ->
  getitem (split1 ":" line) 1 = Returned (drop (S (String.length p)) line).
Proof.
  intros Hp Hpre. destruct (partition_after_prefix p Hp line Hpre) as [a Ha].
  unfold split1. rewrite Ha. reflexivity.
Qed.

(** Two prefixes that differ in their first character exclude each other. *)
Lemma prefix_exclusive (a b : ascii) (p q s : string) :
  a <> b -> prefix (String a p) s = true -> prefix (String b q) s = false.
Proof.
  intros Hab H. destruct s as [|c s]; [discriminate|].
  apply prefix_cons in H as [E _]. subst c.
  change (prefix (String b q) (String a s))
    with (if ascii_dec b a then prefix q s else false).
  destruct (ascii_dec b a); [congruence|reflexivity].
Qed.

End Prefixes.

Section Floats.

Lemma float_of_str_raises (s : string) (e : PyExc) :
  float_of_str s = Raised e -> exc_class e = ValueError.
Proof.
  unfold float_of_str.
  destruct (strip_underscores None (strip s)) as [t|]; [|intros [= <-]; reflexivity].
  destruct (strtod t) as [[[[neg m] e10] rest]|].
  - destruct rest; intros [= <-]; reflexivity.
  - destruct (parse_inf_or_nan t) as [[f rest]|]; [destruct rest|];
      intros [= <-]; reflexivity.
Qed.

Lemma round_half_even_nonneg (a b : Z) :
  (0 <= a)%Z -> (0 <= b)%Z -> (0 <= round_half_even a b)%Z.
Proof.
  intros Ha Hb. unfold round_half_even.
  pose proof (Z_div_nonneg_nonneg a b Ha Hb) as Hq.
  destruct (2 * (a mod b) ?= b)%Z; [destruct (Z.even (a / b))| |]; lia.
Qed.

Lemma scaled_nonneg (n d e : Z) :
  (0 <= n)%Z -> (0 <= d)%Z ->
  (0 <= fst (scaled n d e))%Z /\ (0 <= snd (scaled n d e))%Z.
Proof.
  intros Hn Hd. unfold scaled.
  destruct (0 <=? e)%Z; simpl; split; try assumption;
    apply Z.mul_nonneg_nonneg; try assumption; apply Z.pow_nonneg; lia.
Qed.

Lemma binary64_nonneg (neg neg' : bool) (n d m e : Z) :
  (0 <= n)%Z -> (0 <= d)%Z ->
  binary64 neg n d = FFinite neg' m e -> (0 <= m)%Z.
Proof.
  intros Hn Hd. unfold binary64.
  destruct (scaled n d (Z.log2 n - Z.log2 d)) as [a0 b0].
  set (ex := Z.max (-1074) _).
  pose proof (scaled_nonneg n d ex Hn Hd) as [Ha Hb].
  destruct (scaled n d ex) as [a b]. simpl in Ha, Hb.
  pose proof (round_half_even_nonneg a b Ha Hb) as Hr.
  destruct (round_half_even a b =? 2 ^ 53)%Z.
  - destruct (971 <? ex + 1)%Z; intros [= _ <- _]. lia.
  - destruct (971 <? ex)%Z; intros [= _ <- _]. exact Hr.
Qed.

Lemma decimal_to_double_nonneg (neg neg' : bool) (d e10 m e : Z) :
  (0 <= d)%Z -> decimal_to_double neg d e10 = FFinite neg' m e -> (0 <= m)%Z.
Proof.
  intros Hd. unfold decimal_to_double.
  destruct (d =? 0)%Z; [intros [= _ <- _]; lia|].
  destruct (0 <=? e10)%Z; intros H; eapply binary64_nonneg; try exact H; lia.
Qed.

Lemma isdigit_value (c : ascii) : isdigit c = true -> (0 <= digit_value c)%Z.
Proof.
  unfold isdigit, digit_value. intros H. apply andb_prop in H as [H _].
  apply Nat.leb_le in H. lia.
Qed.

Lemma read_digits_nonneg (s : string) :
  forall acc cnt v n rest,
    (0 <= acc)%Z -> read_digits acc cnt s = (v, n, rest) -> (0 <= v)%Z.
Proof.
  induction s as [|c s IH]; intros acc cnt v n rest Hacc; simpl.
  - intros [= <- _ _]. assumption.
  - destruct (isdigit c) eqn:Hc.
    + apply IH. pose proof (isdigit_value c Hc). lia.
    + intros [= <- _ _]. assumption.
Qed.

Lemma strtod_nonneg (s : string) (neg : bool) (m e10 : Z) (rest : string) :
  strtod s = Some (neg, m, e10, rest) -> (0 <= m)%Z.
Proof.
  unfold strtod. destruct (read_sign s) as [sg s1].
  destruct (read_digits 0 0 s1) as [[ip ni] s2] eqn:Hip.
  assert (0 <= ip)%Z as Hi by (eapply read_digits_nonneg; [|exact Hip]; lia).
  destruct (match s2 with
            | String "." t => read_digits ip 0 t
            | _ => (ip, O, s2)
            end) as [[m' nf] s3] eqn:Hm.
  assert (0 <= m')%Z as Hm'.
  { destruct s2 as [|c t]; [injection Hm as <- _ _; assumption|].
    destruct (Ascii.eqb c ".") eqn:Ec.
    - apply Ascii.eqb_eq in Ec. subst c.
      eapply read_digits_nonneg; [|exact Hm]. assumption.
    - assert ((ip, O, String c t) = (m', nf, s3)) as E.
      { rewrite <- Hm. destruct c as [[] [] [] [] [] [] [] []];
          try reflexivity; discriminate. }
      injection E as <- _ _. assumption. }
  destruct (ni + nf =? 0)%nat; [discriminate|].
  destruct (match s3 with
            | String c t =>
                if Ascii.eqb (lower_char c) "e"
                then let (eneg, t1) := read_sign t in
                     let '(ev, ne, t2) := read_digits 0 0 t1 in
                     if (ne =? 0)%nat then (0%Z, s3)
                     else ((if eneg then (- ev)%Z else ev), t2)
                else (0%Z, s3)
            | EmptyString => (0%Z, s3)
            end) as [ex s4].
  intros [= _ <- _ _]. assumption.
Qed.

Lemma parse_inf_or_nan_not_finite (s rest : string) (neg : bool) (m e : Z) :
  parse_inf_or_nan s <> Some (FFinite neg m e, rest).
Proof.
  unfold parse_inf_or_nan. destruct (read_sign s) as [sg s1].
  destruct (prefix "inf" (lower s1)).
  - destruct (prefix "inity" (lower (drop 3 s1))); discriminate.
  - destruct (prefix "nan" (lower s1)); discriminate.
Qed.

(** The mantissa of a parsed float is not negative. *)
Lemma float_of_str_nonneg (s : string) (neg : bool) (m e : Z) :
  float_of_str s = Returned (FFinite neg m e) -> (0 <= m)%Z.
Proof.
  unfold float_of_str.
  destruct (strip_underscores None (strip s)) as [t|]; [|discriminate].
  destruct (strtod t) as [[[[sg d] e10] rest]|] eqn:Hs.
  - destruct rest; [|discriminate]. intros [= H].
    eapply decimal_to_double_nonneg; [|exact H].
    eapply strtod_nonneg; exact Hs.
  - destruct (parse_inf_or_nan t) as [[f rest]|] eqn:Hp; [|discriminate].
    destruct rest; [|discriminate]. intros [= ->].
    exfalso. eapply parse_inf_or_nan_not_finite; exact Hp.
Qed.

(** On such a float [int] is the truncation toward zero. *)
Lemma int_of_float_truncate (neg : bool) (m e : Z) :
  (0 <= m)%Z -> int_of_float (FFinite neg m e) = Returned (truncate neg m e).
Proof.
  intros Hm. unfold int_of_float, truncate. f_equal.
  destruct (0 <=? e)%Z eqn:He.
  - destruct neg; ring.
  - apply Z.leb_gt in He.
    assert (0 < 2 ^ (- e))%Z as Hd by (apply Z.pow_pos_nonneg; lia).
    destruct neg.
    + rewrite Z.quot_opp_l by lia. rewrite Z.quot_div_nonneg by lia. reflexivity.
    + rewrite Z.quot_div_nonneg by lia. reflexivity.
Qed.

End Floats.

Section ScanLine.

Lemma split_head (sep : ascii) (s : string) :
  exists rest,
    split sep s =
    match partition sep s with Some (a, _) => a | None => s end :: rest.
Proof.
  induction s as [|c s [rest IH]]; simpl.
  - eauto.
  - destruct (Ascii.eqb c sep); [eauto|].
    rewrite IH. destruct (partition sep s) as [[a b]|]; eauto.
Qed.

Lemma getitem_before_slash (s : string) :
  getitem (split "/" s) 0 = Returned (before_slash s).
Proof.
  destruct (split_head "/" s) as [rest H]. rewrite H. reflexivity.
Qed.

(** The CONFIDENCE: branch returns the confidence of the text after the
    prefix, and raises [OverflowError] when that text reads as an
    infinity. *)
Lemma confidence_branch (line : string) :
  startswith (upper line) "CONFIDENCE:" = true ->
  let branch := try_except (confidence_try line) [ValueError; IndexError]
                           (fun _ => Returned 50%Z) in
  match confidence_of_text (drop 11 line) with
  | Some c => branch = Returned c
  | None => exists e, branch = Raised e /\ exc_class e = OverflowError
  end.
Proof.
  intros Hp. unfold confidence_try, confidence_of_text.
  rewrite (getitem_after_prefix "CONFIDENCE" line eq_refl Hp). cbn [bind String.length].
  rewrite getitem_before_slash. cbn [bind].
  destruct (float_of_str (strip (before_slash (remove_char "%" (strip (drop 11 line))))))
    as [[|neg|neg m e]|err] eqn:Hf; cbn [bind].
  - reflexivity.
  - eexists. split; reflexivity.
  - rewrite (int_of_float_truncate neg m e (float_of_str_nonneg _ _ _ _ Hf)).
    reflexivity.
  - apply float_of_str_raises in Hf. unfold try_except. rewrite Hf. reflexivity.
Qed.

Lemma scan_line_agrees (st st1 : Parsed) (line : string) :
  scan_line st line = Returned st1 -> line_agrees st st1 line.
Proof.
  unfold scan_line, line_agrees, verdict_of_line, reasoning_of_line,
    confidence_of_line, confidence_text_of_line, has_prefix, text_after, raw_after.
  set (L := strip line).
  destruct (startswith (upper L) "VERDICT:") eqn:HV.
  - rewrite (getitem_after_prefix "VERDICT" L eq_refl HV). cbn [bind String.length].
    unfold startswith in *.
    rewrite (prefix_exclusive "V" "R" _ _ _ ltac:(discriminate) HV).
    rewrite (prefix_exclusive "V" "C" _ _ _ ltac:(discriminate) HV).
    unfold accepted_verdicts.
    destruct (str_in _ _); intros [= <-]; simpl; auto.
  - destruct (startswith (upper L) "REASONING:") eqn:HR.
    + rewrite (getitem_after_prefix "REASONING" L eq_refl HR). cbn [bind String.length].
      unfold startswith in *.
      rewrite (prefix_exclusive "R" "C" _ _ _ ltac:(discriminate) HR).
      intros [= <-]; simpl; auto.
    + destruct (startswith (upper L) "CONFIDENCE:") eqn:HC.
      * pose proof (confidence_branch L HC) as Hb. cbn zeta in Hb.
        cbn [String.length option_map].
        destruct (confidence_of_text (drop 11 L)) as [c|].
        -- rewrite Hb. cbn [bind]. intros [= <-]; simpl; auto.
        -- destruct Hb as [e [Hb _]]. rewrite Hb. discriminate.
      * intros [= <-]; simpl; auto.
Qed.

(** A line that raises is a CONFIDENCE: line that reads as an infinity. *)
Lemma scan_line_raises (st : Parsed) (line : string) (e : PyExc) :
  scan_line st line = Raised e ->
  exc_class e = OverflowError /\ confidence_of_line line = Some None.
Proof.
  unfold scan_line, confidence_of_line, confidence_text_of_line, has_prefix, raw_after.
  set (L := strip line).
  destruct (startswith (upper L) "VERDICT:") eqn:HV.
  - rewrite (getitem_after_prefix "VERDICT" L eq_refl HV). cbn [bind].
    destruct (str_in _ _); discriminate.
  - destruct (startswith (upper L) "REASONING:") eqn:HR.
    + rewrite (getitem_after_prefix "REASONING" L eq_refl HR). discriminate.
    + destruct (startswith (upper L) "CONFIDENCE:") eqn:HC; [|discriminate].
      pose proof (confidence_branch L HC) as Hb. cbn zeta in Hb.
      cbn [String.length option_map].
      destruct (confidence_of_text (drop 11 L)) as [c|].
      * rewrite Hb. discriminate.
      * destruct Hb as [e' [Hb He]]. rewrite Hb. cbn [bind].
        intros [= <-]. auto.
Qed.

End ScanLine.

Section ScanLines.

Lemma first_match_app {A : Type} (f : string -> option A) (l1 l2 : list string) :
  first_match f (l1 ++ l2) =
  match first_match f l1 with
  | Some x => Some x
  | None => first_match f l2
  end.
Proof.
  induction l1 as [|a l1 IH]; simpl; [reflexivity|].
  destruct (f a); [reflexivity|exact IH].
Qed.


Lemma last_match_cons {A : Type} (f : string -> option A) (line : string)
      (rest : list string) :
  last_match f (line :: rest) =
  match last_match f rest with
  | Some x => Some x
  | None => f line
  end.
Proof.
  unfold last_match. simpl. rewrite first_match_app. simpl.
  destruct (first_match f (rev rest)); [reflexivity|].
  destruct (f line); reflexivity.
Qed.

Lemma first_match_some {A : Type} (f : string -> option A) (lines : list string) (x : A) :
  first_match f lines = Some x -> exists line, In line lines /\ f line = Some x.
Proof.
  induction lines as [|a lines IH]; simpl; [discriminate|].
  destruct (f a) eqn:Ha.
  - intros [= <-]. eauto.
  - intros H. destruct (IH H) as [line [Hin Hl]]. eauto.
Qed.

Lemma last_match_some {A : Type} (f : string -> option A) (lines : list string) (x : A) :
  last_match f lines = Some x -> exists line, In line lines /\ f line = Some x.
Proof.
  intros H. apply first_match_some in H as [line [Hin Hl]].
  exists line. split; [apply in_rev; exact Hin|exact Hl].
Qed.

Lemma last_match_none {A : Type} (f : string -> option A) (lines : list string) :
  Forall (fun line => f line = None) lines -> last_match f lines = None.
Proof.
  induction 1 as [|line rest Hl _ IH]; [reflexivity|].
  rewrite last_match_cons, IH. exact Hl.
Qed.

Lemma scan_lines_agree (lines : list string) :
  forall st st', scan_lines st lines = Returned st' -> lines_agree st st' lines.
Proof.
  induction lines as [|line rest IH]; intros st st'; simpl.
  - intros [= <-]. repeat split.
  - destruct (scan_line st line) as [st1|e] eqn:H1; [|discriminate].
    cbn [bind]. intros H.
    apply scan_line_agrees in H1 as (Hv1 & Hr1 & Hc1).
    apply IH in H as (Hv & Hr & Hc).
    unfold lines_agree. rewrite !last_match_cons.
    repeat split.
    + rewrite Hv, Hv1. destruct (last_match verdict_of_line rest); reflexivity.
    + rewrite Hr, Hr1. destruct (last_match reasoning_of_line rest); reflexivity.
    + destruct (last_match confidence_of_line rest) as [[c|]|]; try assumption.
      destruct (confidence_of_line line) as [[c|]|]; congruence.
Qed.

(** The loop raises nothing but the [OverflowError] of an infinite
    confidence. *)
Lemma scan_lines_raises (lines : list string) :
  forall st e,
    scan_lines st lines = Raised e ->
    exc_class e = OverflowError /\
    exists line, In line lines /\ confidence_of_line line = Some None.
Proof.
  induction lines as [|line rest IH]; intros st e; simpl; [discriminate|].
  destruct (scan_line st line) as [st1|e1] eqn:H1; cbn [bind].
  - intros H. destruct (IH _ _ H) as [He [l [Hin Hl]]]. eauto.
  - intros [= <-]. apply scan_line_raises in H1 as [He Hl]. eauto.
Qed.

Lemma scan_lines_returns (lines : list string) :
  Forall (fun line => confidence_of_line line <> Some None) lines ->
  forall st, exists st', scan_lines st lines = Returned st'.
Proof.
  intros Hall st. destruct (scan_lines st lines) as [st'|e] eqn:H; [eauto|].
  apply scan_lines_raises in H as [_ [line [Hin Hl]]].
  rewrite Forall_forall in Hall. exfalso. exact (Hall line Hin Hl).
Qed.

End ScanLines.

Section ParseVerdict.

Lemma verdict_of_line_accepted (line v : string) :
  verdict_of_line line = Some v -> In v accepted_verdicts.
Proof.
  unfold verdict_of_line. destruct (has_prefix "VERDICT:" line); [|discriminate].
  destruct (str_in _ accepted_verdicts) eqn:Hin; [|discriminate].
  intros [= <-]. unfold str_in in Hin. apply existsb_exists in Hin as [x [Hx Heq]].
  apply String.eqb_eq in Heq. rewrite Heq. exact Hx.
Qed.

Lemma clamp_range (n : Z) : (0 <= clamp n <= 100)%Z.
Proof. unfold clamp. lia. Qed.

Lemma confidence_of_text_range (t : string) (c : Z) :
  confidence_of_text t = Some c -> (0 <= c <= 100)%Z.
Proof.
  unfold confidence_of_text.
  destruct (float_of_str _) as [[|neg|neg m e]|err]; intros [= <-];
    try lia; apply clamp_range.
Qed.

(** [parse_verdict] in terms of the lines of the response. *)
Lemma parse_verdict_lines (response v r : string) (c : Z) :
  parse_verdict response = Returned (v, r, c) ->
  let lines := response_lines response in
  v = with_default "inconclusive" (last_match verdict_of_line lines) /\
  r = (let t := with_default "" (last_match reasoning_of_line lines) in
       if String.eqb t "" then strip response else t) /\
  match last_match confidence_of_line lines with
  | None => c = 50%Z
  | Some found => found = Some c
  end.
Proof.
  unfold parse_verdict.
  destruct (scan_lines _ (response_lines response)) as [st|e] eqn:H; [|discriminate].
  cbn [bind]. intros [= <- <- <-].
  apply scan_lines_agree in H as (Hv & Hr & Hc). simpl in Hv, Hr, Hc.
  cbn zeta. repeat split.
  - exact Hv.
  - rewrite Hr. reflexivity.
  - destruct (last_match confidence_of_line (response_lines response)) as [[c|]|];
      [congruence|contradiction|exact Hc].
Qed.

(** When [parse_verdict] returns, the verdict is one of the three words
    and the confidence lies in 0..100. *)
Lemma parse_verdict_in_domain (response v r : string) (c : Z) :
  parse_verdict response = Returned (v, r, c) ->
  In v accepted_verdicts /\ (0 <= c <= 100)%Z.
Proof.
  intros H. apply parse_verdict_lines in H as (Hv & _ & Hc). cbn zeta in *. split.
  - destruct (last_match verdict_of_line (response_lines response)) as [x|] eqn:Hl.
    + apply last_match_some in Hl as [line [_ Hl]].
      subst v. eapply verdict_of_line_accepted. exact Hl.
    + subst v. simpl. auto.
  - destruct (last_match confidence_of_line (response_lines response)) as [found|] eqn:Hl.
    + apply last_match_some in Hl as [line [_ Hl]]. subst found.
      unfold confidence_of_line, confidence_text_of_line in Hl.
      destruct (has_prefix _ _); [|discriminate].
      injection Hl as Hl. eapply confidence_of_text_range. exact Hl.
    + lia.
Qed.

(** [parse_verdict] raises only the [OverflowError] of [int], and only on
    a CONFIDENCE: line that reads as an infinity; otherwise it returns. *)
Lemma parse_verdict_raises (response : string) (e : PyExc) :
  parse_verdict response = Raised e ->
  exc_class e = OverflowError /\
  exists line, In line (response_lines response) /\ confidence_of_line line = Some None.
Proof.
  unfold parse_verdict.
  destruct (scan_lines _ (response_lines response)) as [st|e1] eqn:H; [discriminate|].
  cbn [bind]. intros [= <-]. eapply scan_lines_raises. exact H.
Qed.

Lemma parse_verdict_returns (response : string) :
  Forall (fun line => confidence_of_line line <> Some None) (response_lines response) ->
  exists v r c, parse_verdict response = Returned (v, r, c).
Proof.
  intros Hall. unfold parse_verdict.
  destruct (scan_lines_returns _ Hall (mkParsed "inconclusive" "" 50)) as [st Hst].
  rewrite Hst. cbn [bind]. eauto.
Qed.

End ParseVerdict.

Section ParseVerdictClaims.

(** C2 (code defect). [parse_verdict] is not total: on a reply whose
    CONFIDENCE: text reads as an infinity, [int(float(raw))] raises
    [OverflowError], which the handler for [ValueError] and [IndexError]
    does not catch, so the call raises instead of returning a verdict and
    a confidence in 0..100. *)
Theorem parse_verdict_raises_on_infinite_confidence :
  parse_verdict "CONFIDENCE: inf"
    = Raised (mkExc OverflowError "cannot convert float infinity to integer") /\
  parse_verdict reply_infinite
    = Raised (mkExc OverflowError "cannot convert float infinity to integer") /\
  parse_verdict "confidence: 1e999"
    = Raised (mkExc OverflowError "cannot convert float infinity to integer").
Proof. repeat split; vm_compute; reflexivity. Qed.










End ParseVerdictClaims.

(* ================================================================== *)
(** ** Properties of [run_evaluations] *)
(* ================================================================== *)

Section Messages.

Lemma prefix_append (p s : string) : prefix p (p ++ s) = true.
Proof.
  induction p as [|a p IH]; simpl; [destruct s; reflexivity|].
  destruct (ascii_dec a a); [exact IH|congruence].
Qed.

Lemma contains_here (s sub : string) : prefix sub s = true -> contains s sub = true.
Proof. intros H. destruct s; cbn [contains]; rewrite H; reflexivity. Qed.

Lemma contains_append (a b c : string) : contains (a ++ b ++ c) b = true.
Proof.
  induction a as [|x a IH].
  - change ("" ++ b ++ c) with (b ++ c). apply contains_here, prefix_append.
  - change (String x a ++ b ++ c) with (String x (a ++ b ++ c)).
    cbn [contains]. rewrite IH. apply orb_true_r.
Qed.

Lemma failure_msg_names_judge (judge_row : JudgeRow) (e : PyExc) :
  contains (failure_msg judge_row e) (j_name judge_row) = true.
Proof.
  unfold failure_msg, http_error_msg, error_msg.
  destruct (exc_class_eqb _ _); apply contains_append.
Qed.

End Messages.

Section Inserts.

Lemma same_store_refl (d : Db) : same_store d d.
Proof. repeat split. Qed.

Lemma same_store_trans (a b c : Db) : same_store a b -> same_store b c -> same_store a c.
Proof.
  unfold same_store. intros (?&?&?&?&?&?&?) (?&?&?&?&?&?&?).
  repeat split; congruence.
Qed.

Lemma insert_evaluation_returns (d d' : Db) (sub_id tid : string) (jid : Z)
      (v r : string) (c : Z) (t : string) :
  insert_evaluation d sub_id tid jid v r c t = Returned d' ->
  evaluations_writable d /\ same_store d d' /\
  evaluations d' =
    (evaluations d ++ [mkEvaluationRow (next_id e_id (evaluations d)) sub_id tid jid v r c t])%list.
Proof.
  unfold insert_evaluation, evaluations_writable.
  destruct (missing_column _ _); [discriminate|].
  intros [= <-]. repeat split.
Qed.

Lemma insert_evaluation_writable (d : Db) (sub_id tid : string) (jid : Z)
      (v r : string) (c : Z) (t : string) :
  evaluations_writable d ->
  exists d', insert_evaluation d sub_id tid jid v r c t = Returned d'.
Proof.
  unfold insert_evaluation, evaluations_writable. intros ->. eauto.
Qed.

Lemma insert_evaluation_raises (d : Db) (sub_id tid : string) (jid : Z)
      (v r : string) (c : Z) (t : string) (e : PyExc) :
  insert_evaluation d sub_id tid jid v r c t = Raised e -> ~ evaluations_writable d.
Proof.
  unfold insert_evaluation, evaluations_writable.
  destruct (missing_column _ _); [discriminate|discriminate].
Qed.

End Inserts.

Section JudgeLoop.

Variable backend : Backend.
Variables sub_id q_template_id q_text : string.
Variable q_content : option string.
Variable answer : string.

Let step := run_judge backend sub_id q_template_id q_text q_content answer.
Let prompt := build_prompt q_text q_content answer.

(** One iteration of the judge loop, by the three steps that may raise. *)
Lemma run_judge_cases (st : RunState) (judge_row : JudgeRow) :
  let st' := step st judge_row in
  let n := List.length (st_calls st) in
  st_planned st' = S (st_planned st) /\
  st_calls st' =
    (st_calls st ++ [mkCall (j_model_name judge_row) prompt (j_system_prompt judge_row)])%list /\
  match generate backend n (j_model_name judge_row) prompt (j_system_prompt judge_row) with
  | Raised e => failed_with st st' judge_row e
  | Returned text =>
      match parse_verdict text with
      | Raised e => failed_with st st' judge_row e
      | Returned (v, r, c) =>
          match insert_evaluation (st_db st) sub_id q_template_id (j_id judge_row)
                                  v r c (now backend n) with
          | Raised e => failed_with st st' judge_row e
          | Returned d' => completed_with st st' d'
          end
      end
  end.
Proof.
  subst step prompt. cbn zeta. unfold run_judge, attempt. cbn [st_calls st_db].
  destruct (generate backend _ _ _ _) as [text|e].
  - destruct (parse_verdict text) as [[[v r] c]|e].
    + destruct (insert_evaluation _ _ _ _ _ _ _ _) as [d'|e].
      * repeat split.
      * unfold failed_with, failure_msg, record_failure.
        destruct (exc_class_eqb _ _); repeat split.
    + unfold failed_with, failure_msg, record_failure.
      destruct (exc_class_eqb _ _); repeat split.
  - unfold failed_with, failure_msg, record_failure.
    destruct (exc_class_eqb _ _); repeat split.
Qed.

(** Every iteration counts one attempt, makes one call, leaves the other
    tables alone and keeps the counters balanced. *)
Lemma run_judge_invariant (st : RunState) (judge_row : JudgeRow) :
  let st' := step st judge_row in
  st_planned st' = S (st_planned st) /\
  List.length (st_calls st') = S (List.length (st_calls st)) /\
  same_store (st_db st) (st_db st') /\
  (balanced st -> balanced st').
Proof.
  pose proof (run_judge_cases st judge_row) as (Hp & Hc & Hcases). cbn zeta in *.
  set (st' := step st judge_row) in *.
  assert (Hfail : forall e, failed_with st st' judge_row e ->
                            same_store (st_db st) (st_db st') /\ (balanced st -> balanced st')).
  { intros e (Hd & Hco & Hf & He). split.
    - rewrite Hd. apply same_store_refl.
    - unfold balanced. rewrite Hp, Hco, Hf, He, length_app. simpl. lia. }
  split; [exact Hp|]. split; [rewrite Hc, length_app; simpl; lia|].
  destruct (generate backend _ _ _ _) as [text|e]; [|eauto].
  destruct (parse_verdict text) as [[[v r] c]|e]; [|eauto].
  destruct (insert_evaluation _ _ _ _ _ _ _ _) as [d'|e] eqn:Hi; [|eauto].
  destruct Hcases as (Hd & Hco & Hf & He).
  apply insert_evaluation_returns in Hi as (_ & Hs & _). split.
  - rewrite Hd. exact Hs.
  - unfold balanced. rewrite Hp, Hco, Hf, He. lia.
Qed.

Lemma judge_loop_invariant (judge_rows : list JudgeRow) :
  forall st,
    let st' := fold_left step judge_rows st in
    st_planned st' = st_planned st + List.length judge_rows /\
    List.length (st_calls st') = List.length (st_calls st) + List.length judge_rows /\
    same_store (st_db st) (st_db st') /\
    (balanced st -> balanced st').
Proof.
  induction judge_rows as [|j rest IH]; intros st; cbn zeta; simpl.
  - split; [lia|]. split; [lia|]. split; [apply same_store_refl|auto].
  - pose proof (run_judge_invariant st j) as (Hp & Hc & Hs & Hb). cbn zeta in *.
    destruct (IH (step st j)) as (Hp' & Hc' & Hs' & Hb'). cbn zeta in *.
    split; [lia|]. split; [lia|].
    split; [eapply same_store_trans; eassumption|auto].
Qed.

End JudgeLoop.

Section RunLoops.

Variable backend : Backend.
Variable queue_id : string.

Lemma fold_left_map_arg {A B C : Type} (f : A -> C -> A) (g : B -> C) (l : list B) :
  forall a, fold_left f (map g l) a = fold_left (fun a x => f a (g x)) l a.
Proof. induction l as [|x l IH]; intros a; simpl; [reflexivity|apply IH]. Qed.

Lemma triple_loop_invariant (ts : list Triple) :
  forall st,
    let st' := fold_left (run_triple backend) ts st in
    st_planned st' = st_planned st + List.length ts /\
    List.length (st_calls st') = List.length (st_calls st) + List.length ts /\
    same_store (st_db st) (st_db st') /\
    (balanced st -> balanced st').
Proof.
  induction ts as [|t rest IH]; intros st; cbn zeta; simpl.
  - split; [lia|]. split; [lia|]. split; [apply same_store_refl|auto].
  - pose proof (run_judge_invariant backend (t_sub_id t)
                  (q_question_template_id (t_question t))
                  (q_question_text (t_question t)) (q_content (t_question t))
                  (answer_text (t_answer t)) st (t_judge t)) as (Hp & Hc & Hs & Hb).
    cbn zeta in *. fold (run_triple backend st t) in *.
    destruct (IH (run_triple backend st t)) as (Hp' & Hc' & Hs' & Hb'). cbn zeta in *.
    split; [lia|]. split; [lia|].
    split; [eapply same_store_trans; eassumption|auto].
Qed.

(** The three queries of the loops do not read [evaluations]. *)
Lemma queries_same_store (d d' : Db) :
  same_store d d' ->
  select_submission_ids d' queue_id = select_submission_ids d queue_id /\
  (forall sub_id, select_questions d' sub_id = select_questions d sub_id) /\
  (forall tid, select_assigned_judges d' queue_id tid = select_assigned_judges d queue_id tid) /\
  (forall sub_id tid, select_answer d' sub_id tid = select_answer d sub_id tid).
Proof.
  intros (Hqc & Hec & Hs & Hq & Ha & Hj & Hja).
  unfold select_submission_ids, select_questions, select_assigned_judges, select_answer.
  rewrite Hqc, Hs, Hq, Ha, Hj, Hja. repeat split.
Qed.

Lemma select_questions_readable (d : Db) (sub_id : string) :
  questions_readable d -> select_questions d sub_id = Returned (questions_of d sub_id).
Proof. unfold questions_readable, select_questions. intros ->. reflexivity. Qed.

Lemma select_questions_unreadable (d : Db) (sub_id : string) :
  ~ questions_readable d -> exists e, select_questions d sub_id = Raised e.
Proof.
  unfold questions_readable, select_questions.
  destruct (missing_column _ _); [eauto|congruence].
Qed.

(** The question loop runs the attempts of its questions in order. *)
Lemma run_question_triples (d : Db) (st : RunState) (sub_id : string) (q_row : QuestionRow) :
  same_store d (st_db st) ->
  run_question backend queue_id sub_id st q_row
  = fold_left (run_triple backend) (question_triples d queue_id sub_id q_row) st.
Proof.
  intros Hs. apply queries_same_store in Hs as (_ & _ & Hj & Ha).
  unfold run_question, question_triples. rewrite Hj, Ha.
  destruct (select_answer d sub_id _) as [a|]; [|reflexivity].
  rewrite fold_left_map_arg. reflexivity.
Qed.

Lemma question_loop_triples (d : Db) (sub_id : string) (rows : list QuestionRow) :
  forall st,
    same_store d (st_db st) ->
    fold_left (run_question backend queue_id sub_id) rows st
    = fold_left (run_triple backend)
                (flat_map (question_triples d queue_id sub_id) rows) st.
Proof.
  induction rows as [|q rest IH]; intros st Hs; simpl; [reflexivity|].
  rewrite fold_left_app, (run_question_triples d st sub_id q Hs).
  apply IH. eapply same_store_trans; [exact Hs|].
  apply (triple_loop_invariant (question_triples d queue_id sub_id q) st).
Qed.

(** With a readable [questions] table the submission loop runs all
    attempts and ends without an exception. *)
Lemma submission_loop_triples (d : Db) (subs : list string) :
  questions_readable d ->
  forall st,
    same_store d (st_db st) ->
    run_submissions backend queue_id st subs
    = (fold_left (run_triple backend)
                 (flat_map (submission_triples d queue_id) subs) st, None).
Proof.
  intros Hr. induction subs as [|sub rest IH]; intros st Hs; simpl; [reflexivity|].
  destruct (queries_same_store d (st_db st) Hs) as (_ & Hq & _ & _).
  rewrite Hq, (select_questions_readable d sub Hr).
  rewrite fold_left_app, (question_loop_triples d sub (questions_of d sub) st Hs).
  apply IH. eapply same_store_trans; [exact Hs|].
  apply (triple_loop_invariant (submission_triples d queue_id sub) st).
Qed.

Lemma run_evaluations_readable (d : Db) :
  questions_readable d ->
  let st := fold_left (run_triple backend) (triples d queue_id) (initial_state d) in
  run_evaluations backend d queue_id
  = mkRunResult
      (Returned (mkResponse (st_planned st) (st_completed st) (st_failed st)
                            (firstn 10 (st_errors st))))
      (st_db st) (st_calls st).
Proof.
  intros Hr. cbn zeta. unfold run_evaluations.
  rewrite (submission_loop_triples d _ Hr (initial_state d) (same_store_refl d)).
  reflexivity.
Qed.

(** Without the column the run ends at the first submission, before any
    attempt. *)
Lemma run_evaluations_unreadable (d : Db) :
  ~ questions_readable d ->
  match select_submission_ids d queue_id with
  | [] => response (run_evaluations backend d queue_id) = Returned (mkResponse 0 0 0 [])
  | _ :: _ =>
      exists e, run_evaluations backend d queue_id = mkRunResult (Raised e) d []
  end.
Proof.
  intros Hn. unfold run_evaluations.
  destruct (select_submission_ids d queue_id) as [|sub rest]; [reflexivity|].
  simpl. destruct (select_questions_unreadable d sub Hn) as [e He].
  rewrite He. eauto.
Qed.

Lemma initial_state_balanced (d : Db) : balanced (initial_state d).
Proof. split; reflexivity. Qed.

End RunLoops.

Section RunSteps.

Variable backend : Backend.

(** An attempt whose call is answered with an acceptable reply, on a
    writable [evaluations] table, completes. *)
Lemma run_triple_replies (st : RunState) (t : Triple) (n : nat) :
  List.length (st_calls st) = n ->
  replies_at backend n ->
  evaluations_writable (st_db st) ->
  let st' := run_triple backend st t in
  st_planned st' = S (st_planned st) /\
  st_completed st' = S (st_completed st) /\
  st_failed st' = st_failed st /\
  st_errors st' = st_errors st /\
  List.length (st_calls st') = S n /\
  evaluations_writable (st_db st') /\
  List.length (evaluations (st_db st')) = S (List.length (evaluations (st_db st))).
Proof.
  intros Hn Hrep Hw. cbn zeta. unfold run_triple.
  pose proof (run_judge_cases backend (t_sub_id t) (q_question_template_id (t_question t))
                (q_question_text (t_question t)) (q_content (t_question t))
                (answer_text (t_answer t)) st (t_judge t)) as (Hp & Hc & Hcases).
  cbn zeta in *. rewrite Hn in Hcases.
  destruct (Hrep (j_model_name (t_judge t))
                 (build_prompt (q_question_text (t_question t)) (q_content (t_question t))
                               (answer_text (t_answer t)))
                 (j_system_prompt (t_judge t))) as (text & v & r & c & Hg & Hpv).
  rewrite Hg, Hpv in Hcases.
  destruct (insert_evaluation_writable (st_db st) (t_sub_id t)
              (q_question_template_id (t_question t)) (j_id (t_judge t)) v r c
              (now backend n) Hw) as [d' Hi].
  rewrite Hi in Hcases. destruct Hcases as (Hd & Hco & Hf & He).
  apply insert_evaluation_returns in Hi as (_ & Hs & Hev).
  repeat split; try assumption.
  - rewrite Hc, length_app. simpl. lia.
  - unfold evaluations_writable in *. rewrite Hd.
    destruct Hs as (_ & <- & _). exact Hw.
  - rewrite Hd, Hev, length_app. simpl. lia.
Qed.

(** An attempt whose call raises is counted as failed, with one message. *)
Lemma run_triple_throws (st : RunState) (t : Triple) (n : nat) (e : PyExc) :
  List.length (st_calls st) = n ->
  throws_at backend n e ->
  let st' := run_triple backend st t in
  st_planned st' = S (st_planned st) /\
  st_completed st' = st_completed st /\
  st_failed st' = S (st_failed st) /\
  st_errors st' = (st_errors st ++ [failure_msg (t_judge t) e])%list /\
  List.length (st_calls st') = S n /\
  st_db st' = st_db st.
Proof.
  intros Hn Hthrow. cbn zeta. unfold run_triple.
  pose proof (run_judge_cases backend (t_sub_id t) (q_question_template_id (t_question t))
                (q_question_text (t_question t)) (q_content (t_question t))
                (answer_text (t_answer t)) st (t_judge t)) as (Hp & Hc & Hcases).
  cbn zeta in *. rewrite Hn, Hthrow in Hcases.
  destruct Hcases as (Hd & Hco & Hf & He).
  repeat split; try assumption.
  rewrite Hc, length_app. simpl. lia.
Qed.

(** Three attempts in a row of which exactly one, the one numbered [k],
    has its call raise. *)
Lemma three_attempts (s0 : RunState) (t1 t2 t3 : Triple) (k : nat) (e : PyExc) :
  List.length (st_calls s0) = 0 ->
  evaluations_writable (st_db s0) ->
  k < 3 ->
  throws_at backend k e ->
  (forall i, i < 3 -> i <> k -> replies_at backend i) ->
  let s3 := fold_left (run_triple backend) [t1; t2; t3] s0 in
  st_planned s3 = 3 + st_planned s0 /\
  st_completed s3 = 2 + st_completed s0 /\
  st_failed s3 = 1 + st_failed s0 /\
  st_errors s3 = (st_errors s0 ++ [failure_msg (nth k [t_judge t1; t_judge t2; t_judge t3]
                                                    (t_judge t1)) e])%list /\
  List.length (st_calls s3) = 3 /\
  List.length (evaluations (st_db s3)) = 2 + List.length (evaluations (st_db s0)).
Proof.
  intros L0 W0 Hk Hthrow Hrep. cbn zeta. cbn [fold_left].
  destruct k as [|[|[|k]]]; [| | |lia].
  - destruct (run_triple_throws s0 t1 0 e L0 Hthrow) as (P1 & C1 & F1 & E1 & L1 & D1).
    cbn zeta in *. set (s1 := run_triple backend s0 t1) in *.
    assert (evaluations_writable (st_db s1)) as W1 by (rewrite D1; exact W0).
    destruct (run_triple_replies s1 t2 1 L1 (Hrep 1 ltac:(lia) ltac:(lia)) W1)
      as (P2 & C2 & F2 & E2 & L2 & W2 & V2).
    cbn zeta in *. set (s2 := run_triple backend s1 t2) in *.
    destruct (run_triple_replies s2 t3 2 L2 (Hrep 2 ltac:(lia) ltac:(lia)) W2)
      as (P3 & C3 & F3 & E3 & L3 & _ & V3).
    cbn zeta in *.
    rewrite P3, P2, P1, C3, C2, C1, F3, F2, F1, E3, E2, E1, L3, V3, V2, D1.
    repeat split.
  - destruct (run_triple_replies s0 t1 0 L0 (Hrep 0 ltac:(lia) ltac:(lia)) W0)
      as (P1 & C1 & F1 & E1 & L1 & W1 & V1).
    cbn zeta in *. set (s1 := run_triple backend s0 t1) in *.
    destruct (run_triple_throws s1 t2 1 e L1 Hthrow) as (P2 & C2 & F2 & E2 & L2 & D2).
    cbn zeta in *. set (s2 := run_triple backend s1 t2) in *.
    assert (evaluations_writable (st_db s2)) as W2 by (rewrite D2; exact W1).
    destruct (run_triple_replies s2 t3 2 L2 (Hrep 2 ltac:(lia) ltac:(lia)) W2)
      as (P3 & C3 & F3 & E3 & L3 & _ & V3).
    cbn zeta in *.
    rewrite P3, P2, P1, C3, C2, C1, F3, F2, F1, E3, E2, E1, L3, V3, D2, V1.
    repeat split.
  - destruct (run_triple_replies s0 t1 0 L0 (Hrep 0 ltac:(lia) ltac:(lia)) W0)
      as (P1 & C1 & F1 & E1 & L1 & W1 & V1).
    cbn zeta in *. set (s1 := run_triple backend s0 t1) in *.
    destruct (run_triple_replies s1 t2 1 L1 (Hrep 1 ltac:(lia) ltac:(lia)) W1)
      as (P2 & C2 & F2 & E2 & L2 & W2 & V2).
    cbn zeta in *. set (s2 := run_triple backend s1 t2) in *.
    destruct (run_triple_throws s2 t3 2 e L2 Hthrow) as (P3 & C3 & F3 & E3 & L3 & D3).
    cbn zeta in *.
    rewrite P3, P2, P1, C3, C2, C1, F3, F2, F1, E3, E2, E1, L3, D3, V2, V1.
    repeat split.
Qed.

Lemma select_questions_returned (d : Db) (sub_id : string) (rows : list QuestionRow) :
  select_questions d sub_id = Returned rows ->
  questions_readable d /\ questions_of d sub_id = rows.
Proof.
  unfold select_questions, questions_readable, questions_of.
  destruct (missing_column _ _); [discriminate|]. intros [= <-]. split; reflexivity.
Qed.

Lemma select_answer_unanswered (d : Db) (sub_id tid : string) :
  unanswered d sub_id tid -> select_answer d sub_id tid = None.
Proof.
  unfold unanswered, select_answer. intros Hno.
  destruct (find _ (answers d)) as [a|] eqn:Hf; [|reflexivity].
  apply find_some in Hf as [Hin Hm]. apply andb_prop in Hm as [H1 H2].
  apply String.eqb_eq in H1, H2. exfalso. exact (Hno a Hin (conj H1 H2)).
Qed.

Lemma flat_map_all_nil {A B : Type} (f : A -> list B) (l : list A) :
  (forall x, In x l -> f x = []) -> flat_map f l = [].
Proof.
  induction l as [|x l IH]; intros H; simpl; [reflexivity|].
  rewrite (H x (or_introl eq_refl)). apply IH. intros y Hy. apply H. right. exact Hy.
Qed.

End RunSteps.

Section RunClaims.

(** C10. For every database, queue and backend, the response of a run
    satisfies planned = completed + failed.  A run ends without a response
    only when the query for the questions names a column the table does
    not have. *)
Theorem run_counters_add_up (backend : Backend) (d : Db) (queue_id : string) :
  match response (run_evaluations backend d queue_id) with
  | Returned r => planned r = completed r + failed r
  | Raised _ => ~ questions_readable d
  end.
Proof.
  destruct (missing_column (questions_columns d)
              ["question_template_id"; "question_text"; "content"; "submission_id"])
    as [c|] eqn:Hm.
  - assert (~ questions_readable d) as Hn
        by (unfold questions_readable; rewrite Hm; discriminate).
    pose proof (run_evaluations_unreadable backend queue_id d Hn) as H.
    destruct (select_submission_ids d queue_id).
    + rewrite H. reflexivity.
    + destruct H as [e ->]. exact Hn.
  - rewrite (run_evaluations_readable backend queue_id d Hm). cbn [response planned completed failed].
    apply (triple_loop_invariant backend (triples d queue_id) (initial_state d)).
    apply initial_state_balanced.
Qed.

Lemma run_counters_add_up_witness :
  exists r,
    response (run_evaluations backend_second_call_fails store_three_judges "Q1") = Returned r /\
    planned r = completed r + failed r.
Proof.
  pose proof (run_counters_add_up backend_second_call_fails store_three_judges "Q1") as H.
  destruct (response (run_evaluations backend_second_call_fails store_three_judges "Q1"))
    as [r|e] eqn:E.
  - exists r. split; [reflexivity|exact H].
  - exfalso. apply H. reflexivity.
Defined.

(** C7. A question without an answer row for the submission is skipped:
    the iteration of the question loop leaves the whole state as it was
    (planned, completed, failed, errors, the calls made to the judges and
    the database).  A run over a queue none of whose questions is answered
    plans nothing and calls no judge. *)
Theorem unanswered_question_is_skipped (backend : Backend) (queue_id : string) :
  (forall (sub_id : string) (st : RunState) (q_row : QuestionRow),
      unanswered (st_db st) sub_id (q_question_template_id q_row) ->
      run_question backend queue_id sub_id st q_row = st) /\
  (forall d : Db,
      questions_readable d ->
      (forall sub_id q_row,
          In sub_id (select_submission_ids d queue_id) ->
          In q_row (questions_of d sub_id) ->
          unanswered d sub_id (q_question_template_id q_row)) ->
      run_evaluations backend d queue_id
      = mkRunResult (Returned (mkResponse 0 0 0 [])) d []).
Proof.
  split.
  - intros sub_id st q_row Hno. unfold run_question.
    rewrite (select_answer_unanswered _ _ _ Hno). reflexivity.
  - intros d Hr Hno.
    rewrite (run_evaluations_readable backend queue_id d Hr). cbn zeta.
    assert (triples d queue_id = []) as ->; [|reflexivity].
    unfold triples. apply flat_map_all_nil. intros sub_id Hs.
    unfold submission_triples. apply flat_map_all_nil. intros q_row Hq.
    unfold question_triples.
    rewrite (select_answer_unanswered _ _ _ (Hno sub_id q_row Hs Hq)). reflexivity.
Qed.

Lemma unanswered_question_is_skipped_witness :
  run_question backend_pass "Q1" "S1" (initial_state store_unanswered) question_q2
  = initial_state store_unanswered.
Proof.
  apply (proj1 (unanswered_question_is_skipped backend_pass "Q1")).
  intros a [<-|[]] [_ H]. vm_compute in H. discriminate.
Defined.

(** In support of C3: failures are isolated per attempt.  Whatever the
    backend:
    (1) an attempt whose invocation raises, and (2) an attempt whose
    insert of the evaluation raises, is counted in planned, adds one to
    failed and appends one message that contains the judge's name, and
    the loop goes on with the next judge;
    (3) when the questions can be read, the run returns a response whose
    planned counts every attempt of the queue, each of them completed or
    failed, with one message per failure up to ten;
    (4) for one question with three assigned active judges where exactly
    one invocation raises (the other replies are accepted by the parser
    and the insert finds its columns), the response is planned = 3,
    completed = 2, failed = 1 with one error message, which names the
    judge of the failed call. *)
Theorem run_isolates_failures (backend : Backend) (queue_id : string) :
  (forall sub_id tid q_text q_content ans st judge_row e,
      generate backend (List.length (st_calls st)) (j_model_name judge_row)
               (build_prompt q_text q_content ans) (j_system_prompt judge_row)
        = Raised e ->
      let st' := run_judge backend sub_id tid q_text q_content ans st judge_row in
      st_planned st' = S (st_planned st) /\
      failed_with st st' judge_row e /\
      contains (failure_msg judge_row e) (j_name judge_row) = true) /\
  (forall sub_id tid q_text q_content ans st judge_row text v r c e,
      generate backend (List.length (st_calls st)) (j_model_name judge_row)
               (build_prompt q_text q_content ans) (j_system_prompt judge_row)
        = Returned text ->
      parse_verdict text = Returned (v, r, c) ->
      insert_evaluation (st_db st) sub_id tid (j_id judge_row) v r c
                        (now backend (List.length (st_calls st))) = Raised e ->
      let st' := run_judge backend sub_id tid q_text q_content ans st judge_row in
      st_planned st' = S (st_planned st) /\
      failed_with st st' judge_row e /\
      contains (failure_msg judge_row e) (j_name judge_row) = true) /\
  (forall d,
      questions_readable d ->
      exists r,
        response (run_evaluations backend d queue_id) = Returned r /\
        planned r = List.length (triples d queue_id) /\
        planned r = completed r + failed r /\
        List.length (errors r) = Nat.min 10 (failed r)) /\
  (forall d sub_id q_row answer_row j1 j2 j3 k e,
      select_submission_ids d queue_id = [sub_id] ->
      select_questions d sub_id = Returned [q_row] ->
      select_answer d sub_id (q_question_template_id q_row) = Some answer_row ->
      select_assigned_judges d queue_id (q_question_template_id q_row) = [j1; j2; j3] ->
      evaluations_writable d ->
      k < 3 ->
      throws_at backend k e ->
      (forall i, i < 3 -> i <> k -> replies_at backend i) ->
      let result := run_evaluations backend d queue_id in
      response result
        = Returned (mkResponse 3 2 1 [failure_msg (nth k [j1; j2; j3] j1) e]) /\
      contains (failure_msg (nth k [j1; j2; j3] j1) e)
               (j_name (nth k [j1; j2; j3] j1)) = true /\
      List.length (evaluations (final_db result)) = 2 + List.length (evaluations d) /\
      List.length (generate_calls result) = 3).
Proof.
  split; [|split; [|split]].
  - intros sub_id tid q_text q_content ans st judge_row e Hg. cbn zeta.
    pose proof (run_judge_cases backend sub_id tid q_text q_content ans st judge_row)
      as (Hp & _ & Hcases).
    cbn zeta in Hcases. rewrite Hg in Hcases.
    split; [exact Hp|]. split; [exact Hcases|apply failure_msg_names_judge].
  - intros sub_id tid q_text q_content ans st judge_row text v r c e Hg Hpv Hi. cbn zeta.
    pose proof (run_judge_cases backend sub_id tid q_text q_content ans st judge_row)
      as (Hp & _ & Hcases).
    cbn zeta in Hcases. rewrite Hg, Hpv, Hi in Hcases.
    split; [exact Hp|]. split; [exact Hcases|apply failure_msg_names_judge].
  - intros d Hr. rewrite (run_evaluations_readable backend queue_id d Hr). cbn zeta.
    eexists. split; [reflexivity|]. cbn [planned completed failed errors].
    destruct (triple_loop_invariant backend (triples d queue_id) (initial_state d))
      as (Hp & _ & _ & Hb).
    destruct (Hb (initial_state_balanced d)) as [Hbal Hlen].
    split; [exact Hp|]. split; [exact Hbal|].
    rewrite length_firstn, Hlen. reflexivity.
  - intros d sub_id q_row answer_row j1 j2 j3 k e Hsubs Hq Ha Hj Hw Hk Hthrow Hrep.
    apply select_questions_returned in Hq as [Hr Hq]. cbn zeta.
    split; [|split; [apply failure_msg_names_judge|]].
    all: rewrite (run_evaluations_readable backend queue_id d Hr); cbn zeta.
    all: unfold triples, submission_triples, question_triples.
    all: rewrite Hsubs; cbn [flat_map]; rewrite Hq; cbn [flat_map]; rewrite Ha, Hj.
    all: cbn [map app].
    all: destruct (three_attempts backend (initial_state d)
                     (mkTriple sub_id q_row answer_row j1)
                     (mkTriple sub_id q_row answer_row j2)
                     (mkTriple sub_id q_row answer_row j3) k e
                     eq_refl Hw Hk Hthrow Hrep) as (P & C & F & E & L & V).
    all: cbn zeta in *.
    + cbn [response]. rewrite P, C, F, E.
      destruct k as [|[|[|k]]]; [reflexivity|reflexivity|reflexivity|lia].
    + split; [exact V|exact L].
Qed.

Lemma run_isolates_failures_witness :
  let result := run_evaluations backend_second_call_fails store_three_judges "Q1" in
  response result
    = Returned (mkResponse 3 2 1
                  [failure_msg (nth 1 [judge_J1; judge_J2; judge_J3] judge_J1) connect_error]) /\
  contains (failure_msg (nth 1 [judge_J1; judge_J2; judge_J3] judge_J1) connect_error)
           (j_name (nth 1 [judge_J1; judge_J2; judge_J3] judge_J1)) = true /\
  List.length (evaluations (final_db result)) = 2 + List.length (evaluations store_three_judges) /\
  List.length (generate_calls result) = 3.
Proof.
  apply (proj2 (proj2 (proj2 (run_isolates_failures backend_second_call_fails "Q1")))
           store_three_judges "S1" question_q1 answer_q1 judge_J1 judge_J2 judge_J3
           1 connect_error).
  - reflexivity.
  - reflexivity.
  - reflexivity.
  - reflexivity.
  - reflexivity.
  - lia.
  - intros model prompt system. reflexivity.
  - intros i Hi Hne model prompt system.
    exists reply_pass, "pass", "ok", 90%Z.
    destruct i as [|[|[|i]]]; [| |  |lia]; try (split; reflexivity).
    contradiction Hne. reflexivity.
Defined.

(** C3 (code defect). One question with three assigned active judges, the
    second invocation raises and no other does.  On the [evaluations]
    table that [init_db] declares the inserts of the two other attempts
    raise as well (the column [confidence_score] is missing): the run
    returns planned = 3, completed = 0, failed = 3 with three messages
    and stores nothing, instead of 3, 2, 1 and one message; with the
    [questions] table as declared too, the run raises before any judge is
    called.  On tables that have every column, a reply whose confidence
    reads as an infinity makes [parse_verdict] raise, so with exactly one
    invocation raising the run returns 3, 1, 2 with two messages. *)
Theorem run_isolation_on_declared_evaluations :
  throws_at backend_second_call_fails 1 connect_error /\
  (forall i model prompt system,
      i <> 1 -> generate backend_second_call_fails i model prompt system
                = Returned reply_pass) /\
  (let result := run_evaluations backend_second_call_fails
                   (three_judges_on questions_columns_with_content
                                    init_db_evaluations_columns) "Q1" in
   response result
     = Returned (mkResponse 3 0 3
         ["Error running judge 'J1': table evaluations has no column named confidence_score";
          "HTTP error for judge 'J2': All connection attempts failed";
          "Error running judge 'J3': table evaluations has no column named confidence_score"]) /\
   evaluations (final_db result) = [] /\
   List.length (generate_calls result) = 3) /\
  (let result := run_evaluations backend_second_call_fails
                   (three_judges_on init_db_questions_columns
                                    init_db_evaluations_columns) "Q1" in
   response result = Raised (no_such_column "content") /\
   generate_calls result = []) /\
  (let result := run_evaluations backend_throws_then_infinite store_three_judges "Q1" in
   throws_at backend_throws_then_infinite 1 connect_error /\
   (forall i model prompt system,
       i <> 1 -> exists text,
         generate backend_throws_then_infinite i model prompt system = Returned text) /\
   response result
     = Returned (mkResponse 3 1 2
         ["HTTP error for judge 'J2': All connection attempts failed";
          "Error running judge 'J3': cannot convert float infinity to integer"]) /\
   List.length (evaluations (final_db result)) = 1).
Proof.
  split; [intros model prompt system; reflexivity|].
  split.
  { intros i model prompt system Hi. cbn.
    destruct (Nat.eqb i 1) eqn:E; [apply Nat.eqb_eq in E; contradiction|reflexivity]. }
  split; [repeat split; vm_compute; reflexivity|].
  split; [split; vm_compute; reflexivity|].
  cbn zeta. split; [intros model prompt system; reflexivity|].
  split.
  { intros i model prompt system Hi. cbn.
    destruct (Nat.eqb i 1) eqn:E; [apply Nat.eqb_eq in E; contradiction|].
    destruct (Nat.eqb i 2); eexists; reflexivity. }
  split; vm_compute; reflexivity.
Qed.

(** No attempt completes on a database whose [evaluations] table lacks a
    column of the insert. *)
Lemma unwritable_evaluations_never_complete (backend : Backend) (d : Db)
      (queue_id : string) :
  ~ evaluations_writable d ->
  match response (run_evaluations backend d queue_id) with
  | Returned r => completed r = 0 /\ failed r = planned r
  | Raised _ => True
  end /\
  evaluations (final_db (run_evaluations backend d queue_id)) = evaluations d.
Proof.
  intros Hw.
  assert (Hstep : forall ts st,
             ~ evaluations_writable (st_db st) ->
             let st' := fold_left (run_triple backend) ts st in
             st_db st' = st_db st /\ st_completed st' = st_completed st).
  { induction ts as [|t rest IH]; intros st Hn; cbn zeta; simpl; [auto|].
    pose proof (run_judge_cases backend (t_sub_id t) (q_question_template_id (t_question t))
                  (q_question_text (t_question t)) (q_content (t_question t))
                  (answer_text (t_answer t)) st (t_judge t)) as (_ & _ & Hcases).
    cbn zeta in Hcases. fold (run_triple backend st t) in Hcases.
    assert (st_db (run_triple backend st t) = st_db st /\
            st_completed (run_triple backend st t) = st_completed st) as [Hd Hc].
    { destruct (generate backend _ _ _ _) as [text|e];
        [|destruct Hcases as (? & ? & _); auto].
      destruct (parse_verdict text) as [[[v r] c]|e];
        [|destruct Hcases as (? & ? & _); auto].
      destruct (insert_evaluation _ _ _ _ _ _ _ _) as [d'|e] eqn:Hi;
        [|destruct Hcases as (? & ? & _); auto].
      apply insert_evaluation_returns in Hi as [Hi _]. contradiction. }
    destruct (IH (run_triple backend st t)) as [Hd' Hc']; [rewrite Hd; exact Hn|].
    cbn zeta in *. split; congruence. }
  destruct (missing_column (questions_columns d)
              ["question_template_id"; "question_text"; "content"; "submission_id"])
    as [c|] eqn:Hm.
  - assert (~ questions_readable d) as Hn
        by (unfold questions_readable; rewrite Hm; discriminate).
    pose proof (run_evaluations_unreadable backend queue_id d Hn) as H.
    unfold run_evaluations in *.
    destruct (select_submission_ids d queue_id); simpl in *.
    + repeat split.
    + destruct H as [e H]. rewrite H. simpl. repeat split.
  - rewrite (run_evaluations_readable backend queue_id d Hm). cbn zeta.
    cbn [response final_db completed failed planned].
    destruct (Hstep (triples d queue_id) (initial_state d) Hw) as [Hd Hc]. cbn zeta in *.
    destruct (triple_loop_invariant backend (triples d queue_id) (initial_state d))
      as (_ & _ & _ & Hb).
    destruct (Hb (initial_state_balanced d)) as [Hbal _].
    rewrite Hd, Hc in *. simpl in *. repeat split. lia.
Qed.

(** The end-to-end run of the specification on a file whose two tables
    carry every column: one evaluation row, pass, ok, 90. *)
Lemma end_to_end_run_with_both_columns :
  let result := run_evaluations backend_pass
                  (store questions_columns_with_content evaluations_columns_with_confidence)
                  "Q1" in
  response result = Returned (mkResponse 1 1 0 []) /\
  evaluations (final_db result)
    = [mkEvaluationRow 1 "S1" "q1" 1 "pass" "ok" 90 "2024-01-02T00:00:00"].
Proof. split; vm_compute; reflexivity. Qed.

(** C1 (code defect). On the [evaluations] table that [init_db] declares
    the insert of [run_evaluations] names a column [confidence_score] that
    the table does not have.  In the end-to-end scenario (queue Q1, one
    answered question, one active judge, the backend replies pass, ok,
    90): with both tables as declared the query for the questions raises
    and no judge is called; with a [questions] table that has [content]
    the insert raises, the run returns planned = 1, completed = 0,
    failed = 1 and no evaluation row is stored. *)
Theorem end_to_end_run_on_declared_evaluations :
  (let result := run_evaluations backend_pass
                   (store init_db_questions_columns init_db_evaluations_columns) "Q1" in
   response result = Raised (no_such_column "content") /\
   evaluations (final_db result) = [] /\
   generate_calls result = []) /\
  (let result := run_evaluations backend_pass
                   (store questions_columns_with_content init_db_evaluations_columns) "Q1" in
   response result
     = Returned (mkResponse 1 0 1
         ["Error running judge 'J1': table evaluations has no column named confidence_score"]) /\
   evaluations (final_db result) = []).
Proof. repeat split; vm_compute; reflexivity. Qed.

End RunClaims.

(* ================================================================== *)
(** ** Properties of [get_evaluation_stats] and [upload_submissions] *)
(* ================================================================== *)

Section StatsClaims.

(** On a file whose [evaluations] table has the column: three pass and
    one fail give total 4 and a pass rate of 75.0; no row gives 0.0 and
    the average confidence 50.0. *)
Lemma stats_with_confidence_column :
  get_evaluation_stats
    (with_evaluations
       (store questions_columns_with_content evaluations_columns_with_confidence)
       four_evaluations) None None None
  = Returned (mkStats 4 3 1 0 (float_of_fraction 75 1) (float_of_fraction 815 10)) /\
  get_evaluation_stats
    (store questions_columns_with_content evaluations_columns_with_confidence)
    None None None
  = Returned (mkStats 0 0 0 0 float_zero (float_of_fraction 50 1)).
Proof. split; vm_compute; reflexivity. Qed.

(** C8 (code defect). On the [evaluations] table that [init_db] declares,
    [get_evaluation_stats] returns no statistics at all: the query for the
    average names a column [confidence_score] that the table does not
    have.  On the empty database the call raises instead of returning a
    pass rate of 0.0 and an average confidence of 50.0, and it raises for
    every content of the table and every filter. *)
Theorem stats_raise_on_declared_evaluations :
  get_evaluation_stats (init_db None) None None None
    = Raised (no_such_column "confidence_score") /\
  forall (rows : list EvaluationRow) (judge_ids question_ids verdict : option string),
  exists e,
    get_evaluation_stats (with_evaluations (init_db None) rows)
                         judge_ids question_ids verdict = Raised e.
Proof.
  split; [vm_compute; reflexivity|].
  intros rows judge_ids question_ids verdict. unfold get_evaluation_stats.
  destruct (parse_judge_ids judge_ids) as [ids|e]; [|cbn [bind]; eauto].
  cbn [bind]. unfold select_verdict_counts, select_avg_confidence.
  destruct (binds ids), ids, (parse_question_ids question_ids), (truthy verdict);
    cbn; eauto.
Qed.

End StatsClaims.

Section UploadClaims.

Lemma submission_s1_well_formed : Models.well_formed submission_s1.
Proof.
  unfold Models.well_formed. simpl. constructor; [intros []|constructor].
Qed.

(** C9 (code defect). Uploading a submission whose id is already stored
    replaces the row of [submissions] and inserts the answers once more:
    after the same payload is uploaded twice to a new database, both
    uploads succeeding, there are two answer rows for submission s1 and
    template q1. *)
Theorem reupload_duplicates_answers :
  let first := upload_submissions (init_db None) [submission_s1] in
  let second := upload_submissions (snd first) [submission_s1] in
  fst first = Returned "Successfully uploaded 1 submissions" /\
  answers_unique (snd first) /\
  fst second = Returned "Successfully uploaded 1 submissions" /\
  List.length (submissions (snd second)) = 1 /\
  answers (snd second)
    = [mkAnswerRow 1 "s1" "q1" "yes" None; mkAnswerRow 2 "s1" "q1" "yes" None] /\
  ~ answers_unique (snd second).
Proof.
  cbn zeta. split; [vm_compute; reflexivity|].
  split; [unfold answers_unique; simpl; constructor; [intros []|constructor]|].
  split; [vm_compute; reflexivity|].
  split; [vm_compute; reflexivity|].
  split; [vm_compute; reflexivity|].
  unfold answers_unique. simpl. intros H. inversion H as [|x l Hin _]; subst.
  apply Hin. left. reflexivity.
Qed.

End UploadClaims.

(* ================================================================== *)
(** ** Further properties of [parse_verdict] *)
(* ================================================================== *)

Section StripLemmas.

Lemma rstrip_cons_nonspace (c : ascii) (s : string) :
  isspace c = false -> rstrip (String c s) = String c (rstrip s).
Proof. intros H. simpl. rewrite H. destruct (rstrip s); reflexivity. Qed.

Lemma rstrip_idempotent (s : string) : rstrip (rstrip s) = rstrip s.
Proof.
  induction s as [|c s IH]; [reflexivity|].
  simpl. destruct (rstrip s) as [|c' r] eqn:Hr.
  - destruct (isspace c) eqn:Hc; [reflexivity|]. simpl. rewrite Hc. reflexivity.
  - change (rstrip (String c (String c' r)))
      with (match rstrip (String c' r) with
            | EmptyString => if isspace c then EmptyString else String c EmptyString
            | r0 => String c r0
            end).
    rewrite IH. reflexivity.
Qed.

Lemma lstrip_head (s : string) :
  lstrip s = EmptyString \/ exists c t, lstrip s = String c t /\ isspace c = false.
Proof.
  induction s as [|c s IH]; simpl; [auto|].
  destruct (isspace c) eqn:Hc; [exact IH|]. right. eauto.
Qed.

Lemma lstrip_cons_nonspace (c : ascii) (s : string) :
  isspace c = false -> lstrip (String c s) = String c s.
Proof. intros H. simpl. rewrite H. reflexivity. Qed.

Lemma strip_idempotent (s : string) : strip (strip s) = strip s.
Proof.
  unfold strip. destruct (lstrip_head s) as [E|(c & t & E & Hc)]; rewrite E.
  - reflexivity.
  - rewrite (rstrip_cons_nonspace c t Hc), (lstrip_cons_nonspace c _ Hc).
    rewrite <- (rstrip_cons_nonspace c t Hc). apply rstrip_idempotent.
Qed.

(** A text that ends with a fixed non-empty trimmed text is trimmed on the
    right. *)
Lemma rstrip_append (a b : string) :
  rstrip b = b -> b <> EmptyString -> rstrip (a ++ b) = a ++ b.
Proof.
  intros Hb Hne. induction a as [|c a IH]; [exact Hb|].
  change (String c a ++ b) with (String c (a ++ b)). simpl. rewrite IH.
  destruct (a ++ b) eqn:E; [|reflexivity].
  destruct a; simpl in E; [contradiction|discriminate].
Qed.

End StripLemmas.

Section ParseVerdictExtras.

(** On ASCII text [parse_verdict] either returns one of the three verdict
    words with a confidence within 0..100, or raises [OverflowError],
    which happens only when a CONFIDENCE: line reads as an infinity; it
    raises nothing else. *)
Theorem parse_verdict_domain_or_overflow (response : string) :
  isascii response = true ->
  match parse_verdict response with
  | Returned (v, _, c) => In v accepted_verdicts /\ (0 <= c <= 100)%Z
  | Raised e =>
      exc_class e = OverflowError /\
      exists line, In line (response_lines response) /\ confidence_of_line line = Some None
  end.
Proof.
  intros _. destruct (parse_verdict response) as [[[v r] c]|e] eqn:H.
  - eapply parse_verdict_in_domain. exact H.
  - eapply parse_verdict_raises. exact H.
Qed.

Lemma parse_verdict_domain_or_overflow_witness :
  match parse_verdict reply_infinite with
  | Returned (v, _, c) => In v accepted_verdicts /\ (0 <= c <= 100)%Z
  | Raised e =>
      exc_class e = OverflowError /\
      exists line, In line (response_lines reply_infinite) /\
                   confidence_of_line line = Some None
  end.
Proof.
  apply (parse_verdict_domain_or_overflow reply_infinite). reflexivity.
Defined.

(** White space around the reply does not matter. *)
Theorem parse_verdict_ignores_outer_whitespace (response : string) :
  parse_verdict (strip response) = parse_verdict response.
Proof.
  unfold parse_verdict, response_lines. rewrite strip_idempotent. reflexivity.
Qed.

(** An ASCII reply none of whose lines carries a prefix (the empty reply
    among them) gives the defaults: inconclusive, the whole trimmed reply
    as reasoning, confidence 50. *)
Theorem parse_verdict_without_prefixes (response : string) :
  isascii response = true ->
  Forall plain_line (response_lines response) ->
  parse_verdict response = Returned ("inconclusive", strip response, 50%Z).
Proof.
  intros _ Hplain.
  assert (last_match verdict_of_line (response_lines response) = None) as Hv.
  { apply last_match_none. eapply Forall_impl; [|exact Hplain].
    intros line (H1 & _ & _). unfold verdict_of_line. rewrite H1. reflexivity. }
  assert (last_match reasoning_of_line (response_lines response) = None) as Hr.
  { apply last_match_none. eapply Forall_impl; [|exact Hplain].
    intros line (_ & H2 & _). unfold reasoning_of_line. rewrite H2. reflexivity. }
  assert (last_match confidence_of_line (response_lines response) = None) as Hc.
  { apply last_match_none. eapply Forall_impl; [|exact Hplain].
    intros line (_ & _ & H3).
    unfold confidence_of_line, confidence_text_of_line. rewrite H3. reflexivity. }
  destruct (parse_verdict_returns response) as (v & r & c & Hp).
  { eapply Forall_impl; [|exact Hplain]. intros line (_ & _ & H3).
    unfold confidence_of_line, confidence_text_of_line. rewrite H3. discriminate. }
  pose proof (parse_verdict_lines _ _ _ _ Hp) as (Ev & Er & Ec). cbn zeta in *.
  rewrite Hv in Ev. rewrite Hr in Er. rewrite Hc in Ec. simpl in Ev, Er.
  rewrite Hp. subst. reflexivity.
Qed.

Lemma parse_verdict_without_prefixes_witness :
  parse_verdict "The answer looks fine to me."
  = Returned ("inconclusive", strip "The answer looks fine to me.", 50%Z).
Proof.
  apply parse_verdict_without_prefixes.
  - reflexivity.
  - repeat constructor.
Defined.

End ParseVerdictExtras.

Section FormatReply.

Lemma split_single_line (s : string) :
  single_line s = true -> split newline s = [s].
Proof.
  induction s as [|c s IH]; simpl; [reflexivity|].
  intros H. apply andb_prop in H as [Hc Hs].
  destruct (Ascii.eqb c newline); [discriminate|]. rewrite (IH Hs). reflexivity.
Qed.

Lemma split_append_line (a b : string) :
  single_line a = true ->
  split newline (a ++ String newline b) = a :: split newline b.
Proof.
  induction a as [|c a IH]; intros H.
  - simpl. reflexivity.
  - simpl in H. apply andb_prop in H as [Hc Ha].
    change (String c a ++ String newline b) with (String c (a ++ String newline b)).
    cbn [split]. destruct (Ascii.eqb c newline); [discriminate|].
    rewrite (IH Ha). reflexivity.
Qed.

Lemma single_line_append (a b : string) :
  single_line (a ++ b) = single_line a && single_line b.
Proof.
  induction a as [|c a IH]; simpl; [reflexivity|].
  rewrite IH. apply andb_assoc.
Qed.

Lemma rstrip_cons_trimmed (c : ascii) (s : string) :
  rstrip s = s -> s <> EmptyString -> rstrip (String c s) = String c s.
Proof.
  intros H Hne. simpl. rewrite H. destruct s; [contradiction|reflexivity].
Qed.

Lemma append_nonempty (a b : string) : b <> EmptyString -> a ++ b <> EmptyString.
Proof. destruct a; simpl; [auto|discriminate]. Qed.

Lemma confidence_lines_read_back (n : nat) :
  n <= 100 -> confidence_line_reads_back n = true.
Proof.
  intros Hn.
  assert (forallb confidence_line_reads_back (seq 0 101) = true) as Hall
      by (vm_compute; reflexivity).
  rewrite forallb_forall in Hall. apply Hall. apply in_seq. lia.
Qed.

(** The three lines of a reply in the format asked for. *)
Lemma response_lines_format_reply (v r : string) (n : nat) :
  In v accepted_verdicts -> single_line r = true -> n <= 100 ->
  response_lines (format_reply v r n)
  = ["VERDICT: " ++ v; "REASONING: " ++ r; confidence_line n].
Proof.
  intros Hv Hr Hn.
  pose proof (confidence_lines_read_back n Hn) as Hc.
  unfold confidence_line_reads_back in Hc.
  apply andb_prop in Hc as [Hc _]. apply andb_prop in Hc as [Hc _].
  apply andb_prop in Hc as [Htrim Hline]. apply String.eqb_eq in Htrim.
  assert (confidence_line n <> EmptyString) as Hne by discriminate.
  assert (single_line ("VERDICT: " ++ v) = true) as Hv1.
  { destruct Hv as [<-|[<-|[<-|[]]]]; reflexivity. }
  assert (single_line ("REASONING: " ++ r) = true) as Hr1.
  { rewrite single_line_append, Hr. reflexivity. }
  unfold response_lines, strip.
  assert (lstrip (format_reply v r n) = format_reply v r n) as -> by reflexivity.
  assert (rstrip (format_reply v r n) = format_reply v r n) as ->.
  { unfold format_reply. apply rstrip_append.
    - apply rstrip_cons_trimmed.
      + apply rstrip_append.
        * apply rstrip_cons_trimmed; assumption.
        * discriminate.
      + apply append_nonempty. discriminate.
    - discriminate. }
  unfold format_reply.
  rewrite (split_append_line _ _ Hv1), (split_append_line _ _ Hr1).
  rewrite (split_single_line _ Hline). reflexivity.
Qed.

(** Round trip of the reply format: the three lines the prompt asks for,
    with an accepted verdict word, a one-line trimmed non-empty reasoning
    in ASCII and a confidence up to 100, are parsed back to exactly these
    values. *)
Theorem parse_verdict_format_reply (v r : string) (n : nat) :
  In v accepted_verdicts ->
  isascii r = true ->
  single_line r = true -> strip r = r -> r <> EmptyString ->
  n <= 100 ->
  parse_verdict (format_reply v r n) = Returned (v, r, Z.of_nat n).
Proof.
  intros Hv _ Hline Htrim Hne Hn.
  pose proof (response_lines_format_reply v r n Hv Hline Hn) as Hlines.
  pose proof (confidence_lines_read_back n Hn) as Hc.
  unfold confidence_line_reads_back in Hc.
  apply andb_prop in Hc as [Hc Hnone]. apply andb_prop in Hc as [_ Hconf].
  destruct (confidence_of_line (confidence_line n)) as [[c|]|] eqn:Hc3; try discriminate.
  apply Z.eqb_eq in Hconf. subst c.
  destruct (verdict_of_line (confidence_line n)) eqn:Hv3; [discriminate|].
  destruct (reasoning_of_line (confidence_line n)) eqn:Hr3; [discriminate|].
  assert (strip ("REASONING: " ++ r) = "REASONING: " ++ r) as Hstrip2.
  { unfold strip.
    assert (lstrip ("REASONING: " ++ r) = "REASONING: " ++ r) as -> by reflexivity.
    apply rstrip_append; [|exact Hne].
    rewrite <- Htrim. unfold strip. apply rstrip_idempotent. }
  assert (reasoning_of_line ("REASONING: " ++ r) = Some r) as Hr2.
  { unfold reasoning_of_line, has_prefix, text_after, raw_after. rewrite Hstrip2.
    assert (startswith (upper ("REASONING: " ++ r)) "REASONING:" = true) as ->
        by reflexivity.
    f_equal. cbn [String.length drop append].
    unfold strip. cbn [lstrip]. assert (isspace " " = true) as -> by reflexivity.
    exact Htrim. }
  assert (verdict_of_line ("REASONING: " ++ r) = None
          /\ confidence_of_line ("REASONING: " ++ r) = None) as [Hv2 Hc2].
  { unfold verdict_of_line, confidence_of_line, confidence_text_of_line, has_prefix.
    rewrite Hstrip2. split; reflexivity. }
  assert (verdict_of_line ("VERDICT: " ++ v) = Some v
          /\ reasoning_of_line ("VERDICT: " ++ v) = None
          /\ confidence_of_line ("VERDICT: " ++ v) = None) as (Hv1 & Hr1 & Hc1).
  { destruct Hv as [<-|[<-|[<-|[]]]]; repeat split; vm_compute; reflexivity. }
  destruct (parse_verdict_returns (format_reply v r n)) as (v' & r' & c' & Hp).
  { rewrite Hlines. repeat constructor; congruence. }
  pose proof (parse_verdict_lines _ _ _ _ Hp) as (Ev & Er & Ec). cbn zeta in *.
  rewrite Hlines in Ev, Er, Ec.
  unfold last_match in Ev, Er, Ec. cbn [rev app first_match] in Ev, Er, Ec.
  rewrite Hv3, Hv2, Hv1 in Ev. rewrite Hr3, Hr2 in Er. rewrite Hc3 in Ec.
  cbn [with_default] in Ev, Er. injection Ec as Ec.
  destruct (String.eqb r "") eqn:E; [apply String.eqb_eq in E; contradiction|].
  rewrite Hp. subst. reflexivity.
Qed.

Lemma parse_verdict_format_reply_witness :
  parse_verdict (format_reply "fail" "the answer contradicts the context" 85)
  = Returned ("fail", "the answer contradicts the context", 85%Z).
Proof.
  apply (parse_verdict_format_reply "fail" "the answer contradicts the context" 85).
  - right. left. reflexivity.
  - reflexivity.
  - reflexivity.
  - reflexivity.
  - discriminate.
  - lia.
Defined.

End FormatReply.

(* ================================================================== *)
(** ** The order of an index scan *)
(* ================================================================== *)

Section IndexOrder.

Context {R : Type} (key : R -> Z).

Let by_key (a b : R) : Prop := (key a <= key b)%Z.

Lemma insert_by_key_perm (r : R) (rows : list R) :
  Permutation (insert_by_key key r rows) (r :: rows).
Proof.
  induction rows as [|r' rest IH]; simpl; [apply Permutation_refl|].
  destruct (key r <=? key r')%Z; [apply Permutation_refl|].
  eapply perm_trans; [apply perm_skip; exact IH|apply perm_swap].
Qed.

Lemma index_order_perm (rows : list R) : Permutation (index_order key rows) rows.
Proof.
  induction rows as [|r rest IH]; simpl; [apply perm_nil|].
  eapply perm_trans; [apply insert_by_key_perm|apply perm_skip; exact IH].
Qed.

Lemma index_order_in (rows : list R) (r : R) :
  In r (index_order key rows) <-> In r rows.
Proof.
  split; apply Permutation_in; [|apply Permutation_sym]; apply index_order_perm.
Qed.

Lemma insert_by_key_sorted (r : R) (rows : list R) :
  StronglySorted by_key rows -> StronglySorted by_key (insert_by_key key r rows).
Proof.
  induction rows as [|r' rest IH]; intros Hs; simpl.
  - constructor; constructor.
  - inversion Hs as [|x l Hrest Hall]; subst.
    destruct (key r <=? key r')%Z eqn:E.
    + apply Z.leb_le in E. constructor; [exact Hs|].
      constructor; [exact E|].
      eapply Forall_impl; [|exact Hall]. intros a Ha. unfold by_key in *. lia.
    + apply Z.leb_gt in E. constructor; [apply IH; exact Hrest|].
      apply (Permutation_Forall (Permutation_sym (insert_by_key_perm r rest))).
      constructor; [unfold by_key; lia|exact Hall].
Qed.

Lemma index_order_sorted (rows : list R) : StronglySorted by_key (index_order key rows).
Proof.
  induction rows as [|r rest IH]; simpl; [constructor|].
  apply insert_by_key_sorted. exact IH.
Qed.

(** A table whose keys already ascend is scanned in its own order. *)
Lemma index_order_ascending (rows : list R) :
  StronglySorted by_key rows -> index_order key rows = rows.
Proof.
  induction rows as [|r rest IH]; intros Hs; simpl; [reflexivity|].
  inversion Hs as [|x l Hrest Hall]; subst. rewrite (IH Hrest).
  destruct rest as [|r' rest']; [reflexivity|]. simpl.
  inversion Hall as [|y l' Hle _]; subst. unfold by_key in Hle.
  apply Z.leb_le in Hle. rewrite Hle. reflexivity.
Qed.

End IndexOrder.

Section SortedLists.

Lemma sorted_map {A : Type} (key : A -> Z) (l : list A) :
  StronglySorted (fun a b => (key a <= key b)%Z) l -> StronglySorted Z.le (map key l).
Proof.
  induction 1 as [|a l Hs IH Hall]; simpl; constructor; [exact IH|].
  apply Forall_map. exact Hall.
Qed.

Lemma sorted_nodup_strict (l : list Z) :
  StronglySorted Z.le l -> NoDup l -> StronglySorted Z.lt l.
Proof.
  induction 1 as [|a l Hs IH Hall]; intros Hnd; constructor;
    inversion Hnd as [|x l' Hnotin Hnd']; subst.
  - apply IH. exact Hnd'.
  - rewrite Forall_forall in *. intros x Hx. specialize (Hall x Hx).
    assert (x <> a) by (intros ->; contradiction). lia.
Qed.

End SortedLists.

(* ================================================================== *)
(** ** Further properties of [run_evaluations] *)
(* ================================================================== *)

Section RunExtras.

Variable backend : Backend.
Variable queue_id : string.

Lemma select_assigned_judges_in (d : Db) (tid : string) (j : JudgeRow) :
  In j (select_assigned_judges d queue_id tid) ->
  In j (judges d) /\ j_active j = true /\
  exists ja, In ja (judge_assignments d) /\ ja_queue_id ja = queue_id /\
             ja_question_template_id ja = tid /\ ja_judge_id ja = j_id j.
Proof.
  unfold select_assigned_judges. intros H.
  apply in_flat_map in H as (ja & Hja & Hj).
  apply index_order_in, filter_In in Hja as [Hja Hq].
  apply andb_prop in Hq as [E1 E2].
  apply filter_In in Hj as [Hin Hc].
  apply andb_prop in Hc as [Hid Hact].
  apply String.eqb_eq in E1, E2. apply Z.eqb_eq in Hid.
  split; [exact Hin|]. split; [exact Hact|]. exists ja. auto.
Qed.

Lemma select_submission_ids_in (d : Db) (sub_id : string) :
  In sub_id (select_submission_ids d queue_id) ->
  exists s, In s (submissions d) /\ s_id s = sub_id /\ s_queue_id s = queue_id.
Proof.
  unfold select_submission_ids. intros H.
  apply in_map_iff in H as (s & Hs & Hin). apply filter_In in Hin as [Hin Hq].
  apply String.eqb_eq in Hq. eauto.
Qed.

Lemma triples_of_store (d : Db) (t : Triple) :
  In t (triples d queue_id) -> triple_of_store d queue_id t.
Proof.
  unfold triples, submission_triples, question_triples, questions_of. intros H.
  apply in_flat_map in H as (sub_id & Hsub & H).
  apply in_flat_map in H as (q_row & Hq & H).
  apply filter_In in Hq as [Hq Hqs]. apply String.eqb_eq in Hqs.
  destruct (select_answer d sub_id (q_question_template_id q_row)) as [a|] eqn:Ha;
    [|destruct H].
  apply in_map_iff in H as (j & <- & Hj). cbn [t_sub_id t_question t_answer t_judge].
  apply select_assigned_judges_in in Hj as (Hjin & Hact & Hja).
  unfold triple_of_store. cbn [t_sub_id t_question t_answer t_judge].
  split; [apply select_submission_ids_in; exact Hsub|].
  repeat split; assumption.
Qed.

(** The rows a sequence of attempts adds and the calls it makes. *)
Lemma triple_loop_effects (d : Db) (ts : list Triple) :
  Forall (triple_of_store d queue_id) ts ->
  forall st,
    let st' := fold_left (run_triple backend) ts st in
    st_calls st' = (st_calls st ++ map call_of_triple ts)%list /\
    exists added,
      evaluations (st_db st') = (evaluations (st_db st) ++ added)%list /\
      st_completed st' = st_completed st + List.length added /\
      Forall (fun row => row_in_domain row /\ row_of_attempt d queue_id row) added.
Proof.
  induction 1 as [|t rest Ht _ IH]; intros st; cbn zeta; simpl.
  - split; [rewrite app_nil_r; reflexivity|].
    exists []. rewrite app_nil_r. split; [reflexivity|]. split; [simpl; lia|constructor].
  - pose proof (run_judge_cases backend (t_sub_id t) (q_question_template_id (t_question t))
                  (q_question_text (t_question t)) (q_content (t_question t))
                  (answer_text (t_answer t)) st (t_judge t)) as (_ & Hcalls & Hcases).
    cbn zeta in Hcalls, Hcases. fold (run_triple backend st t) in Hcalls, Hcases.
    destruct (IH (run_triple backend st t)) as (Hc' & added' & He' & Hn' & Hall').
    cbn zeta in *.
    split.
    { rewrite Hc', Hcalls, <- app_assoc. reflexivity. }
    assert (Hfail : forall e, failed_with st (run_triple backend st t) (t_judge t) e ->
              exists added,
                evaluations (st_db (fold_left (run_triple backend) rest
                                              (run_triple backend st t)))
                = (evaluations (st_db st) ++ added)%list /\
                st_completed (fold_left (run_triple backend) rest
                                        (run_triple backend st t))
                = st_completed st + List.length added /\
                Forall (fun row => row_in_domain row /\ row_of_attempt d queue_id row)
                       added).
    { intros e (Hd & Hco & _ & _). exists added'.
      rewrite He', Hn', Hd, Hco. auto. }
    destruct (generate backend _ _ _ _) as [text|e]; [|eauto].
    destruct (parse_verdict text) as [[[v r] c]|e] eqn:Hpv; [|eauto].
    destruct (insert_evaluation _ _ _ _ _ _ _ _) as [d'|e] eqn:Hi; [|eauto].
    destruct Hcases as (Hd & Hco & _ & _).
    apply insert_evaluation_returns in Hi as (_ & _ & Hev).
    eexists (_ :: added'). split; [|split].
    + rewrite He', Hd, Hev, <- app_assoc. reflexivity.
    + rewrite Hn', Hco. simpl. lia.
    + constructor; [|exact Hall']. split.
      * unfold row_in_domain. cbn [e_verdict e_confidence_score].
        eapply parse_verdict_in_domain. exact Hpv.
      * exists t. repeat split; try assumption; apply Ht.
Qed.

Lemma run_effects (d : Db) :
  let result := run_evaluations backend d queue_id in
  same_store d (final_db result) /\
  exists added,
    evaluations (final_db result) = (evaluations d ++ added)%list /\
    Forall (fun row => row_in_domain row /\ row_of_attempt d queue_id row) added /\
    match response result with
    | Returned r => List.length added = completed r
    | Raised _ => added = []
    end.
Proof.
  cbn zeta.
  destruct (missing_column (questions_columns d)
              ["question_template_id"; "question_text"; "content"; "submission_id"])
    as [c|] eqn:Hm.
  - assert (~ questions_readable d) as Hn
        by (unfold questions_readable; rewrite Hm; discriminate).
    pose proof (run_evaluations_unreadable backend queue_id d Hn) as H.
    unfold run_evaluations in *.
    destruct (select_submission_ids d queue_id); simpl in *.
    + split; [apply same_store_refl|]. exists []. rewrite app_nil_r. auto.
    + destruct H as [e H]. rewrite H. simpl.
      split; [apply same_store_refl|]. exists []. rewrite app_nil_r. auto.
  - rewrite (run_evaluations_readable backend queue_id d Hm). cbn zeta.
    cbn [response final_db completed].
    split; [apply (triple_loop_invariant backend (triples d queue_id) (initial_state d))|].
    destruct (triple_loop_effects d (triples d queue_id)
                ltac:(apply Forall_forall; intros t Ht; apply triples_of_store; exact Ht)
                (initial_state d)) as (_ & added & He & Hn & Hall).
    cbn zeta in *. exists added. simpl in He, Hn. auto.
Qed.

(** A run only appends to [evaluations]: the rows that were there stay
    first and unchanged, one row is added per completed attempt (none
    when the run ends in an exception), and no other table changes. *)
Theorem run_only_appends_evaluations (d : Db) :
  let result := run_evaluations backend d queue_id in
  same_store d (final_db result) /\
  exists added,
    evaluations (final_db result) = (evaluations d ++ added)%list /\
    match response result with
    | Returned r => List.length added = completed r
    | Raised _ => added = []
    end.
Proof.
  destruct (run_effects d) as (Hs & added & He & _ & Hr). cbn zeta in *.
  split; [exact Hs|]. exists added. auto.
Qed.

(** Every row a run stores carries one of the three verdict words and a
    confidence within 0..100. *)
Theorem run_stores_rows_in_domain (d : Db) (row : EvaluationRow) :
  In row (evaluations (final_db (run_evaluations backend d queue_id))) ->
  In row (evaluations d) \/ row_in_domain row.
Proof.
  destruct (run_effects d) as (_ & added & He & Hall & _). cbn zeta in *.
  rewrite He. intros H. apply in_app_or in H as [H|H]; [left; exact H|right].
  rewrite Forall_forall in Hall. apply (Hall row H).
Qed.

(** Every row a run stores belongs to an attempt of the queue: its
    submission is one of the queue, the question has an answer, and its
    judge was active and assigned to the question in the queue when the
    run started. *)
Theorem run_stores_rows_of_active_judges (d : Db) (row : EvaluationRow) :
  In row (evaluations (final_db (run_evaluations backend d queue_id))) ->
  In row (evaluations d) \/ row_of_attempt d queue_id row.
Proof.
  destruct (run_effects d) as (_ & added & He & Hall & _). cbn zeta in *.
  rewrite He. intros H. apply in_app_or in H as [H|H]; [left; exact H|right].
  rewrite Forall_forall in Hall. apply (Hall row H).
Qed.

Lemma sorted_constant {A : Type} (key : A -> Z) (k : Z) (l : list A) :
  (forall x, In x l -> key x = k) ->
  StronglySorted (fun a b => (key a <= key b)%Z) l.
Proof.
  induction l as [|a l IH]; intros H; constructor.
  - apply IH. intros x Hx. apply H. right. exact Hx.
  - apply Forall_forall. intros x Hx.
    rewrite (H a (or_introl eq_refl)), (H x (or_intror Hx)). lia.
Qed.

Lemma sorted_app {A : Type} (R : A -> A -> Prop) (l1 l2 : list A) :
  StronglySorted R l1 -> StronglySorted R l2 ->
  (forall a b, In a l1 -> In b l2 -> R a b) ->
  StronglySorted R (l1 ++ l2).
Proof.
  induction 1 as [|a l1 Hs IH Hall]; intros H2 Hc; simpl; [exact H2|].
  constructor.
  - apply IH; [exact H2|]. intros x y Hx Hy. apply Hc; [right; exact Hx|exact Hy].
  - apply Forall_app. split; [exact Hall|].
    apply Forall_forall. intros y Hy. apply Hc; [left; reflexivity|exact Hy].
Qed.

(** The judges of a question come in the order of their ids. *)
Lemma select_assigned_judges_sorted (d : Db) (tid : string) :
  StronglySorted (fun a b => (j_id a <= j_id b)%Z) (select_assigned_judges d queue_id tid).
Proof.
  unfold select_assigned_judges.
  pose proof (index_order_sorted ja_judge_id
                (filter (fun ja => String.eqb (ja_queue_id ja) queue_id
                                   && String.eqb (ja_question_template_id ja) tid)
                        (judge_assignments d))) as Hs.
  induction Hs as [|ja rest Hs IH Hall]; simpl; [constructor|].
  assert (Hchunk : forall j,
             In j (filter (fun j => Z.eqb (j_id j) (ja_judge_id ja) && j_active j) (judges d)) ->
             j_id j = ja_judge_id ja).
  { intros j Hj. apply filter_In in Hj as [_ Hj]. apply andb_prop in Hj as [Hj _].
    apply Z.eqb_eq. exact Hj. }
  apply sorted_app; [apply (sorted_constant j_id (ja_judge_id ja)); exact Hchunk|exact IH|].
  intros j j' Hj Hj'. rewrite (Hchunk j Hj).
  apply in_flat_map in Hj' as (ja' & Hja' & Hj').
  apply filter_In in Hj' as [_ Hj']. apply andb_prop in Hj' as [Hj' _].
  apply Z.eqb_eq in Hj'. rewrite Hj'.
  rewrite Forall_forall in Hall. exact (Hall ja' Hja').
Qed.

(** When the questions can be read, a run calls the model once per
    attempt and [planned] is the number of calls, whatever the calls and
    the inserts do.  The attempts are those the tables give rise to (a
    submission of the queue, one of its questions, the first answer of
    the pair, an active judge assigned to the question in the queue), in
    the order of the three loops: submissions and questions as the tables
    hold them, the judges of a question in ascending order of their ids,
    not in the order in which they were assigned.  Each call carries the
    judge's model name, the prompt built from the question text, its
    content and the answer text, and the judge's system prompt. *)
Theorem run_calls_once_per_attempt (d : Db) :
  questions_readable d ->
  let result := run_evaluations backend d queue_id in
  generate_calls result = map call_of_triple (triples d queue_id) /\
  (exists r, response result = Returned r /\
             planned r = List.length (generate_calls result)) /\
  Forall (triple_of_store d queue_id) (triples d queue_id) /\
  (forall tid, StronglySorted (fun a b => (j_id a <= j_id b)%Z)
                              (select_assigned_judges d queue_id tid)).
Proof.
  intros Hr. cbn zeta.
  assert (Forall (triple_of_store d queue_id) (triples d queue_id)) as Hall
      by (apply Forall_forall; intros t Ht; apply triples_of_store; exact Ht).
  rewrite (run_evaluations_readable backend queue_id d Hr). cbn zeta.
  cbn [generate_calls response].
  destruct (triple_loop_effects d (triples d queue_id) Hall (initial_state d))
    as (Hcalls & _).
  destruct (triple_loop_invariant backend (triples d queue_id) (initial_state d))
    as (Hp & _).
  cbn zeta in *. simpl in Hcalls, Hp.
  split; [exact Hcalls|]. split; [|split; [exact Hall|apply select_assigned_judges_sorted]].
  eexists. split; [reflexivity|]. cbn [planned].
  rewrite Hp, Hcalls, length_map. reflexivity.
Qed.

(** A queue without submissions: the run returns 0/0/0 without an error,
    calls no judge and leaves the database as it is, whatever the columns
    of the tables. *)
Theorem run_on_empty_queue (d : Db) :
  (forall s, In s (submissions d) -> s_queue_id s <> queue_id) ->
  run_evaluations backend d queue_id
  = mkRunResult (Returned (mkResponse 0 0 0 [])) d [].
Proof.
  intros Hnone. unfold run_evaluations.
  assert (select_submission_ids d queue_id = []) as ->; [|reflexivity].
  unfold select_submission_ids.
  induction (submissions d) as [|s rest IH]; [reflexivity|].
  simpl. destruct (String.eqb (s_queue_id s) queue_id) eqn:E.
  - apply String.eqb_eq in E. exfalso. exact (Hnone s (or_introl eq_refl) E).
  - apply IH. intros s' Hs'. apply Hnone. right. exact Hs'.
Qed.

End RunExtras.

Section RunExtrasWitnesses.

Lemma run_calls_once_per_attempt_witness :
  let result := run_evaluations backend_second_call_fails assigned_out_of_order "Q1" in
  generate_calls result = map call_of_triple (triples assigned_out_of_order "Q1") /\
  (exists r, response result = Returned r /\
             planned r = List.length (generate_calls result)) /\
  Forall (triple_of_store assigned_out_of_order "Q1") (triples assigned_out_of_order "Q1") /\
  (forall tid, StronglySorted (fun a b => (j_id a <= j_id b)%Z)
                              (select_assigned_judges assigned_out_of_order "Q1" tid)).
Proof.
  apply (run_calls_once_per_attempt backend_second_call_fails "Q1" assigned_out_of_order).
  reflexivity.
Defined.

(** With J3 assigned before J1, the run calls J1 first. *)
Lemma run_calls_judges_by_id :
  map call_system
      (generate_calls (run_evaluations backend_pass assigned_out_of_order "Q1"))
  = ["Be strict."; "Be brief."].
Proof. vm_compute. reflexivity. Qed.

Lemma run_on_empty_queue_witness :
  run_evaluations backend_pass store_three_judges "Q2"
  = mkRunResult (Returned (mkResponse 0 0 0 [])) store_three_judges [].
Proof.
  apply (run_on_empty_queue backend_pass "Q2" store_three_judges).
  intros s [<-|[]]. discriminate.
Defined.

End RunExtrasWitnesses.

(* ================================================================== *)
(** ** Further properties of [upload_submissions] *)
(* ================================================================== *)

Section UploadExtras.

Lemma find_append {A : Type} (f : A -> bool) (l l' : list A) :
  find f (l ++ l') = match find f l with Some x => Some x | None => find f l' end.
Proof.
  induction l as [|x l IH]; simpl; [reflexivity|].
  destruct (f x); [reflexivity|exact IH].
Qed.

Lemma insert_questions_effects (qs : list Models.Question) :
  forall d sub_id d',
    insert_questions d sub_id qs = Returned d' ->
    same_judging d d' /\ submissions d' = submissions d /\ answers d' = answers d /\
    exists added,
      questions d' = (questions d ++ added)%list /\
      map question_content added
      = map (fun q => (sub_id, Models.id (Models.data q),
                       Models.questionType (Models.data q),
                       Models.questionText (Models.data q),
                       Models.content (Models.data q), Models.rev q)) qs.
Proof.
  induction qs as [|q rest IH]; intros d sub_id d'; simpl.
  - intros [= <-]. repeat split. exists []. rewrite app_nil_r. auto.
  - unfold insert_question.
    destruct (missing_column (questions_columns d) _); [discriminate|]. cbn [bind].
    intros H. apply IH in H as ((H1 & H2 & H3 & H4 & H5) & Hs & Ha & added & Hq & Hl).
    cbn in H1, H2, H3, H4, H5, Hs, Ha, Hq.
    repeat split; try assumption.
    eexists (_ :: added). rewrite Hq, <- app_assoc. split; [reflexivity|].
    simpl. rewrite Hl. reflexivity.
Qed.

Lemma insert_answers_effects (sub_id : string) (items : list (string * Models.Answer)) :
  forall d,
    let d' := fold_left (insert_answer sub_id) items d in
    same_judging d d' /\ submissions d' = submissions d /\ questions d' = questions d /\
    exists added,
      answers d' = (answers d ++ added)%list /\
      map answer_content added
      = map (fun item => (sub_id, fst item, Models.choice (snd item),
                          Models.reasoning (snd item))) items.
Proof.
  induction items as [|item rest IH]; intros d; cbn zeta; simpl.
  - repeat split. exists []. rewrite app_nil_r. auto.
  - destruct (IH (insert_answer sub_id d item))
      as ((H1 & H2 & H3 & H4 & H5) & Hs & Hq & added & Ha & Hm).
    cbn zeta in *. cbn in H1, H2, H3, H4, H5, Hs, Hq, Ha.
    repeat split; try assumption.
    eexists (_ :: added). rewrite Ha, <- app_assoc. split; [reflexivity|].
    simpl. rewrite Hm. reflexivity.
Qed.

(** One submission of the payload. *)
Lemma upload_one_effects (d d' : Db) (s : Models.Submission) :
  upload_one d s = Returned d' ->
  same_judging d d' /\
  submissions d'
  = (filter (fun r => negb (String.eqb (s_id r) (Models.sub_id s))) (submissions d) ++
     [mkSubmissionRow (Models.sub_id s) (Models.queueId s) (Models.labelingTaskId s)
                      (Models.createdAt s) (Models.raw s)])%list /\
  (exists added, questions d' = (questions d ++ added)%list /\
                 map question_content added = submission_questions s) /\
  (exists added, answers d' = (answers d ++ added)%list /\
                 map answer_content added
                 = map (fun item => (Models.sub_id s, fst item, Models.choice (snd item),
                                     Models.reasoning (snd item))) (Models.answers s)).
Proof.
  unfold upload_one.
  destruct (insert_questions _ _ _) as [d2|e] eqn:Hq; [|discriminate].
  cbn [bind]. intros [= <-].
  apply insert_questions_effects in Hq
    as ((H1 & H2 & H3 & H4 & H5) & Hs & Ha & addedq & Hq & Hl).
  destruct (insert_answers_effects (Models.sub_id s) (Models.answers s) d2)
    as ((G1 & G2 & G3 & G4 & G5) & Gs & Gq & addeda & Ga & Gm).
  cbn zeta in *. cbn in H1, H2, H3, H4, H5, Hs, Ha, Hq.
  split; [unfold same_judging; repeat split; congruence|].
  split; [congruence|]. split.
  - exists addedq. split; [congruence|exact Hl].
  - exists addeda. split; [congruence|exact Gm].
Qed.

Lemma nodup_snoc {A : Type} (l : list A) (x : A) :
  NoDup l -> ~ In x l -> NoDup (l ++ [x]).
Proof.
  induction 1 as [|y l Hy Hl IH]; intros Hx; simpl.
  - constructor; [intros []|constructor].
  - constructor.
    + intros H. apply in_app_or in H as [H|[H|[]]]; [contradiction|].
      subst. apply Hx. left. reflexivity.
    + apply IH. intros H. apply Hx. right. exact H.
Qed.

Lemma replaced_ids_unique (rows : list SubmissionRow) (new : SubmissionRow) :
  NoDup (map s_id rows) ->
  NoDup (map s_id (filter (fun r => negb (String.eqb (s_id r) (s_id new))) rows ++ [new])).
Proof.
  intros H. rewrite map_app. simpl. apply nodup_snoc.
  - induction rows as [|r rows IH]; simpl; [constructor|].
    inversion H as [|x l Hx Hl]; subst.
    destruct (negb (String.eqb (s_id r) (s_id new))); [|apply IH; exact Hl].
    simpl. constructor; [|apply IH; exact Hl].
    intros Hin. apply Hx. apply in_map_iff in Hin as (r' & E & Hr').
    apply filter_In in Hr' as [Hr' _]. apply in_map_iff. eauto.
  - intros Hin. apply in_map_iff in Hin as (r & E & Hr).
    apply filter_In in Hr as [_ Hne]. rewrite E, String.eqb_refl in Hne. discriminate.
Qed.

(** The whole loop over the payload. *)
Lemma upload_loop_effects (payload : list Models.Submission) :
  forall d n d' n',
    upload_loop d n payload = Returned (d', n') ->
    n' = n + List.length payload /\
    same_judging d d' /\
    (exists added, questions d' = (questions d ++ added)%list /\
                   map question_content added = payload_questions payload) /\
    (exists added, answers d' = (answers d ++ added)%list /\
                   map answer_content added = payload_answers payload) /\
    (submission_ids_unique d -> submission_ids_unique d') /\
    (forall id, In id (map s_id (submissions d)) \/ In id (map Models.sub_id payload) ->
                In id (map s_id (submissions d'))) /\
    (forall row, In row (submissions d) ->
                 ~ In (s_id row) (map Models.sub_id payload) ->
                 In row (submissions d')).
Proof.
  induction payload as [|s rest IH]; intros d n d' n'; simpl.
  - intros [= <- <-]. split; [lia|]. split; [repeat split|].
    split; [exists []; rewrite app_nil_r; auto|].
    split; [exists []; rewrite app_nil_r; auto|].
    split; [auto|]. split; [intros id [H|[]]; exact H|auto].
  - destruct (upload_one d s) as [d1|e] eqn:H1; [|discriminate]. cbn [bind].
    intros H. apply IH in H as (Hn & Hj & (aq & Hq & Hlq) & (aa & Ha & Hma) & Hu & Hin & Hkeep).
    apply upload_one_effects in H1 as (Hj1 & Hs1 & (aq1 & Hq1 & Hlq1) & (aa1 & Ha1 & Hma1)).
    split; [lia|]. split.
    { destruct Hj as (?&?&?&?&?), Hj1 as (?&?&?&?&?).
      unfold same_judging. repeat split; congruence. }
    split.
    { exists (aq1 ++ aq)%list. rewrite Hq, Hq1, <- app_assoc. split; [reflexivity|].
      unfold payload_questions in *. simpl. rewrite map_app, Hlq, Hlq1. reflexivity. }
    split.
    { exists (aa1 ++ aa)%list. rewrite Ha, Ha1, <- app_assoc. split; [reflexivity|].
      unfold payload_answers in *. simpl. rewrite map_app, Hma, Hma1. reflexivity. }
    split.
    { intros Hd. apply Hu. unfold submission_ids_unique. rewrite Hs1.
      apply (replaced_ids_unique (submissions d)
               (mkSubmissionRow (Models.sub_id s) (Models.queueId s)
                  (Models.labelingTaskId s) (Models.createdAt s) (Models.raw s))).
      exact Hd. }
    split.
    { intros id Hid. apply Hin.
      destruct (String.eqb id (Models.sub_id s)) eqn:E.
      - apply String.eqb_eq in E. subst id. left. rewrite Hs1, map_app.
        apply in_or_app. right. left. reflexivity.
      - destruct Hid as [Hid|[Hid|Hid]].
        + left. rewrite Hs1, map_app. apply in_or_app. left.
          apply in_map_iff in Hid as (r & Er & Hr). apply in_map_iff.
          exists r. split; [exact Er|]. apply filter_In. split; [exact Hr|].
          rewrite Er, E. reflexivity.
        + subst id. rewrite String.eqb_refl in E. discriminate.
        + right. exact Hid. }
    { intros row Hrow Hnot. apply Hkeep.
      - rewrite Hs1. apply in_or_app. left. apply filter_In. split; [exact Hrow|].
        destruct (String.eqb (s_id row) (Models.sub_id s)) eqn:E; [|reflexivity].
        apply String.eqb_eq in E. exfalso. apply Hnot. left. symmetry. exact E.
      - intros H. apply Hnot. right. exact H. }
Qed.

Lemma insert_questions_writable (qs : list Models.Question) :
  forall d sub_id, questions_writable d -> exists d', insert_questions d sub_id qs = Returned d'.
Proof.
  induction qs as [|q rest IH]; intros d sub_id Hw; simpl; [eauto|].
  unfold insert_question. unfold questions_writable in Hw. rewrite Hw. cbn [bind].
  apply IH. exact Hw.
Qed.

Lemma upload_loop_succeeds (payload : list Models.Submission) :
  forall d n,
    questions_writable d \/ Forall (fun s => Models.questions s = []) payload ->
    exists d' n', upload_loop d n payload = Returned (d', n').
Proof.
  induction payload as [|s rest IH]; intros d n Hok; simpl; [eauto|].
  assert (exists d1, upload_one d s = Returned d1) as [d1 H1].
  { unfold upload_one. destruct Hok as [Hw|Hall].
    - destruct (insert_questions_writable (Models.questions s)
                  (insert_or_replace_submission d s) (Models.sub_id s) Hw) as [d2 ->].
      cbn [bind]. eauto.
    - inversion Hall as [|x l Hs Hrest]; subst. rewrite Hs. simpl. eauto. }
  rewrite H1. cbn [bind]. apply IH.
  apply upload_one_effects in H1 as ((Hc & _) & _).
  destruct Hok as [Hw|Hall].
  - left. unfold questions_writable in *. rewrite Hc. exact Hw.
  - right. inversion Hall; assumption.
Qed.

(** An upload of a payload whose integers SQLite can bind succeeds when
    the [questions] table has the columns of the INSERT, or when no
    submission of the payload has a question.  It then reports the number
    of submissions, appends after the rows that were there one question
    row per question of the payload and one answer row per answer, in the
    order of the payload and with the fields of the payload (submission
    id, template id, type, text, content and rev of a question;
    submission id, template id, choice and reasoning of an answer), and
    leaves judges, assignments and evaluations as they were. *)
Theorem upload_appends_payload (d : Db) (payload : list Models.Submission) :
  payload_binds payload ->
  questions_writable d \/ Forall (fun s => Models.questions s = []) payload ->
  let result := upload_submissions d payload in
  fst result
    = Returned ("Successfully uploaded " ++ str_of_nat (List.length payload) ++ " submissions") /\
  same_judging d (snd result) /\
  (exists added, questions (snd result) = (questions d ++ added)%list /\
                 map question_content added = payload_questions payload) /\
  (exists added, answers (snd result) = (answers d ++ added)%list /\
                 map answer_content added = payload_answers payload).
Proof.
  intros _ Hok. cbn zeta. unfold upload_submissions.
  destruct (upload_loop_succeeds payload d 0 Hok) as (d' & n' & H). rewrite H.
  apply upload_loop_effects in H as (-> & Hj & Hq & Ha & _). simpl.
  split; [reflexivity|]. split; [exact Hj|]. split; [exact Hq|exact Ha].
Qed.


(** An upload keeps the ids of [submissions] unique, stores a row for
    every submission of the payload, and keeps the rows of the
    submissions the payload does not mention. *)
Theorem upload_keeps_submission_ids_unique (d d' : Db) (payload : list Models.Submission)
        (msg : string) :
  upload_submissions d payload = (Returned msg, d') ->
  (submission_ids_unique d -> submission_ids_unique d') /\
  (forall s, In s payload -> In (Models.sub_id s) (map s_id (submissions d'))) /\
  (forall row, In row (submissions d) ->
               ~ In (s_id row) (map Models.sub_id payload) ->
               In row (submissions d')).
Proof.
  unfold upload_submissions.
  destruct (upload_loop d 0 payload) as [[d1 n]|e] eqn:H; [|discriminate].
  intros [= _ <-]. apply upload_loop_effects in H as (_ & _ & _ & _ & Hu & Hin & Hkeep).
  split; [exact Hu|]. split; [|exact Hkeep].
  intros s Hs. apply Hin. right. apply in_map. exact Hs.
Qed.

(** A pair of submission and question template that has an answer row
    keeps the answer a run reads, whatever is uploaded: an upload that
    carries another answer for the pair adds a row that [fetchone()]
    never reaches. *)
Theorem upload_never_changes_the_answer_read (d d' : Db)
        (payload : list Models.Submission) (msg sub_id tid : string) (a : AnswerRow) :
  upload_submissions d payload = (Returned msg, d') ->
  select_answer d sub_id tid = Some a ->
  select_answer d' sub_id tid = Some a.
Proof.
  unfold upload_submissions.
  destruct (upload_loop d 0 payload) as [[d1 n]|e] eqn:H; [|discriminate].
  intros [= _ <-]. apply upload_loop_effects in H as (_ & _ & _ & (added & Ha & _) & _).
  unfold select_answer. rewrite Ha, find_append. intros ->. reflexivity.
Qed.

End UploadExtras.

(* ================================================================== *)
(** ** Further properties of [get_evaluation_stats] *)
(* ================================================================== *)

Section Dicts.












End Dicts.

Section StatsExtras.





Lemma map_outcome_raises {A B : Type} (f : A -> Outcome B) (l : list A) (x : A) (e : PyExc) :
  In x l -> f x = Raised e -> exists e', map_outcome f l = Raised e'
                                         /\ exists y, In y l /\ f y = Raised e'.
Proof.
  induction l as [|a l IH]; intros Hin Hx; [destruct Hin|].
  simpl. destruct (f a) as [b|ea] eqn:Ha; cbn [bind].
  - destruct Hin as [->|Hin]; [congruence|].
    destruct (IH Hin Hx) as (e' & -> & y & Hy & Hfy). cbn [bind].
    exists e'. split; [reflexivity|]. exists y. split; [right; exact Hy|exact Hfy].
  - exists ea. split; [reflexivity|]. exists a. split; [left; reflexivity|exact Ha].
Qed.

Lemma int_of_str_raises (s : string) (e : PyExc) :
  int_of_str s = Raised e -> exc_class e = ValueError.
Proof.
  unfold int_of_str. destruct (strip_underscores None (strip s)) as [t|];
    [|intros [= <-]; reflexivity].
  destruct (read_sign t) as [neg t1].
  destruct (read_digits 0 0 t1) as [[v n] rest].
  destruct n; [intros [= <-]; reflexivity|].
  destruct rest; [discriminate|intros [= <-]; reflexivity].
Qed.

(** An item of an ASCII [judge_ids] filter that is no integer makes the
    statistics raise [ValueError] before the database is read, whatever
    it holds. *)
Theorem stats_reject_malformed_judge_ids (d : Db) (judge_ids : string)
        (question_ids verdict : option string) (item : string) (e : PyExc) :
  isascii judge_ids = true ->
  judge_ids <> EmptyString ->
  In item (split "," judge_ids) ->
  int_of_str (strip item) = Raised e ->
  exists e', get_evaluation_stats d (Some judge_ids) question_ids verdict = Raised e' /\
             exc_class e' = ValueError.
Proof.
  intros _ Hne Hin He. unfold get_evaluation_stats, parse_judge_ids, truthy.
  destruct (String.eqb judge_ids "") eqn:E; [apply String.eqb_eq in E; contradiction|].
  destruct (map_outcome_raises (fun id => int_of_str (strip id)) _ item e Hin He)
    as (e' & -> & y & _ & Hy).
  cbn [bind]. exists e'. split; [reflexivity|].
  eapply int_of_str_raises. exact Hy.
Qed.

End StatsExtras.

(* ================================================================== *)
(** ** Properties of the judge endpoints *)
(* ================================================================== *)

Section JudgeExtras.

Lemma fold_left_max_le (l : list Z) :
  forall a x, x = a \/ In x l -> (x <= fold_left Z.max l a)%Z.
Proof.
  induction l as [|y l IH]; intros a x H; simpl.
  - destruct H as [->|[]]. lia.
  - destruct H as [->|[->|H]].
    + transitivity (Z.max a y); [lia|]. apply IH. left. reflexivity.
    + transitivity (Z.max a x); [lia|]. apply IH. left. reflexivity.
    + apply IH. right. exact H.
Qed.

(** The id an AUTOINCREMENT column gives is larger than every id of the
    table. *)
Lemma next_id_fresh {R : Type} (key : R -> Z) (rows : list R) (r : R) :
  In r rows -> (key r < next_id key rows)%Z.
Proof.
  intros H. unfold next_id.
  pose proof (fold_left_max_le (map key rows) 0 (key r)
                (or_intror (in_map key rows r H))). lia.
Qed.

Lemma find_none_iff {A : Type} (f : A -> bool) (l : list A) :
  (forall x, In x l -> f x = false) -> find f l = None.
Proof.
  induction l as [|x l IH]; intros H; simpl; [reflexivity|].
  rewrite (H x (or_introl eq_refl)). apply IH. intros y Hy. apply H. right. exact Hy.
Qed.

(** [create_judge] with a name no judge bears: the judge is stored with
    the given fields under an id no judge has, and is what [get_judge]
    returns for that id; the judges that were there are found as before
    and nothing else changes. *)
Theorem create_judge_then_get (created_at : string) (d : Db) (judge : JudgeCreate.t) :
  (forall r, In r (judges d) -> j_name r <> JudgeCreate.name judge) ->
  exists row d',
    create_judge created_at d judge = (Returned row, d') /\
    (forall r, In r (judges d) -> j_id r <> j_id row) /\
    (j_name row, j_system_prompt row, j_model_name row, j_active row, j_created_at row)
    = (JudgeCreate.name judge, JudgeCreate.system_prompt judge,
       JudgeCreate.model_name judge, JudgeCreate.active judge, created_at) /\
    get_judge d' (j_id row) = Returned row /\
    (forall r, In r (judges d) -> get_judge d' (j_id r) = get_judge d (j_id r)) /\
    same_submissions d d' /\ judge_assignments d' = judge_assignments d.
Proof.
  intros Hnew. unfold create_judge, insert_judge.
  assert (existsb (fun r => String.eqb (j_name r) (JudgeCreate.name judge)) (judges d)
          = false) as ->.
  { destruct (existsb _ _) eqn:E; [|reflexivity].
    apply existsb_exists in E as (r & Hr & Er). apply String.eqb_eq in Er.
    exfalso. exact (Hnew r Hr Er). }
  eexists. eexists. split; [reflexivity|].
  split.
  { intros r Hr. cbn [j_id]. pose proof (next_id_fresh j_id _ r Hr). lia. }
  split; [reflexivity|].
  unfold get_judge, select_judge. cbn [judges with_judges j_id].
  split; [|split; [|split; [repeat split|reflexivity]]].
  - rewrite find_append, find_none_iff.
    + simpl. rewrite Z.eqb_refl. reflexivity.
    + intros r Hr. apply Z.eqb_neq. pose proof (next_id_fresh j_id _ r Hr). lia.
  - intros r Hr. rewrite find_append.
    destruct (find (fun r0 => Z.eqb (j_id r0) (j_id r)) (judges d)) eqn:E; [reflexivity|].
    exfalso. apply (find_none _ _ E) in Hr. rewrite Z.eqb_refl in Hr. discriminate.
Qed.

(** [create_judge] with a name that a judge already bears is refused
    with an [HTTPException] and stores nothing. *)
Theorem create_judge_rejects_taken_name (created_at : string) (d : Db)
        (judge : JudgeCreate.t) (r : JudgeRow) :
  In r (judges d) -> j_name r = JudgeCreate.name judge ->
  create_judge created_at d judge
  = (Raised (http_exception "Error creating judge: UNIQUE constraint failed: judges.name"),
     d).
Proof.
  intros Hr Hname. unfold create_judge, insert_judge.
  assert (existsb (fun r => String.eqb (j_name r) (JudgeCreate.name judge)) (judges d)
          = true) as ->; [|reflexivity].
  apply existsb_exists. exists r. split; [exact Hr|]. rewrite Hname. apply String.eqb_refl.
Qed.

Lemma find_map_update (judge_id : Z) (f : JudgeRow -> JudgeRow) (rows : list JudgeRow) :
  (forall r, j_id (f r) = j_id r) ->
  find (fun r => Z.eqb (j_id r) judge_id)
       (map (fun r => if Z.eqb (j_id r) judge_id then f r else r) rows)
  = option_map f (find (fun r => Z.eqb (j_id r) judge_id) rows).
Proof.
  intros Hid. induction rows as [|r rows IH]; simpl; [reflexivity|].
  destruct (Z.eqb (j_id r) judge_id) eqn:E.
  - rewrite Hid, E. reflexivity.
  - rewrite E. exact IH.
Qed.

Lemma find_map_other (judge_id id : Z) (f : JudgeRow -> JudgeRow) (rows : list JudgeRow) :
  (forall r, j_id (f r) = j_id r) -> id <> judge_id ->
  find (fun r => Z.eqb (j_id r) id)
       (map (fun r => if Z.eqb (j_id r) judge_id then f r else r) rows)
  = find (fun r => Z.eqb (j_id r) id) rows.
Proof.
  intros Hid Hne. induction rows as [|r rows IH]; simpl; [reflexivity|].
  destruct (Z.eqb (j_id r) judge_id) eqn:E.
  - rewrite Hid. apply Z.eqb_eq in E.
    assert (Z.eqb (j_id r) id = false) as -> by (apply Z.eqb_neq; lia). exact IH.
  - destruct (Z.eqb (j_id r) id); [reflexivity|exact IH].
Qed.

(** The UPDATE of [update_judge] and the row it returns. *)
Lemma update_judge_updated (d : Db) (judge_id : Z) (u : JudgeUpdate.t) :
  (forall n r, JudgeUpdate.name u = Some n -> In r (judges d) ->
               j_id r <> judge_id -> j_name r <> n) ->
  match select_judge d judge_id with
  | None => update_judge d judge_id u = (Raised (http_exception "Judge not found"), d)
  | Some r =>
      exists d',
        update_judge d judge_id u = (Returned (updated_row u r), d') /\
        get_judge d' judge_id = Returned (updated_row u r) /\
        (forall id, id <> judge_id -> get_judge d' id = get_judge d id) /\
        same_submissions d d' /\
        (JudgeUpdate.active u <> Some false -> judge_assignments d' = judge_assignments d)
  end.
Proof.
  intros Hname. unfold update_judge.
  destruct (select_judge d judge_id) as [r|] eqn:Hsel; [|reflexivity].
  set (rows' := map (fun r => if Z.eqb (j_id r) judge_id then updated_row u r else r)
                    (judges d)).
  assert (find (fun r => Z.eqb (j_id r) judge_id) rows' = Some (updated_row u r)) as Hfind.
  { unfold rows'. rewrite find_map_update by reflexivity.
    unfold select_judge in Hsel. rewrite Hsel. reflexivity. }
  assert (update_judge_row d judge_id u = Returned (with_judges d rows')) as Hupd.
  { unfold update_judge_row. destruct (JudgeUpdate.name u) as [n|] eqn:En; [|reflexivity].
    destruct (existsb _ (judges d)) eqn:E; [|reflexivity].
    apply existsb_exists in E as (r' & Hr' & E). apply andb_prop in E as [E1 E2].
    apply negb_true_iff, Z.eqb_neq in E1. apply String.eqb_eq in E2.
    exfalso. exact (Hname n r' eq_refl Hr' E1 E2). }
  assert (Hsel' : forall d2, judges d2 = rows' ->
                             select_judge d2 judge_id = Some (updated_row u r)).
  { intros d2 E. unfold select_judge. rewrite E. exact Hfind. }
  assert (Hother : forall d2, judges d2 = rows' ->
                              forall id, id <> judge_id -> get_judge d2 id = get_judge d id).
  { intros d2 E id Hne. unfold get_judge, select_judge. rewrite E. unfold rows'.
    rewrite find_map_other by (try reflexivity; exact Hne). reflexivity. }
  destruct (has_updates u) eqn:Hhas.
  - rewrite Hupd.
    destruct (JudgeUpdate.active u) as [[|]|] eqn:Eact.
    + exists (with_judges d rows'). cbn zeta.
      rewrite (Hsel' (with_judges d rows') eq_refl).
      unfold get_judge at 1. rewrite (Hsel' (with_judges d rows') eq_refl).
      split; [reflexivity|]. split; [reflexivity|].
      split; [exact (Hother (with_judges d rows') eq_refl)|]. repeat split.
    + exists (delete_assignments_of_judge (with_judges d rows') judge_id). cbn zeta.
      rewrite (Hsel' (delete_assignments_of_judge (with_judges d rows') judge_id) eq_refl).
      unfold get_judge at 1.
      rewrite (Hsel' (delete_assignments_of_judge (with_judges d rows') judge_id) eq_refl).
      split; [reflexivity|]. split; [reflexivity|].
      split; [exact (Hother (delete_assignments_of_judge (with_judges d rows') judge_id)
                            eq_refl)|].
      split; [repeat split|]. intros H. contradiction.
    + exists (with_judges d rows'). cbn zeta.
      rewrite (Hsel' (with_judges d rows') eq_refl).
      unfold get_judge at 1. rewrite (Hsel' (with_judges d rows') eq_refl).
      split; [reflexivity|]. split; [reflexivity|].
      split; [exact (Hother (with_judges d rows') eq_refl)|]. repeat split.
  - assert (updated_row u r = r) as ->.
    { unfold has_updates in Hhas. unfold updated_row.
      destruct (JudgeUpdate.name u), (JudgeUpdate.system_prompt u),
        (JudgeUpdate.model_name u), (JudgeUpdate.active u); try discriminate.
      destruct r; reflexivity. }
    assert (JudgeUpdate.active u = None) as ->.
    { unfold has_updates in Hhas.
      destruct (JudgeUpdate.name u), (JudgeUpdate.system_prompt u),
        (JudgeUpdate.model_name u), (JudgeUpdate.active u); try discriminate.
      reflexivity. }
    rewrite Hsel. exists d. unfold get_judge at 1. rewrite Hsel.
    repeat split.
Qed.

(** [update_judge] for an id that SQLite can bind, when no other judge
    bears the new name.  An unknown id is answered 404 and the database
    is left as it is.  Otherwise a row is returned that has the id asked
    for and the creation time of the stored row, and in each of [name],
    [system_prompt], [model_name] and [active] the value of the update
    when one is given and the stored value when none is; it is what
    [get_judge] returns afterwards; every other judge is found as
    before; the other tables are untouched, and so are the assignments
    unless the judge is being deactivated. *)
Theorem update_judge_result (d : Db) (judge_id : Z) (u : JudgeUpdate.t) :
  sqlite_integer judge_id = true ->
  (forall n r, JudgeUpdate.name u = Some n -> In r (judges d) ->
               j_id r <> judge_id -> j_name r <> n) ->
  match select_judge d judge_id with
  | None => update_judge d judge_id u = (Raised (http_exception "Judge not found"), d)
  | Some stored =>
      exists row d',
        update_judge d judge_id u = (Returned row, d') /\
        j_id row = judge_id /\
        j_created_at row = j_created_at stored /\
        j_name row = given (JudgeUpdate.name u) (j_name stored) /\
        j_system_prompt row = given (JudgeUpdate.system_prompt u) (j_system_prompt stored) /\
        j_model_name row = given (JudgeUpdate.model_name u) (j_model_name stored) /\
        j_active row = given (JudgeUpdate.active u) (j_active stored) /\
        get_judge d' judge_id = Returned row /\
        (forall id, id <> judge_id -> get_judge d' id = get_judge d id) /\
        same_submissions d d' /\
        (JudgeUpdate.active u <> Some false -> judge_assignments d' = judge_assignments d)
  end.
Proof.
  intros _ Hname. pose proof (update_judge_updated d judge_id u Hname) as H.
  destruct (select_judge d judge_id) as [stored|] eqn:Hsel; [|exact H].
  destruct H as (d' & Hu & Hg & Ho & Hs & Ha).
  exists (updated_row u stored), d'. split; [exact Hu|].
  split.
  { unfold select_judge in Hsel. apply find_some in Hsel as [_ E].
    apply Z.eqb_eq in E. exact E. }
  split; [reflexivity|]. split; [reflexivity|]. split; [reflexivity|].
  split; [reflexivity|]. split; [reflexivity|].
  split; [exact Hg|]. split; [exact Ho|]. split; [exact Hs|exact Ha].
Qed.

(** Deactivating a judge drops its assignments: after [update_judge] with
    [active = False] has returned, the judge is inactive, no assignment
    names it, the assignments of the other judges are all kept, and no
    question of any queue has it among the judges a run would call. *)
Theorem deactivation_drops_assignments (d d' : Db) (judge_id : Z) (u : JudgeUpdate.t)
        (row : JudgeRow) :
  JudgeUpdate.active u = Some false ->
  update_judge d judge_id u = (Returned row, d') ->
  j_id row = judge_id /\ j_active row = false /\
  (forall ja, In ja (judge_assignments d') <->
              In ja (judge_assignments d) /\ ja_judge_id ja <> judge_id) /\
  (forall queue_id tid j, In j (select_assigned_judges d' queue_id tid) ->
                          j_id j <> judge_id).
Proof.
  intros Hact. unfold update_judge.
  destruct (select_judge d judge_id) as [r|] eqn:Hsel; [|discriminate].
  assert (has_updates u = true) as ->.
  { unfold has_updates. rewrite Hact.
    destruct (JudgeUpdate.name u), (JudgeUpdate.system_prompt u),
      (JudgeUpdate.model_name u); reflexivity. }
  destruct (update_judge_row d judge_id u) as [d1|e] eqn:Hupd; [|discriminate].
  rewrite Hact.
  assert (judges d1 = map (fun r => if Z.eqb (j_id r) judge_id then updated_row u r else r)
                          (judges d)
          /\ judge_assignments d1 = judge_assignments d) as [Hj Hja].
  { unfold update_judge_row in Hupd.
    destruct (JudgeUpdate.name u); [destruct (existsb _ _); [discriminate|]|];
      injection Hupd as <-; split; reflexivity. }
  unfold select_judge at 1.
  cbn [judges delete_assignments_of_judge with_judge_assignments].
  rewrite Hj, find_map_update by reflexivity.
  unfold select_judge in Hsel. rewrite Hsel. cbn [option_map].
  intros [= <- <-].
  assert (forall ja, In ja (judge_assignments (delete_assignments_of_judge d1 judge_id)) <->
                     In ja (judge_assignments d) /\ ja_judge_id ja <> judge_id) as Hdrop.
  { intros ja. cbn [judge_assignments delete_assignments_of_judge with_judge_assignments].
    rewrite Hja, filter_In, negb_true_iff, Z.eqb_neq. reflexivity. }
  split; [cbn; apply find_some in Hsel as [_ E]; apply Z.eqb_eq; exact E|].
  split; [cbn; rewrite Hact; reflexivity|].
  split; [exact Hdrop|].
  intros queue_id tid j Hin.
  apply select_assigned_judges_in in Hin as (_ & _ & ja & Hja' & _ & _ & Hid).
  apply Hdrop in Hja' as [_ Hne]. congruence.
Qed.


End JudgeExtras.

(* ================================================================== *)
(** ** Properties of [assign_judges] and [delete_queue] *)
(* ================================================================== *)

Section AssignmentExtras.

Variable created_at : string.
Variables queue_id tid : string.

Let of_question (ja : AssignmentRow) : bool :=
  String.eqb (ja_queue_id ja) queue_id && String.eqb (ja_question_template_id ja) tid.

Lemma same_assignment_of_question (judge_id : Z) (ja : AssignmentRow) :
  same_assignment queue_id tid judge_id ja = of_question ja && Z.eqb (ja_judge_id ja) judge_id.
Proof. reflexivity. Qed.

(** The inserts of distinct judge ids into a table without a row for
    them. *)
Lemma insert_assignments_distinct (ids : list Z) :
  NoDup ids ->
  forall d,
    (forall ja, In ja (judge_assignments d) -> of_question ja = true ->
                ~ In (ja_judge_id ja) ids) ->
    exists added,
      insert_assignments queue_id tid created_at d ids
      = Returned (with_judge_assignments d (judge_assignments d ++ added)%list) /\
      map ja_judge_id added = ids /\
      Forall (fun ja => of_question ja = true) added.
Proof.
  induction 1 as [|id rest Hid Hnd IH]; intros d Hfree; simpl.
  - exists []. rewrite app_nil_r. destruct d. repeat split. constructor.
  - unfold insert_assignment.
    assert (existsb (same_assignment queue_id tid id) (judge_assignments d) = false) as ->.
    { destruct (existsb _ _) eqn:E; [|reflexivity].
      apply existsb_exists in E as (ja & Hja & E).
      rewrite same_assignment_of_question in E. apply andb_prop in E as [E1 E2].
      apply Z.eqb_eq in E2. exfalso. apply (Hfree ja Hja E1). left. symmetry. exact E2. }
    cbn [bind].
    set (new := mkAssignmentRow (next_id ja_id (judge_assignments d)) queue_id tid id
                                created_at).
    destruct (IH (with_judge_assignments d (judge_assignments d ++ [new])%list))
      as (added & Hins & Hmap & Hall).
    { cbn [judge_assignments with_judge_assignments]. intros ja Hja Hq Hin.
      apply in_app_or in Hja as [Hja|[<-|[]]].
      - apply (Hfree ja Hja Hq). right. exact Hin.
      - cbn in Hin. contradiction. }
    exists (new :: added). rewrite Hins.
    cbn [judge_assignments with_judge_assignments]. rewrite <- app_assoc.
    split; [reflexivity|]. split; [simpl; rewrite Hmap; reflexivity|].
    constructor; [|exact Hall].
    unfold of_question. cbn. rewrite !String.eqb_refl. reflexivity.
Qed.



Lemma filter_none {A : Type} (f : A -> bool) (l : list A) :
  (forall x, In x l -> f x = false) -> filter f l = [].
Proof.
  induction l as [|x l IH]; intros H; simpl; [reflexivity|].
  rewrite (H x (or_introl eq_refl)). apply IH. intros y Hy. apply H. right. exact Hy.
Qed.

Lemma filter_all {A : Type} (f : A -> bool) (l : list A) :
  Forall (fun x => f x = true) l -> filter f l = l.
Proof.
  induction 1 as [|x l Hx _ IH]; simpl; [reflexivity|]. rewrite Hx, IH. reflexivity.
Qed.

Lemma flat_map_via_map {A B C : Type} (g : B -> list C) (h : A -> B) (l : list A) :
  flat_map (fun x => g (h x)) l = flat_map g (map h l).
Proof. induction l as [|x l IH]; simpl; [reflexivity|]. rewrite IH. reflexivity. Qed.

Lemma filter_other_question (rows : list AssignmentRow) (q t : string) :
  (q, t) <> (queue_id, tid) ->
  filter (fun ja => String.eqb (ja_queue_id ja) q
                    && String.eqb (ja_question_template_id ja) t)
         (filter (fun ja => negb (String.eqb (ja_queue_id ja) queue_id
                                  && String.eqb (ja_question_template_id ja) tid)) rows)
  = filter (fun ja => String.eqb (ja_queue_id ja) q
                      && String.eqb (ja_question_template_id ja) t) rows.
Proof.
  intros Hne. induction rows as [|ja rows IH]; [reflexivity|].
  simpl.
  destruct (String.eqb (ja_queue_id ja) queue_id
            && String.eqb (ja_question_template_id ja) tid) eqn:E; simpl.
  - apply andb_prop in E as [H1 H2]. apply String.eqb_eq in H1, H2.
    destruct (String.eqb (ja_queue_id ja) q) eqn:E1; [|exact IH].
    destruct (String.eqb (ja_question_template_id ja) t) eqn:E2; [|exact IH].
    apply String.eqb_eq in E1, E2. exfalso. apply Hne. congruence.
  - destruct (String.eqb (ja_queue_id ja) q
              && String.eqb (ja_question_template_id ja) t);
      [rewrite IH; reflexivity|exact IH].
Qed.

(** The rows of the question after the DELETE of [assign_judges]. *)
Lemma deleted_question_rows (d : Db) (ja : AssignmentRow) :
  In ja (judge_assignments (delete_assignments_of_question d queue_id tid)) ->
  of_question ja = false.
Proof.
  cbn [judge_assignments delete_assignments_of_question with_judge_assignments].
  intros H. apply filter_In in H as [_ H]. apply negb_true_iff in H. exact H.
Qed.

End AssignmentExtras.

Section AssignmentTheorems.

(** [assign_judges] with pairwise distinct judge ids (integers that
    SQLite can bind) replaces the set of the question: afterwards the
    judge ids assigned to the question in the queue are exactly the given
    ones, whatever was assigned before, and they are read back in
    ascending order, not in the order given; the judges a run calls for
    the question are the active ones among them, in that order; the
    assignments of every other question and queue, and all other tables,
    are as before. *)
Theorem assign_judges_replaces (created_at : string) (d : Db) (a : JudgeAssignment.t) :
  NoDup (JudgeAssignment.judge_ids a) ->
  Forall (fun id => sqlite_integer id = true) (JudgeAssignment.judge_ids a) ->
  let queue_id := JudgeAssignment.queue_id a in
  let tid := JudgeAssignment.question_template_id a in
  exists d',
    assign_judges created_at d a = (Returned "Judges assigned successfully", d') /\
    Permutation (assigned_judge_ids d' queue_id tid) (JudgeAssignment.judge_ids a) /\
    StronglySorted Z.lt (assigned_judge_ids d' queue_id tid) /\
    select_assigned_judges d' queue_id tid
    = active_judges_of d (assigned_judge_ids d' queue_id tid) /\
    (forall q t, (q, t) <> (queue_id, tid) ->
                 assigned_judge_ids d' q t = assigned_judge_ids d q t) /\
    same_submissions d d' /\ judges d' = judges d.
Proof.
  intros Hnd _. cbn zeta. unfold assign_judges.
  set (queue_id := JudgeAssignment.queue_id a).
  set (tid := JudgeAssignment.question_template_id a).
  set (d0 := delete_assignments_of_question d queue_id tid).
  destruct (insert_assignments_distinct created_at queue_id tid
              (JudgeAssignment.judge_ids a) Hnd d0) as (added & Hins & Hmap & Hall).
  { intros ja Hja Hq. apply deleted_question_rows in Hja. congruence. }
  rewrite Hins. eexists. split; [reflexivity|].
  assert (Hold : forall ja, In ja (judge_assignments d0) ->
                            String.eqb (ja_queue_id ja) queue_id
                            && String.eqb (ja_question_template_id ja) tid = false)
    by (intros ja Hja; exact (deleted_question_rows queue_id tid d ja Hja)).
  assert (Hrows : filter (fun ja => String.eqb (ja_queue_id ja) queue_id
                                    && String.eqb (ja_question_template_id ja) tid)
                         (judge_assignments d0 ++ added)
                  = added).
  { rewrite filter_app, (filter_none _ _ Hold), (filter_all _ _ Hall). reflexivity. }
  assert (Hperm : Permutation (map ja_judge_id (index_order ja_judge_id added))
                              (JudgeAssignment.judge_ids a)).
  { rewrite <- Hmap. apply Permutation_map, index_order_perm. }
  unfold assigned_judge_ids, select_assigned_judges, active_judges_of.
  cbn [judge_assignments with_judge_assignments judges]. rewrite Hrows.
  split; [exact Hperm|].
  split.
  { apply sorted_nodup_strict.
    - apply sorted_map, index_order_sorted.
    - apply (Permutation_NoDup (Permutation_sym Hperm)). exact Hnd. }
  split.
  { apply (flat_map_via_map
             (fun id => filter (fun j => Z.eqb (j_id j) id && j_active j) (judges d))
             ja_judge_id). }
  split; [|split; [repeat split|reflexivity]].
  intros q t Hne. rewrite filter_app.
  assert (filter (fun ja => String.eqb (ja_queue_id ja) q
                            && String.eqb (ja_question_template_id ja) t) added = []) as ->.
  { apply filter_none. intros ja Hja. rewrite Forall_forall in Hall.
    pose proof (Hall ja Hja) as Hq. apply andb_prop in Hq as [H1 H2].
    apply String.eqb_eq in H1, H2.
    destruct (String.eqb (ja_queue_id ja) q) eqn:E1; [|reflexivity].
    destruct (String.eqb (ja_question_template_id ja) t) eqn:E2; [|reflexivity].
    apply String.eqb_eq in E1, E2. exfalso. apply Hne. congruence. }
  rewrite app_nil_r. do 2 f_equal.
  unfold d0. cbn [judge_assignments delete_assignments_of_question with_judge_assignments].
  apply filter_other_question. exact Hne.
Qed.


End AssignmentTheorems.

Section QueueExtras.

Lemma in_ids_iff (ids : list string) (x : string) : in_ids ids x = true <-> In x ids.
Proof.
  unfold in_ids. rewrite existsb_exists. split.
  - intros (y & Hy & E). apply String.eqb_eq in E. subst. exact Hy.
  - intros H. exists x. split; [exact H|apply String.eqb_refl].
Qed.

Lemma filter_not_in_ids {A : Type} (key : A -> string) (ids : list string)
      (rows : list A) (r : A) :
  In r (filter (fun r => negb (in_ids ids (key r))) rows) <->
  In r rows /\ ~ In (key r) ids.
Proof.
  rewrite filter_In. split; intros [H1 H2]; (split; [exact H1|]).
  - intros Hin. apply in_ids_iff in Hin. rewrite Hin in H2. discriminate.
  - destruct (in_ids ids (key r)) eqn:E; [|reflexivity].
    apply in_ids_iff in E. contradiction.
Qed.

Lemma delete_queue_effects (backend : Backend) (d d' : Db) (queue_id msg : string) :
  delete_queue d queue_id = (Returned msg, d') ->
  let ids := select_submission_ids d queue_id in
  select_submission_ids d' queue_id = [] /\
  delete_queue d' queue_id = (Raised (http_exception "Queue not found"), d') /\
  (forall q, q <> queue_id -> select_submission_ids d' q = select_submission_ids d q) /\
  (forall r, In r (questions d') <-> In r (questions d) /\ ~ In (q_submission_id r) ids) /\
  (forall r, In r (answers d') <-> In r (answers d) /\ ~ In (a_submission_id r) ids) /\
  (forall r, In r (evaluations d') <->
             In r (evaluations d) /\ ~ In (e_submission_id r) ids) /\
  (forall r, In r (judge_assignments d') <->
             In r (judge_assignments d) /\ ja_queue_id r <> queue_id) /\
  judges d' = judges d /\
  run_evaluations backend d' queue_id = mkRunResult (Returned (mkResponse 0 0 0 [])) d' [].
Proof.
  unfold delete_queue.
  destruct (select_submission_ids d queue_id) as [|id0 rest] eqn:Hids; [discriminate|].
  destruct (missing_column (evaluations_columns d) _); [discriminate|].
  destruct (missing_column (questions_columns d) _); [discriminate|].
  intros [= _ <-]. cbn zeta.
  assert (Hempty : forall q, select_submission_ids
                    (mkDb (questions_columns d) (evaluations_columns d)
                       (filter (fun r => negb (String.eqb (s_queue_id r) queue_id))
                               (submissions d))
                       (filter (fun r => negb (in_ids (id0 :: rest) (q_submission_id r)))
                               (questions d))
                       (filter (fun r => negb (in_ids (id0 :: rest) (a_submission_id r)))
                               (answers d))
                       (judges d)
                       (filter (fun r => negb (String.eqb (ja_queue_id r) queue_id))
                               (judge_assignments d))
                       (filter (fun r => negb (in_ids (id0 :: rest) (e_submission_id r)))
                               (evaluations d))) q
                  = if String.eqb q queue_id then [] else select_submission_ids d q).
  { intros q. unfold select_submission_ids. cbn [submissions].
    induction (submissions d) as [|s rows IH]; simpl.
    - destruct (String.eqb q queue_id); reflexivity.
    - destruct (String.eqb (s_queue_id s) queue_id) eqn:E1; simpl.
      + rewrite IH. destruct (String.eqb q queue_id) eqn:E2; [reflexivity|].
        apply String.eqb_eq in E1. rewrite E1, String.eqb_sym, E2. reflexivity.
      + destruct (String.eqb (s_queue_id s) q) eqn:E3; simpl; rewrite IH.
        * apply String.eqb_eq in E3. subst q. rewrite E1. reflexivity.
        * reflexivity. }
  split; [rewrite Hempty, String.eqb_refl; reflexivity|].
  split; [rewrite Hempty, String.eqb_refl; reflexivity|].
  split.
  { intros q Hq. rewrite Hempty.
    destruct (String.eqb q queue_id) eqn:E; [|reflexivity].
    apply String.eqb_eq in E. contradiction. }
  split; [intros r; exact (filter_not_in_ids q_submission_id (id0 :: rest) (questions d) r)|].
  split; [intros r; exact (filter_not_in_ids a_submission_id (id0 :: rest) (answers d) r)|].
  split; [intros r; exact (filter_not_in_ids e_submission_id (id0 :: rest) (evaluations d) r)|].
  split.
  { intros r. cbn [judge_assignments]. rewrite filter_In, negb_true_iff.
    split; intros [H1 H2]; (split; [exact H1|]).
    - intros E. rewrite E, String.eqb_refl in H2. discriminate.
    - destruct (String.eqb (ja_queue_id r) queue_id) eqn:E; [|reflexivity].
      apply String.eqb_eq in E. contradiction. }
  split; [reflexivity|].
  unfold run_evaluations. rewrite Hempty, String.eqb_refl. reflexivity.
Qed.

(** [delete_queue] on a queue that has a submission returns its message;
    afterwards the queue has no submission left and a second call answers
    404; no question, answer or evaluation of its submissions and no
    assignment of the queue is left; the submissions of the other queues,
    the rows that belong to other submissions and the judges are kept; a
    run on the queue then plans nothing. *)
Theorem delete_queue_removes_queue (backend : Backend) (d : Db) (queue_id : string)
        (s : SubmissionRow) :
  In s (submissions d) -> s_queue_id s = queue_id ->
  str_in "submission_id" (questions_columns d) = true ->
  str_in "submission_id" (evaluations_columns d) = true ->
  exists d',
    delete_queue d queue_id
    = (Returned ("Queue '" ++ queue_id ++ "' and all associated data deleted successfully"),
       d') /\
    let ids := select_submission_ids d queue_id in
    select_submission_ids d' queue_id = [] /\
    delete_queue d' queue_id = (Raised (http_exception "Queue not found"), d') /\
    (forall q, q <> queue_id -> select_submission_ids d' q = select_submission_ids d q) /\
    (forall r, In r (questions d') <-> In r (questions d) /\ ~ In (q_submission_id r) ids) /\
    (forall r, In r (answers d') <-> In r (answers d) /\ ~ In (a_submission_id r) ids) /\
    (forall r, In r (evaluations d') <->
               In r (evaluations d) /\ ~ In (e_submission_id r) ids) /\
    (forall r, In r (judge_assignments d') <->
               In r (judge_assignments d) /\ ja_queue_id r <> queue_id) /\
    judges d' = judges d /\
    run_evaluations backend d' queue_id = mkRunResult (Returned (mkResponse 0 0 0 [])) d' [].
Proof.
  intros Hs Hq Hqc Hec.
  assert (exists d',
             delete_queue d queue_id
             = (Returned ("Queue '" ++ queue_id
                          ++ "' and all associated data deleted successfully"), d'))
    as [d' Hd].
  { unfold delete_queue.
    destruct (select_submission_ids d queue_id) as [|id0 rest] eqn:E.
    - exfalso.
      assert (In (s_id s) (select_submission_ids d queue_id)) as Hin.
      { unfold select_submission_ids. apply in_map. apply filter_In.
        split; [exact Hs|]. rewrite Hq. apply String.eqb_refl. }
      rewrite E in Hin. destruct Hin.
    - unfold missing_column. cbn [find]. rewrite Hqc, Hec. cbn [negb].
      eexists. reflexivity. }
  exists d'. split; [exact Hd|].
  exact (delete_queue_effects backend d d' queue_id _ Hd).
Qed.

(** [delete_queue] on a queue without submissions answers 404 and deletes
    nothing, not even the assignments made for that queue. *)
Theorem delete_queue_unknown (d : Db) (queue_id : string) :
  (forall s, In s (submissions d) -> s_queue_id s <> queue_id) ->
  delete_queue d queue_id = (Raised (http_exception "Queue not found"), d).
Proof.
  intros Hnone. unfold delete_queue.
  assert (select_submission_ids d queue_id = []) as ->; [|reflexivity].
  unfold select_submission_ids. rewrite filter_none; [reflexivity|].
  intros s Hs. apply String.eqb_neq. apply Hnone. exact Hs.
Qed.

End QueueExtras.

(* ================================================================== *)
(** ** Answers after an upload, and the prompt *)
(* ================================================================== *)

Section MoreUploadExtras.

Lemma find_map_arg {A B : Type} (g : B -> bool) (h : A -> B) (l : list A) :
  find g (map h l) = option_map h (find (fun x => g (h x)) l).
Proof.
  induction l as [|x l IH]; simpl; [reflexivity|].
  destruct (g (h x)); [reflexivity|exact IH].
Qed.

(** A pair of submission and question template without an answer row
    gets, by an upload, the first answer the payload carries for it: it is
    what a run reads afterwards. *)
Theorem upload_then_select_answer (d d' : Db) (payload : list Models.Submission)
        (msg sub_id tid choice : string) (reasoning : option string) :
  upload_submissions d payload = (Returned msg, d') ->
  select_answer d sub_id tid = None ->
  find (content_of_pair sub_id tid) (payload_answers payload)
    = Some (sub_id, tid, choice, reasoning) ->
  exists a, select_answer d' sub_id tid = Some a /\
            answer_content a = (sub_id, tid, choice, reasoning).
Proof.
  unfold upload_submissions.
  destruct (upload_loop d 0 payload) as [[d1 n]|e] eqn:H; [|discriminate].
  intros [= _ <-]. apply upload_loop_effects in H as (_ & _ & _ & (added & Ha & Hm) & _).
  unfold select_answer. rewrite Ha, find_append. intros ->.
  rewrite <- Hm, find_map_arg.
  change (fun x => content_of_pair sub_id tid (answer_content x))
    with (fun a => String.eqb (a_submission_id a) sub_id
                   && String.eqb (a_question_template_id a) tid).
  destruct (find _ added) as [a|]; [|discriminate].
  cbn [option_map]. intros E. exists a. split; [reflexivity|congruence].
Qed.

End MoreUploadExtras.

Section PromptExtras.

Lemma append_associative (a b c : string) : (a ++ b) ++ c = a ++ (b ++ c).
Proof. induction a as [|x a IH]; simpl; [reflexivity|]. rewrite IH. reflexivity. Qed.

(** The sections of the prompt.  Without grounding content (none, or the
    empty text) there is no context section: the prompt starts with the
    question header.  With content the prompt starts with the context
    header and carries the content before the question header.  In both
    cases the question text comes before the answer text, and the reply
    grammar that [parse_verdict] reads comes after the answer. *)
Theorem build_prompt_sections (q_text : string) (q_content : option string)
        (answer : string) :
  (truthy q_content = None ->
   startswith (build_prompt q_text q_content answer) question_header = true) /\
  (forall c, truthy q_content = Some c ->
             exists mid post,
               build_prompt q_text q_content answer
               = String newline context_header ++ mid ++ c ++ post /\
               startswith post (String newline (String newline question_header)) = true) /\
  exists pre mid post,
    build_prompt q_text q_content answer = pre ++ q_text ++ mid ++ answer ++ post /\
    contains post verdict_grammar = true.
Proof.
  split; [|split].
  - intros H. unfold build_prompt, context_section. rewrite H.
    vm_compute. reflexivity.
  - intros c H. unfold build_prompt, context_section. rewrite H.
    match goal with
    | |- exists mid post, (?h ++ c ++ ?m) ++ ?rest = _ /\ _ =>
        exists (substring 16 (String.length h) h), (m ++ rest)
    end.
    split; [rewrite !append_associative;
            rewrite <- (append_associative (String newline context_header));
            f_equal; vm_compute; reflexivity|].
    vm_compute. reflexivity.
  - unfold build_prompt. cbv zeta.
    match goal with
    | |- exists pre mid post, ?c ++ ?h ++ q_text ++ ?m ++ answer ++ ?p = _ /\ _ =>
        exists (c ++ h), m, p
    end.
    split; [rewrite append_associative; reflexivity|].
    vm_compute. reflexivity.
Qed.

End PromptExtras.

(* ================================================================== *)
(** ** The theorems above at concrete inputs *)
(* ================================================================== *)

Section Instances.

Lemma run_stores_rows_in_domain_witness :
  In row_pass (evaluations full_store) \/ row_in_domain row_pass.
Proof.
  apply (run_stores_rows_in_domain backend_pass "Q1" full_store row_pass).
  left. reflexivity.
Defined.

Lemma run_stores_rows_of_active_judges_witness :
  In row_pass (evaluations full_store) \/ row_of_attempt full_store "Q1" row_pass.
Proof.
  apply (run_stores_rows_of_active_judges backend_pass "Q1" full_store row_pass).
  left. reflexivity.
Defined.

Lemma upload_appends_payload_witness :
  let result := upload_submissions full_store [submission_s1; submission_s2] in
  fst result = Returned "Successfully uploaded 2 submissions" /\
  same_judging full_store (snd result) /\
  (exists added, questions (snd result) = (questions full_store ++ added)%list /\
                 map question_content added
                 = [("s2", "q1", "single_choice", "Is X compliant?", None, 1%Z)]) /\
  (exists added, answers (snd result) = (answers full_store ++ added)%list /\
                 map answer_content added
                 = [("s1", "q1", "yes", None); ("s2", "q1", "yes", None)]).
Proof.
  apply (upload_appends_payload full_store [submission_s1; submission_s2]).
  - repeat constructor.
  - left. reflexivity.
Defined.


(** A second upload of s1 into a table that holds s1 and s3: the ids stay
    unique, s1 is there and the row of s3 is kept. *)
Lemma upload_keeps_submission_ids_unique_witness :
  submission_ids_unique uploaded_both /\
  submission_ids_unique uploaded_both_again /\
  In "s1" (map s_id (submissions uploaded_both_again)) /\
  In (mkSubmissionRow "s3" "Q1" "t3" 3 "{}") (submissions uploaded_both_again).
Proof.
  assert (submission_ids_unique uploaded_both) as Hu.
  { unfold submission_ids_unique.
    change (map s_id (submissions uploaded_both)) with ["s1"; "s3"].
    constructor; [intros [H|[]]; discriminate|].
    constructor; [intros []|constructor]. }
  destruct (upload_keeps_submission_ids_unique
              uploaded_both uploaded_both_again [submission_s1_changed]
              "Successfully uploaded 1 submissions" eq_refl) as (H1 & H2 & H3).
  split; [exact Hu|]. split; [exact (H1 Hu)|]. split.
  - apply (H2 submission_s1_changed). left. reflexivity.
  - apply H3.
    + right. left. reflexivity.
    + intros [H|[]]. discriminate.
Defined.

Lemma upload_never_changes_the_answer_read_witness :
  select_answer uploaded_twice "s1" "q1" = Some (mkAnswerRow 1 "s1" "q1" "yes" None).
Proof.
  apply (upload_never_changes_the_answer_read
           uploaded_once uploaded_twice [submission_s1_changed]
           "Successfully uploaded 1 submissions").
  - reflexivity.
  - reflexivity.
Defined.

Lemma upload_then_select_answer_witness :
  exists a, select_answer uploaded_once "s1" "q1" = Some a /\
            answer_content a = ("s1", "q1", "yes", None).
Proof.
  apply (upload_then_select_answer
           (init_db None) uploaded_once [submission_s1]
           "Successfully uploaded 1 submissions").
  - reflexivity.
  - reflexivity.
  - reflexivity.
Defined.



Lemma stats_reject_malformed_judge_ids_witness :
  exists e', get_evaluation_stats full_store (Some "1,x") None None = Raised e' /\
             exc_class e' = ValueError.
Proof.
  apply (stats_reject_malformed_judge_ids full_store "1,x" None None "x"
           (mkExc ValueError "invalid literal for int() with base 10: 'x'")).
  - reflexivity.
  - discriminate.
  - right. left. reflexivity.
  - reflexivity.
Defined.

Lemma create_judge_then_get_witness :
  exists row d',
    create_judge "2024-01-05T00:00:00" store_three_judges judge_kind = (Returned row, d') /\
    (forall r, In r (judges store_three_judges) -> j_id r <> j_id row) /\
    (j_name row, j_system_prompt row, j_model_name row, j_active row, j_created_at row)
    = ("J4", "Be kind.", "mistral", true, "2024-01-05T00:00:00") /\
    get_judge d' (j_id row) = Returned row /\
    (forall r, In r (judges store_three_judges) ->
               get_judge d' (j_id r) = get_judge store_three_judges (j_id r)) /\
    same_submissions store_three_judges d' /\
    judge_assignments d' = judge_assignments store_three_judges.
Proof.
  apply (create_judge_then_get "2024-01-05T00:00:00" store_three_judges judge_kind).
  intros r [<-|[<-|[<-|[]]]]; discriminate.
Defined.

Lemma create_judge_rejects_taken_name_witness :
  create_judge "2024-01-05T00:00:00" store_three_judges judge_strict
  = (Raised (http_exception "Error creating judge: UNIQUE constraint failed: judges.name"),
     store_three_judges).
Proof.
  apply (create_judge_rejects_taken_name
           "2024-01-05T00:00:00" store_three_judges judge_strict judge_J1).
  - left. reflexivity.
  - reflexivity.
Defined.

(** J2 gets a new name and a new system prompt and keeps its model name
    and its activity. *)
Lemma update_judge_result_witness :
  exists row d',
    update_judge store_three_judges 2 rename_and_prompt = (Returned row, d') /\
    j_id row = 2%Z /\
    j_created_at row = "2024-01-01T00:00:00" /\
    j_name row = "J9" /\
    j_system_prompt row = "Be exact." /\
    j_model_name row = "mistral" /\
    j_active row = true /\
    get_judge d' 2 = Returned row /\
    (forall id, id <> 2%Z -> get_judge d' id = get_judge store_three_judges id) /\
    same_submissions store_three_judges d' /\
    (JudgeUpdate.active rename_and_prompt <> Some false ->
     judge_assignments d' = judge_assignments store_three_judges).
Proof.
  apply (update_judge_result store_three_judges 2 rename_and_prompt).
  - reflexivity.
  - intros n r [= <-] [<-|[<-|[<-|[]]]] _; discriminate.
Defined.

Lemma deactivation_drops_assignments_witness :
  let d' := snd (update_judge store_three_judges 2 deactivate) in
  j_id (mkJudgeRow 2 "J2" "Be fair." "mistral" false "2024-01-01T00:00:00") = 2%Z /\
  j_active (mkJudgeRow 2 "J2" "Be fair." "mistral" false "2024-01-01T00:00:00") = false /\
  (forall ja, In ja (judge_assignments d') <->
              In ja (judge_assignments store_three_judges) /\ ja_judge_id ja <> 2%Z) /\
  (forall queue_id tid j, In j (select_assigned_judges d' queue_id tid) ->
                          j_id j <> 2%Z).
Proof.
  apply (deactivation_drops_assignments
           store_three_judges (snd (update_judge store_three_judges 2 deactivate))
           2 deactivate).
  - reflexivity.
  - reflexivity.
Defined.

(** The ids 3 and 1 are given in this order. *)
Lemma assign_judges_replaces_witness :
  exists d',
    assign_judges "2024-01-03T00:00:00" store_three_judges assign_1_3
    = (Returned "Judges assigned successfully", d') /\
    Permutation (assigned_judge_ids d' "Q1" "q1") [3%Z; 1%Z] /\
    StronglySorted Z.lt (assigned_judge_ids d' "Q1" "q1") /\
    select_assigned_judges d' "Q1" "q1"
    = active_judges_of store_three_judges (assigned_judge_ids d' "Q1" "q1") /\
    (forall q t, (q, t) <> ("Q1", "q1") ->
                 assigned_judge_ids d' q t = assigned_judge_ids store_three_judges q t) /\
    same_submissions store_three_judges d' /\
    judges d' = judges store_three_judges.
Proof.
  apply (assign_judges_replaces "2024-01-03T00:00:00" store_three_judges assign_1_3).
  - constructor; [intros [H|[]]; discriminate|].
    constructor; [intros []|constructor].
  - repeat constructor.
Defined.

(** They are read back as 1 and 3, and a run calls J1 before J3. *)
Lemma assign_judges_reads_back_by_id :
  let d' := snd (assign_judges "2024-01-03T00:00:00" store_three_judges assign_1_3) in
  assigned_judge_ids d' "Q1" "q1" = [1%Z; 3%Z] /\
  map j_name (select_assigned_judges d' "Q1" "q1") = ["J1"; "J3"].
Proof. split; vm_compute; reflexivity. Qed.


Lemma delete_queue_removes_queue_witness :
  exists d',
    delete_queue store_three_judges "Q1"
    = (Returned "Queue 'Q1' and all associated data deleted successfully", d') /\
    select_submission_ids d' "Q1" = [] /\
    delete_queue d' "Q1" = (Raised (http_exception "Queue not found"), d').
Proof.
  destruct (delete_queue_removes_queue backend_pass store_three_judges "Q1" submission_S1)
    as (d' & H1 & H2 & H3 & _).
  - left. reflexivity.
  - reflexivity.
  - reflexivity.
  - reflexivity.
  - exists d'. split; [exact H1|]. split; [exact H2|exact H3].
Defined.

Lemma delete_queue_unknown_witness :
  delete_queue store_three_judges "Q2"
  = (Raised (http_exception "Queue not found"), store_three_judges).
Proof.
  apply (delete_queue_unknown store_three_judges "Q2").
  intros s [<-|[]]. discriminate.
Defined.

End Instances.
